(** * The MCP client's tool-calling conversation loop

    A shallow embedding of [mcp/mcp-client/client.py] (class [MCPClient]):
    the per-provider query processing ([process_query] and the three
    [_process_with_*] paths), session start-up ([connect_to_server]) and the
    interactive [chat_loop].

    The model SDKs, the MCP tool host and the Python runtime services the
    client relies on ([json.loads], f-string formatting of values) are
    external: they appear here as oracles of a [World] and as the members of
    a [PyRuntime].  Every interaction with the outside is logged, with its
    outcome, in an event trace. *)

From Stdlib Require Import List String Ascii Bool Arith Lia.
Import ListNotations.
Open Scope string_scope.

Set Implicit Arguments.

(** ** Python values, exceptions and string helpers *)

(** A raised Python exception: its class name and [str(e)]. *)
Record PyExn := mkExn { exn_class : string; exn_text : string }.

(** The classes of the standard library that derive from [BaseException]
    without deriving from [Exception]: [except Exception] does not catch
    them.  ([CancelledError] is [asyncio.CancelledError].) *)
Definition outside_Exception : list string :=
  [ "BaseException"; "BaseExceptionGroup"; "CancelledError"; "GeneratorExit";
    "KeyboardInterrupt"; "SystemExit" ].

(** [isinstance(e, Exception)]. *)
Definition is_Exception (e : PyExn) : bool :=
  negb (existsb (String.eqb (exn_class e)) outside_Exception).

(** What reading [text] raises on an object of class [class_name] that has
    no such attribute. *)
Definition no_text_attribute (class_name : string) : PyExn :=
  mkExn "AttributeError"
    ("'" ++ class_name ++ "' object has no attribute 'text'").

(** The outcome of an expression that may raise. *)
Inductive Result (A : Type) : Type :=
| Ok (a : A)
| Raise (e : PyExn).
Arguments Ok {A} a.
Arguments Raise {A} e.

(** What the client takes from the Python runtime: the values JSON text
    decodes to (tool arguments, schemas, tool output), [json.loads], the
    text an f-string gives for such a value, and the text [print] gives for
    a list of names. *)
Class PyRuntime := {
  Json : Type;
  json_loads : string -> Result Json;
  py_format : Json -> string;
  py_format_names : list string -> string
}.

Definition nl : string := String (ascii_of_nat 10) EmptyString.

(** [sep.join(parts)]. *)
Definition join (sep : string) (parts : list string) : string :=
  String.concat sep parts.

(** [s.startswith(p)]. *)
Definition startswith (s p : string) : bool := String.prefix p s.

Fixpoint rev_string (s : string) : string :=
  match s with
  | EmptyString => EmptyString
  | String c s' => rev_string s' ++ String c EmptyString
  end.

(** [s.endswith(p)]. *)
Definition endswith (s p : string) : bool :=
  String.prefix (rev_string p) (rev_string s).

(** [s.replace(old, new)] for a non-empty [old]: every occurrence, scanning
    from the left, occurrences not overlapping.  [skip] counts the characters
    of a matched occurrence still to be passed over. *)
Fixpoint replace_from (old new s : string) (skip : nat) : string :=
  match s with
  | EmptyString => EmptyString
  | String c s' =>
      match skip with
      | S k => replace_from old new s' k
      | O =>
          if String.prefix old s
          then new ++ replace_from old new s' (String.length old - 1)
          else String c (replace_from old new s' 0)
      end
  end.

Definition replace (s old new : string) : string := replace_from old new s 0.

(** Truth value of an optional string: [None] and the empty string are
    false. *)
Definition truthy (o : option string) : bool :=
  match o with
  | Some (String _ _) => true
  | _ => false
  end.

(** [o or EmptyString] for an optional string. *)
Definition or_empty (o : option string) : string :=
  match o with
  | Some s => s
  | None => EmptyString
  end.

Section Client.

Context {RT : PyRuntime}.

(** ** Data exchanged with the tool host *)

(** A tool as [list_tools] reports it. *)
Record Tool := mkTool {
  tool_name : string;
  tool_description : string;
  tool_inputSchema : Json
}.

(** The dict [process_query] builds per tool. *)
Record ToolDict := mkToolDict {
  td_name : string;
  td_description : string;
  td_input_schema : Json
}.

(** The result of [call_tool]; the client reads [content] only. *)
Record CallToolResult := mkCallToolResult {
  ctr_content : Json;
  ctr_isError : bool
}.

(** ** Messages: the transcript sent to a backend *)

(** The [content] entry of a message dict: a string, [None], or the content
    of a tool result. *)
Inductive Content :=
| CStr (s : string)
| CNone
| CResult (c : Json).

Definition content_of_option (o : option string) : Content :=
  match o with
  | Some s => CStr s
  | None => CNone
  end.

(** One entry of a message's [tool_calls] list. *)
Record ToolCallDict := mkToolCallDict {
  tcd_id : string;
  tcd_name : string;
  tcd_arguments : string
}.

(** A message dict; absent keys are [None]. *)
Record Message := mkMessage {
  msg_role : string;
  msg_content : Content;
  msg_tool_calls : option (list ToolCallDict);
  msg_tool_call_id : option string
}.

Definition plain_message (role : string) (c : Content) : Message :=
  mkMessage role c None None.

(** ** Anthropic: content-block responses *)

(** A block of [response.content].  A [tool_use] block may carry a [text]
    attribute, which the client probes with [hasattr].  A block of another
    type comes with the name of its Python class. *)
Inductive ContentBlock :=
| TextBlock (text : string)
| ToolUseBlock (name : string) (input : Json) (text : option string)
| OtherBlock (class_name : string) (type : string).

Record AnthropicResponse := mkAnthropicResponse {
  ar_content : list ContentBlock
}.

Record AnthropicRequest := mkAnthropicRequest {
  areq_model : string;
  areq_max_tokens : nat;
  areq_messages : list Message;
  areq_tools : option (list ToolDict)
}.

(** ** Gemini: function-call parts *)

Record GeminiFunction := mkGeminiFunction {
  gf_name : string;
  gf_description : string;
  gf_parameters : Json
}.

Record FunctionCall := mkFunctionCall {
  fc_name : string;
  fc_args : string
}.

(** A part; [function_call] is [None] when the attribute is absent. *)
Record Part := mkPart {
  part_function_call : option FunctionCall
}.

(** A candidate; [content] is [None] when absent or empty. *)
Record Candidate := mkCandidate {
  cand_content : option (list Part)
}.

(** What the client reads of a response: its [text], which it reads as soon
    as [send_message] has returned, and its [candidates].  A response whose
    [text] cannot be read is a send that raised: nothing comes between the
    two. *)
Record GeminiResponse := mkGeminiResponse {
  gr_text : string;
  gr_candidates : list Candidate
}.

(** ** OpenRouter: [tool_calls] arrays *)

Record ORFunction := mkORFunction {
  orf_name : string;
  orf_description : string;
  orf_parameters : Json
}.

(** [{"type": "function", "function": {...}}]. *)
Record ORTool := mkORTool {
  ort_type : string;
  ort_function : ORFunction
}.

Record ORToolCall := mkORToolCall {
  ortc_id : string;
  ortc_function_name : string;
  ortc_function_arguments : string
}.

Record ORMessage := mkORMessage {
  orm_content : option string;
  orm_tool_calls : option (list ORToolCall)
}.

Record OpenRouterResponse := mkOpenRouterResponse {
  or_choices : list ORMessage
}.

Record OpenRouterRequest := mkOpenRouterRequest {
  oreq_model : string;
  oreq_messages : list Message;
  oreq_tools : option (list ORTool);
  oreq_tool_choice : option string;
  oreq_max_tokens : nat
}.

(** ** Events and the world *)

(** Everything the client does to the outside, with what came back. *)
Inductive Event :=
| EvOpenSession (command : string) (args : list string) (out : Result unit)
| EvListTools (out : Result (list Tool))
| EvCallTool (name : string) (args : Json) (out : Result CallToolResult)
| EvAnthropicCreate (req : AnthropicRequest) (out : Result AnthropicResponse)
| EvGeminiStartChat (model : string) (functions : list GeminiFunction)
    (out : Result unit)
| EvGeminiSend (content : Content) (out : Result GeminiResponse)
| EvOpenRouterCreate (req : OpenRouterRequest)
    (out : Result OpenRouterResponse)
| EvPrint (text : string).

(** [print] is taken to succeed: it has no outcome to log. *)

(** The outside: each service answers a request knowing the events so far. *)
Record World := mkWorld {
  open_session : list Event -> string -> list string -> Result unit;
  list_tools : list Event -> Result (list Tool);
  call_tool : list Event -> string -> Json -> Result CallToolResult;
  anthropic_messages_create :
    list Event -> AnthropicRequest -> Result AnthropicResponse;
  gemini_start_chat :
    list Event -> string -> list GeminiFunction -> Result unit;
  gemini_send_message : list Event -> Content -> Result GeminiResponse;
  openrouter_chat_completions_create :
    list Event -> OpenRouterRequest -> Result OpenRouterResponse
}.

(** ** The effect monad

    A computation reads the world and the events so far, and gives its
    outcome with the events it added. *)
Definition M (A : Type) : Type :=
  World -> list Event -> Result A * list Event.

Definition ret {A : Type} (a : A) : M A := fun _ _ => (Ok a, []).

Definition bind {A B : Type} (m : M A) (f : A -> M B) : M B :=
  fun w h =>
    match m w h with
    | (Ok a, es) =>
        let '(r, es') := f a w (h ++ es)%list in (r, (es ++ es')%list)
    | (Raise e, es) => (Raise e, es)
    end.

Definition raise {A : Type} (e : PyExn) : M A := fun _ _ => (Raise e, []).

(** [try: m except Exception as e: handler e].  An exception that is not an
    [Exception] passes through. *)
Definition try_except {A : Type} (m : M A) (handler : PyExn -> M A) : M A :=
  fun w h =>
    match m w h with
    | (Ok a, es) => (Ok a, es)
    | (Raise e, es) =>
        if is_Exception e
        then let '(r, es') := handler e w (h ++ es)%list in
             (r, (es ++ es')%list)
        else (Raise e, es)
    end.

Definition emit (e : Event) : M unit := fun _ _ => (Ok tt, [e]).

(** A request to the outside: ask the oracle, log request and outcome. *)
Definition request {A : Type} (oracle : World -> list Event -> Result A)
    (log : Result A -> Event) : M A :=
  fun w h => let out := oracle w h in (out, [log out]).

End Client.

Notation "x <- m ;; k" := (bind m (fun x => k))
  (at level 61, m at next level, right associativity).
Notation "m ;;; k" := (bind m (fun _ => k))
  (at level 61, right associativity).

(** [for x in xs: body], threading the local variables [s] the body
    updates; an exception in the body ends the loop. *)
Fixpoint for_each {RT : PyRuntime} {X S : Type} (xs : list X)
    (body : X -> S -> M S) (s : S) : M S :=
  match xs with
  | [] => ret s
  | x :: rest => s' <- body x s ;; for_each rest body s'
  end.

(** ** More string helpers for the interactive loop

    A Python [str] is held as the bytes of its UTF-8 encoding. *)

(** The ASCII characters [str.strip] removes: tab to carriage return, the
    separators 0x1C to 0x1F, the space. *)
Definition is_space (c : ascii) : bool :=
  let n := nat_of_ascii c in
  Nat.eqb n 32 || (Nat.leb 9 n && Nat.leb n 13)
    || (Nat.leb 28 n && Nat.leb n 31).

(** The two-byte characters it removes: U+0085 and U+00A0. *)
Definition is_space2 (a b : ascii) : bool :=
  Nat.eqb (nat_of_ascii a) 194
  && (Nat.eqb (nat_of_ascii b) 133 || Nat.eqb (nat_of_ascii b) 160).

(** The three-byte characters it removes: U+1680, U+2000 to U+200A, U+2028,
    U+2029, U+202F, U+205F and U+3000. *)
Definition is_space3 (a b c : ascii) : bool :=
  let x := nat_of_ascii a in
  let y := nat_of_ascii b in
  let z := nat_of_ascii c in
  (Nat.eqb x 225 && Nat.eqb y 154 && Nat.eqb z 128)
  || (Nat.eqb x 226 && Nat.eqb y 128
      && ((Nat.leb 128 z && Nat.leb z 138)
          || Nat.eqb z 168 || Nat.eqb z 169 || Nat.eqb z 175))
  || (Nat.eqb x 226 && Nat.eqb y 129 && Nat.eqb z 159)
  || (Nat.eqb x 227 && Nat.eqb y 128 && Nat.eqb z 128).

(** [s.lstrip()]. *)
Fixpoint lstrip (s : string) : string :=
  match s with
  | EmptyString => EmptyString
  | String a s1 =>
      if is_space a then lstrip s1
      else
        match s1 with
        | EmptyString => s
        | String b s2 =>
            if is_space2 a b then lstrip s2
            else
              match s2 with
              | EmptyString => s
              | String c s3 => if is_space3 a b c then lstrip s3 else s
              end
        end
  end.

(** [lstrip] on a string written backwards: the bytes of a character come
    last byte first. *)
Fixpoint lstrip_reversed (s : string) : string :=
  match s with
  | EmptyString => EmptyString
  | String a s1 =>
      if is_space a then lstrip_reversed s1
      else
        match s1 with
        | EmptyString => s
        | String b s2 =>
            if is_space2 b a then lstrip_reversed s2
            else
              match s2 with
              | EmptyString => s
              | String c s3 =>
                  if is_space3 c b a then lstrip_reversed s3 else s
              end
        end
  end.

(** [s.strip()]. *)
Definition strip (s : string) : string :=
  rev_string (lstrip_reversed (rev_string (lstrip s))).

Definition lower_ascii (c : ascii) : ascii :=
  let n := nat_of_ascii c in
  if Nat.leb 65 n && Nat.leb n 90 then ascii_of_nat (n + 32) else c.

(** [s.lower()] on the ASCII letters; other bytes are kept.  The loop only
    compares the result with "quit" and "model list" and tests it for the
    prefix "model set ", and a character outside ASCII lowers to nothing
    that completes one of these (U+212A lowers to "k", U+0130 to "i"
    followed by U+0307), so the three tests come out as in Python. *)
Fixpoint lower (s : string) : string :=
  match s with
  | EmptyString => EmptyString
  | String c s' => String (lower_ascii c) (lower s')
  end.

(** [s[n:]]. *)
Fixpoint drop_chars (n : nat) (s : string) : string :=
  match n, s with
  | O, _ => s
  | S k, EmptyString => EmptyString
  | S k, String _ s' => drop_chars k s'
  end.

(** The bullet bytes of the model listing, as they stand in the source. *)
Definition bullet : string :=
  String (ascii_of_nat 195) (String (ascii_of_nat 162)
  (String (ascii_of_nat 226) (String (ascii_of_nat 130)
  (String (ascii_of_nat 172) (String (ascii_of_nat 194)
  (String (ascii_of_nat 162) EmptyString)))))).

Section Operations.

Context {RT : PyRuntime}.

(** ** The client object *)

(** [MCPClient]: [session] tells whether [self.session] is set, [gemini] and
    [openrouter] whether those clients were configured.  The Anthropic
    client is built unconditionally and has no field of its own. *)
Record MCPClient := mkClient {
  session : bool;
  gemini : bool;
  openrouter : bool;
  current_model : string
}.

(** [MCPClient.__init__], reading the environment through [getenv]. *)
Definition __init__ (getenv : string -> option string) : MCPClient :=
  {| session := false;
     gemini := truthy (getenv "GEMINI_API_KEY");
     openrouter := truthy (getenv "OPENROUTER_API_KEY");
     current_model :=
       match getenv "DEFAULT_MODEL" with
       | Some m => m
       | None => "anthropic/claude-3-5-sonnet"
       end |}.

(** [self.session.list_tools()]. *)
Definition session_list_tools (self : MCPClient) : M (list Tool) :=
  if session self
  then request list_tools EvListTools
  else raise (mkExn "AttributeError"
                "'NoneType' object has no attribute 'list_tools'").

(** [self.session.call_tool(tool_name, tool_args)], on a session that
    [process_query] has already used. *)
Definition session_call_tool (tool_name : string) (tool_args : Json)
    : M CallToolResult :=
  request (fun w h => call_tool w h tool_name tool_args)
          (EvCallTool tool_name tool_args).

Definition connect_to_server (self : MCPClient) (server_script_path : string)
    : M MCPClient :=
  let is_python := endswith server_script_path ".py" in
  let is_js := endswith server_script_path ".js" in
  if negb (is_python || is_js)
  then raise (mkExn "ValueError" "Server script must be a .py or .js file")
  else
    let command := if is_python then "python" else "node" in
    request (fun w h => open_session w h command [server_script_path])
            (EvOpenSession command [server_script_path]) ;;;
    tools <- request list_tools EvListTools ;;
    emit (EvPrint (nl ++ "Connected to server with tools: "
                      ++ py_format_names (map tool_name tools))) ;;;
    ret {| session := true; gemini := gemini self;
           openrouter := openrouter self;
           current_model := current_model self |}.

Definition set_model (self : MCPClient) (model : string) : M MCPClient :=
  emit (EvPrint ("Model set to: " ++ model)) ;;;
  ret {| session := session self; gemini := gemini self;
         openrouter := openrouter self; current_model := model |}.

Definition get_available_models (self : MCPClient)
    : list (string * list string) :=
  [ ("anthropic", ["claude-3-5-sonnet-20241022"; "claude-3-opus-20240229"]);
    ("gemini",
     if gemini self
     then ["gemini-2.0-flash"; "gemini-1.5-flash"; "gemini-1.5-pro"]
     else []);
    ("openrouter",
     if openrouter self
     then ["openai/gpt-4o"; "anthropic/claude-3-opus"]
     else []) ].

(** ** Query processing *)

(** The local lists a provider path builds while it runs. *)
Record LoopState := mkLoopState {
  ls_messages : list Message;
  ls_tool_results : list (string * CallToolResult);
  ls_final_text : list string
}.

(** The line announcing a tool call in the answer. *)
Definition calling_tool_line (tool_name : string) (tool_args : Json)
    : string :=
  "[Calling tool " ++ tool_name ++ " with args " ++ py_format tool_args
    ++ "]".

(** *** Anthropic *)

Definition anthropic_create (req : AnthropicRequest) : M AnthropicResponse :=
  request (fun w h => anthropic_messages_create w h req)
          (EvAnthropicCreate req).

(** [response.content[0].text]. *)
Definition first_block_text (response : AnthropicResponse) : M string :=
  match ar_content response with
  | [] => raise (mkExn "IndexError" "list index out of range")
  | TextBlock text :: _ => ret text
  | ToolUseBlock _ _ (Some text) :: _ => ret text
  | ToolUseBlock _ _ None :: _ => raise (no_text_attribute "ToolUseBlock")
  | OtherBlock class_name _ :: _ => raise (no_text_attribute class_name)
  end.

(** The [tool_use] branch of the loop body. *)
Definition anthropic_tool_use (model_name tool_name : string)
    (tool_args : Json) (text : option string) (st : LoopState)
    : M LoopState :=
  result <- session_call_tool tool_name tool_args ;;
  let tool_results := (ls_tool_results st ++ [(tool_name, result)])%list in
  let final_text :=
    (ls_final_text st ++ [calling_tool_line tool_name tool_args])%list in
  let messages :=
    if truthy text
    then (ls_messages st
            ++ [plain_message "assistant" (content_of_option text)])%list
    else ls_messages st in
  let messages :=
    (messages ++ [plain_message "user" (CResult (ctr_content result))])%list
  in
  response <- anthropic_create
                {| areq_model := model_name; areq_max_tokens := 1000;
                   areq_messages := messages; areq_tools := None |} ;;
  text' <- first_block_text response ;;
  ret (mkLoopState messages tool_results (final_text ++ [text'])%list).

(** The body of [for content in response.content]. *)
Definition anthropic_block (model_name : string) (content : ContentBlock)
    (st : LoopState) : M LoopState :=
  match content with
  | TextBlock text =>
      ret (mkLoopState (ls_messages st) (ls_tool_results st)
             (ls_final_text st ++ [text])%list)
  | ToolUseBlock tool_name tool_args text =>
      anthropic_tool_use model_name tool_name tool_args text st
  | OtherBlock _ _ => ret st
  end.

(** [for content in response.content: ...], over the blocks of the first
    response. *)
Definition anthropic_loop (model_name : string) (blocks : list ContentBlock)
    (st : LoopState) : M LoopState :=
  for_each blocks (anthropic_block model_name) st.

(** [_process_with_anthropic] up to its [return]: the final local state. *)
Definition anthropic_conversation (self : MCPClient) (query : string)
    (available_tools : list ToolDict) : M LoopState :=
  let messages := [plain_message "user" (CStr query)] in
  let model_name := replace (current_model self) "anthropic/" EmptyString in
  response <- anthropic_create
                {| areq_model := model_name; areq_max_tokens := 1000;
                   areq_messages := messages;
                   areq_tools := Some available_tools |} ;;
  anthropic_loop model_name (ar_content response)
    (mkLoopState messages [] []).

Definition _process_with_anthropic (self : MCPClient) (query : string)
    (available_tools : list ToolDict) : M string :=
  st <- anthropic_conversation self query available_tools ;;
  ret (join nl (ls_final_text st)).

(** *** Gemini *)

(** [self.gemini.GenerativeModel(model_name).start_chat(tools=functions)]. *)
Definition gemini_chat (model_name : string)
    (functions : list GeminiFunction) : M unit :=
  request (fun w h => gemini_start_chat w h model_name functions)
          (EvGeminiStartChat model_name functions).

(** [chat.send_message(content)], and the read of [response.text] that
    follows it. *)
Definition gemini_send (content : Content) : M GeminiResponse :=
  request (fun w h => gemini_send_message w h content) (EvGeminiSend content).

(** The body run for a part that has a [function_call]. *)
Definition gemini_function_call (func_call : FunctionCall)
    (final_text : list string) : M (list string) :=
  let tool_name := fc_name func_call in
  match json_loads (fc_args func_call) with
  | Raise e => raise e
  | Ok tool_args =>
      result <- session_call_tool tool_name tool_args ;;
      let final_text :=
        (final_text ++ [calling_tool_line tool_name tool_args])%list in
      response <- gemini_send (CResult (ctr_content result)) ;;
      ret (final_text ++ [gr_text response])%list
  end.

(** The body of [for part in candidate.content.parts]. *)
Definition gemini_part (part : Part) (final_text : list string)
    : M (list string) :=
  match part_function_call part with
  | Some func_call => gemini_function_call func_call final_text
  | None => ret final_text
  end.

(** The body of [for candidate in response.candidates]. *)
Definition gemini_candidate (candidate : Candidate)
    (final_text : list string) : M (list string) :=
  match cand_content candidate with
  | Some parts => for_each parts gemini_part final_text
  | None => ret final_text
  end.

(** [for candidate in response.candidates: ...], over the candidates of the
    first response. *)
Definition gemini_candidates_loop (candidates : list Candidate)
    (final_text : list string) : M (list string) :=
  for_each candidates gemini_candidate final_text.

Definition gemini_functions (available_tools : list ToolDict)
    : list GeminiFunction :=
  map (fun tool => {| gf_name := td_name tool;
                      gf_description := td_description tool;
                      gf_parameters := td_input_schema tool |})
      available_tools.

Definition gemini_key_message : string :=
  "Gemini API key not configured. Please set GEMINI_API_KEY in your .env file.".

Definition _process_with_gemini (self : MCPClient) (query : string)
    (available_tools : list ToolDict) : M string :=
  if negb (gemini self)
  then ret gemini_key_message
  else
    let model_name := replace (current_model self) "gemini/" EmptyString in
    let functions := gemini_functions available_tools in
    gemini_chat model_name functions ;;;
    response <- gemini_send (CStr query) ;;
    final_text <- gemini_candidates_loop (gr_candidates response)
                    [gr_text response] ;;
    ret (join nl final_text).

(** *** OpenRouter *)

Definition openrouter_create (req : OpenRouterRequest)
    : M OpenRouterResponse :=
  request (fun w h => openrouter_chat_completions_create w h req)
          (EvOpenRouterCreate req).

(** The body of the loop over [message.tool_calls]; [message_content] is the
    content of the first response's message. *)
Definition openrouter_tool_call (model : string)
    (message_content : option string) (tool_call : ORToolCall)
    (st : LoopState) : M LoopState :=
  let tool_name := ortc_function_name tool_call in
  match json_loads (ortc_function_arguments tool_call) with
  | Raise e => raise e
  | Ok tool_args =>
      result <- session_call_tool tool_name tool_args ;;
      let tool_results :=
        (ls_tool_results st ++ [(tool_name, result)])%list in
      let final_text :=
        (ls_final_text st ++ [calling_tool_line tool_name tool_args])%list in
      let messages :=
        (ls_messages st
           ++ [ {| msg_role := "assistant";
                   msg_content := content_of_option message_content;
                   msg_tool_calls :=
                     Some [ {| tcd_id := ortc_id tool_call;
                               tcd_name := ortc_function_name tool_call;
                               tcd_arguments :=
                                 ortc_function_arguments tool_call |} ];
                   msg_tool_call_id := None |} ])%list in
      let messages :=
        (messages
           ++ [ {| msg_role := "tool";
                   msg_content := CResult (ctr_content result);
                   msg_tool_calls := None;
                   msg_tool_call_id := Some (ortc_id tool_call) |} ])%list in
      response <- openrouter_create
                    {| oreq_model := model; oreq_messages := messages;
                       oreq_tools := None; oreq_tool_choice := None;
                       oreq_max_tokens := 1000 |} ;;
      let final_text :=
        match or_choices response with
        | choice :: _ => (final_text ++ [or_empty (orm_content choice)])%list
        | [] => final_text
        end in
      ret (mkLoopState messages tool_results final_text)
  end.

(** [for tool_call in message.tool_calls: ...], over the calls of the first
    response. *)
Definition openrouter_loop (model : string) (message_content : option string)
    (tool_calls : list ORToolCall) (st : LoopState) : M LoopState :=
  for_each tool_calls (openrouter_tool_call model message_content) st.

Definition openrouter_tools (available_tools : list ToolDict) : list ORTool :=
  map (fun tool =>
         {| ort_type := "function";
            ort_function := {| orf_name := td_name tool;
                               orf_description := td_description tool;
                               orf_parameters := td_input_schema tool |} |})
      available_tools.

Definition openrouter_key_message : string :=
  "OpenRouter API key not configured. Please set OPENROUTER_API_KEY in your .env file.".

(** [_process_with_openrouter] up to its [return]: the final local state. *)
Definition openrouter_conversation (self : MCPClient) (query : string)
    (available_tools : list ToolDict) : M LoopState :=
  let tools := openrouter_tools available_tools in
  let messages := [plain_message "user" (CStr query)] in
  response <- openrouter_create
                {| oreq_model := current_model self;
                   oreq_messages := messages; oreq_tools := Some tools;
                   oreq_tool_choice := Some "auto";
                   oreq_max_tokens := 1000 |} ;;
  match or_choices response with
  | message :: _ =>
      let st := mkLoopState messages []
                  [or_empty (orm_content message)] in
      match orm_tool_calls message with
      | Some tool_calls =>
          openrouter_loop (current_model self) (orm_content message)
            tool_calls st
      | None => ret st
      end
  | [] => ret (mkLoopState messages [] [])
  end.

Definition _process_with_openrouter (self : MCPClient) (query : string)
    (available_tools : list ToolDict) : M string :=
  if negb (openrouter self)
  then ret openrouter_key_message
  else
    st <- openrouter_conversation self query available_tools ;;
    ret (join nl (ls_final_text st)).

(** *** Dispatch on the model identifier *)

Definition available_tools_of (tools : list Tool) : list ToolDict :=
  map (fun tool => {| td_name := tool_name tool;
                      td_description := tool_description tool;
                      td_input_schema := tool_inputSchema tool |})
      tools.

Definition process_query (self : MCPClient) (query : string) : M string :=
  tools <- session_list_tools self ;;
  let available_tools := available_tools_of tools in
  if startswith (current_model self) "anthropic/"
     || startswith (current_model self) "claude"
  then _process_with_anthropic self query available_tools
  else if startswith (current_model self) "gemini"
  then _process_with_gemini self query available_tools
  else if startswith (current_model self) "openai/"
          || startswith (current_model self) "openrouter/"
  then _process_with_openrouter self query available_tools
  else ret ("Unknown model provider for: " ++ current_model self).

(** ** The interactive loop *)

Definition print_lines (lines : list string) : M unit :=
  for_each lines (fun line _ => emit (EvPrint line)) tt.

(** The lines [model list] prints for one provider. *)
Definition provider_lines (entry : string * list string) : list string :=
  ("- " ++ fst entry ++ ":")
    :: map (fun model => "  " ++ bullet ++ " " ++ model) (snd entry).

(** One pass through the [try] block for a query other than [quit]. *)
Definition chat_command (self : MCPClient) (query : string) : M MCPClient :=
  if String.eqb (lower query) "model list"
  then
    let models := get_available_models self in
    emit (EvPrint (nl ++ "Available models:")) ;;;
    print_lines (flat_map provider_lines models) ;;;
    emit (EvPrint (nl ++ "Current model: " ++ current_model self)) ;;;
    ret self
  else if startswith (lower query) "model set "
  then
    let model_name := strip (drop_chars 10 query) in
    set_model self model_name
  else
    response <- process_query self query ;;
    emit (EvPrint (nl ++ response)) ;;;
    ret self.

(** What [input] raises once the input has run dry. *)
Definition end_of_input : PyExn := mkExn "EOFError" "EOF when reading a line".

(** One pass through the body of [while True], [got] being what [input]
    gave: a line, or the exception it raised.  [Some self'] when the loop
    goes round again with [self'], [None] when the pass left it with
    [break]. *)
Definition chat_pass (self : MCPClient) (got : Result string)
    : M (option MCPClient) :=
  try_except
    match got with
    | Raise e => raise e
    | Ok line =>
        let query := strip line in
        if String.eqb (lower query) "quit"
        then ret None
        else
          self' <- chat_command self query ;;
          ret (Some self')
    end
    (fun e =>
       emit (EvPrint (nl ++ "Error: " ++ exn_text e)) ;;;
       ret (Some self)).

(** Where the loop stands after a finite number of passes.  [Quit]: it was
    left with [break], and [chat_loop] has returned.  [Looping]: the passes
    are over and the loop is at [input] once more. *)
Inductive ChatEnd :=
| Quit (self : MCPClient)
| Looping (self : MCPClient).

(** [while True: ...], [input] giving [gots] call after call.  The loop has
    no exit but [break] and an exception the handler lets through. *)
Fixpoint chat_turns (self : MCPClient) (gots : list (Result string))
    : M ChatEnd :=
  match gots with
  | [] => ret (Looping self)
  | got :: rest =>
      next <- chat_pass self got ;;
      match next with
      | None => ret (Quit self)
      | Some self' => chat_turns self' rest
      end
  end.

(** [chat_loop], [input] giving [gots]: the banner, then the loop. *)
Definition chat_loop_on (self : MCPClient) (gots : list (Result string))
    : M ChatEnd :=
  emit (EvPrint (nl ++ "MCP Client Started!")) ;;;
  emit (EvPrint "Type your queries or 'quit' to exit.") ;;;
  emit (EvPrint "Type 'model list' to see available models.") ;;;
  emit (EvPrint "Type 'model set <model_name>' to change models.") ;;;
  chat_turns self gots.

(** [chat_loop] while the lines [inputs] are typed, up to the point where
    the last of them has been dealt with. *)
Definition chat_loop (self : MCPClient) (inputs : list string) : M ChatEnd :=
  chat_loop_on self (map Ok inputs).

(** [main] once the script path is known: connect, then chat. *)
Definition main (getenv : string -> option string)
    (server_script_path : string) (inputs : list string) : M ChatEnd :=
  let client := __init__ getenv in
  client' <- connect_to_server client server_script_path ;;
  chat_loop client' inputs.

End Operations.

(** ** Reading a run: traces, segments, transcripts *)

Section Observations.

Context {RT : PyRuntime}.

(** A request sent to a model backend. *)
Definition is_round_trip (e : Event) : bool :=
  match e with
  | EvAnthropicCreate _ _ | EvGeminiSend _ _ | EvOpenRouterCreate _ _ => true
  | _ => false
  end.

Definition round_trips (es : list Event) : nat :=
  List.length (filter is_round_trip es).

Definition is_list_tools (e : Event) : bool :=
  match e with
  | EvListTools _ => true
  | _ => false
  end.

Definition catalog_fetches (es : list Event) : nat :=
  List.length (filter is_list_tools es).

(** The tool calls made to the tool host, in order. *)
Definition dispatched (es : list Event) : list (string * Json) :=
  flat_map (fun e => match e with
                     | EvCallTool name args _ => [(name, args)]
                     | _ => []
                     end) es.

(** The outcome of a run and the events it added. *)
Definition outcome {A : Type} (m : M A) (w : World) (h : list Event)
    : Result A := fst (m w h).

Definition events {A : Type} (m : M A) (w : World) (h : list Event)
    : list Event := snd (m w h).

(** *** Segments of a native response

    What the spec calls the NormalizedResponse, read off each provider path:
    the pieces of the first native response the path acts on, in the order
    it meets them.  Arguments that arrive as JSON text are decoded with
    [json_loads] when the path reaches the call. *)

Record ToolCallRequest := mkToolCallRequest {
  tcr_call_id : option string;
  tcr_tool_name : string;
  tcr_arguments : Result Json
}.

Inductive Segment :=
| TextSegment (text : string)
| ToolCallSegment (call : ToolCallRequest).

Definition anthropic_segment (content : ContentBlock) : list Segment :=
  match content with
  | TextBlock text => [TextSegment text]
  | ToolUseBlock tool_name tool_args _ =>
      [ToolCallSegment (mkToolCallRequest None tool_name (Ok tool_args))]
  | OtherBlock _ _ => []
  end.

Definition normalize_anthropic (response : AnthropicResponse)
    : list Segment :=
  flat_map anthropic_segment (ar_content response).

Definition gemini_part_segment (part : Part) : list Segment :=
  match part_function_call part with
  | Some func_call =>
      [ToolCallSegment
         (mkToolCallRequest None (fc_name func_call)
            (json_loads (fc_args func_call)))]
  | None => []
  end.

Definition gemini_candidate_segments (candidate : Candidate)
    : list Segment :=
  match cand_content candidate with
  | Some parts => flat_map gemini_part_segment parts
  | None => []
  end.

Definition normalize_gemini (response : GeminiResponse) : list Segment :=
  TextSegment (gr_text response)
    :: flat_map gemini_candidate_segments (gr_candidates response).

Definition openrouter_call_segment (tool_call : ORToolCall) : Segment :=
  ToolCallSegment
    (mkToolCallRequest (Some (ortc_id tool_call))
       (ortc_function_name tool_call)
       (json_loads (ortc_function_arguments tool_call))).

Definition normalize_openrouter (response : OpenRouterResponse)
    : list Segment :=
  match or_choices response with
  | message :: _ =>
      TextSegment (or_empty (orm_content message))
        :: match orm_tool_calls message with
           | Some tool_calls => map openrouter_call_segment tool_calls
           | None => []
           end
  | [] => []
  end.

Definition tool_calls_of (segments : list Segment) : list ToolCallRequest :=
  flat_map (fun s => match s with
                     | ToolCallSegment call => [call]
                     | TextSegment _ => []
                     end) segments.

Definition texts_of (segments : list Segment) : list string :=
  flat_map (fun s => match s with
                     | TextSegment text => [text]
                     | ToolCallSegment _ => []
                     end) segments.

(** The name and arguments a request asks for. *)
Definition call_signature (call : ToolCallRequest)
    : string * Result Json :=
  (tcr_tool_name call, tcr_arguments call).

(** The same, for a call that reached the tool host. *)
Definition sent_signature (call : string * Json) : string * Result Json :=
  (fst call, Ok (snd call)).

(** A native response, of whichever provider. *)
Inductive NativeResponse :=
| NativeAnthropic (response : AnthropicResponse)
| NativeGemini (response : GeminiResponse)
| NativeOpenRouter (response : OpenRouterResponse).

Definition normalize (native : NativeResponse) : list Segment :=
  match native with
  | NativeAnthropic response => normalize_anthropic response
  | NativeGemini response => normalize_gemini response
  | NativeOpenRouter response => normalize_openrouter response
  end.

(** The native response a backend event brought back. *)
Definition native_response (e : Event) : option NativeResponse :=
  match e with
  | EvAnthropicCreate _ (Ok response) => Some (NativeAnthropic response)
  | EvGeminiSend _ (Ok response) => Some (NativeGemini response)
  | EvOpenRouterCreate _ (Ok response) => Some (NativeOpenRouter response)
  | _ => None
  end.

(** The first native response of a run, if one came. *)
Definition first_native_response (es : list Event)
    : option NativeResponse :=
  match find is_round_trip es with
  | Some e => native_response e
  | None => None
  end.

(** The segments of the response a backend event brought back. *)
Definition response_segments (e : Event) : option (list Segment) :=
  option_map normalize (native_response e).

(** The segments of the first backend response of a run, if one came. *)
Definition first_response (es : list Event) : option (list Segment) :=
  match find is_round_trip es with
  | Some e => response_segments e
  | None => None
  end.

(** The tool calls the first backend response of a run asks for. *)
Definition requested (es : list Event) : list ToolCallRequest :=
  match first_response es with
  | Some segments => tool_calls_of segments
  | None => []
  end.

(** *** What a request hands to the model *)

(** What the Gemini chat has been sent so far. *)
Definition gemini_sent (es : list Event) : list Content :=
  flat_map (fun e => match e with
                     | EvGeminiSend content _ => [content]
                     | _ => []
                     end) es.

(** What the client has handed over once a backend request is made: the
    [messages] list of an Anthropic or OpenRouter request; for a Gemini send,
    whose chat object keeps the conversation, the contents the run has sent
    over the chat, this one included, as user messages.  (The turns of the
    Gemini model stay inside the chat object; the client never holds them.)
    [past] holds the earlier events of the run. *)
Definition sent_at (past : list Event) (e : Event)
    : option (list Message) :=
  match e with
  | EvAnthropicCreate req _ => Some (areq_messages req)
  | EvOpenRouterCreate req _ => Some (oreq_messages req)
  | EvGeminiSend content _ =>
      Some (map (plain_message "user") (gemini_sent past ++ [content])%list)
  | _ => None
  end.

Fixpoint remove_first (id : string) (ids : list string)
    : option (list string) :=
  match ids with
  | [] => None
  | id' :: rest =>
      if String.eqb id id' then Some rest
      else match remove_first id rest with
           | Some rest' => Some (id' :: rest')
           | None => None
           end
  end.

Definition requested_ids (m : Message) : list string :=
  match msg_tool_calls m with
  | Some calls => map tcd_id calls
  | None => []
  end.

(** Walk a transcript with the ids of the calls still unanswered: a message
    with [tool_calls] adds its ids, a tool message answers one pending call
    of its id.  [None] when a tool message answers no pending call. *)
Fixpoint pending_after (pending : list string) (msgs : list Message)
    : option (list string) :=
  match msgs with
  | [] => Some pending
  | m :: rest =>
      match msg_tool_call_id m with
      | Some id =>
          match remove_first id pending with
          | Some pending' => pending_after pending' rest
          | None => None
          end
      | None => pending_after (pending ++ requested_ids m)%list rest
      end
  end.

(** Every tool call recorded in the transcript has exactly one result, after
    it, and every result answers a recorded call. *)
Definition all_calls_answered (msgs : list Message) : Prop :=
  pending_after [] msgs = Some [].

(** The ids of the call requests recorded in a transcript, in order. *)
Definition recorded_calls (msgs : list Message) : list string :=
  flat_map requested_ids msgs.

(** An Anthropic request whose messages record no call request; any other
    event. *)
Definition records_no_call (e : Event) : Prop :=
  match e with
  | EvAnthropicCreate req _ => recorded_calls (areq_messages req) = []
  | _ => True
  end.

(** The tool output recorded in a transcript, in order. *)
Definition recorded_results (msgs : list Message) : list Json :=
  flat_map (fun m => match msg_content m with
                     | CResult c => [c]
                     | _ => []
                     end) msgs.

(** The output of the tool calls that returned, in order. *)
Definition returned_results (es : list Event) : list Json :=
  flat_map (fun e => match e with
                     | EvCallTool _ _ (Ok result) => [ctr_content result]
                     | _ => []
                     end) es.

(** The tool declarations a backend request carries, as the dicts of
    [process_query]; [None] when it carries none. *)
Definition declared_tools (available_tools : list ToolDict) (e : Event)
    : Prop :=
  match e with
  | EvAnthropicCreate req _ =>
      areq_tools req = Some available_tools \/ areq_tools req = None
  | EvOpenRouterCreate req _ =>
      oreq_tools req = Some (openrouter_tools available_tools)
      \/ oreq_tools req = None
  | EvGeminiStartChat _ functions _ =>
      functions = gemini_functions available_tools
  | _ => True
  end.

(** The model identifiers [process_query] has no provider for. *)
Definition unknown_provider (model : string) : Prop :=
  startswith model "anthropic/" = false /\
  startswith model "claude" = false /\
  startswith model "gemini" = false /\
  startswith model "openai/" = false /\
  startswith model "openrouter/" = false.

(** *** The skeleton of a run

    The tool calls and backend round-trips of a trace, in order, and the
    skeleton a response announces: each tool call it asks for is sent to the
    tool host and followed by one more round-trip. *)

Inductive Step :=
| CallStep (signature : string * Result Json)
| RoundTripStep.

Definition step_of (e : Event) : list Step :=
  match e with
  | EvCallTool name args _ => [CallStep (name, Ok args)]
  | EvAnthropicCreate _ _ | EvGeminiSend _ _ | EvOpenRouterCreate _ _ =>
      [RoundTripStep]
  | _ => []
  end.

Definition skeleton (es : list Event) : list Step := flat_map step_of es.

Definition segment_plan (s : Segment) : list Step :=
  match s with
  | TextSegment _ => []
  | ToolCallSegment call => [CallStep (call_signature call); RoundTripStep]
  end.

Definition plan (segments : list Segment) : list Step :=
  flat_map segment_plan segments.

(** The skeleton the first backend exchange of a run announces. *)
Definition full_plan (es : list Event) : list Step :=
  match find is_round_trip es with
  | Some e =>
      RoundTripStep
        :: match response_segments e with
           | Some segments => plan segments
           | None => []
           end
  | None => []
  end.

Definition step_calls (steps : list Step) : list (string * Result Json) :=
  flat_map (fun st => match st with
                      | CallStep signature => [signature]
                      | RoundTripStep => []
                      end) steps.

Definition step_round_trips (steps : list Step) : nat :=
  List.length (filter (fun st => match st with
                                 | RoundTripStep => true
                                 | CallStep _ => false
                                 end) steps).

(** The round-trips the first backend exchange of a run allows: the exchange
    itself and one more for each tool call its response asks for; none when
    the run never reached a backend. *)
Definition round_trip_budget (es : list Event) : nat :=
  match find is_round_trip es with
  | Some _ => 1 + List.length (requested es)
  | None => 0
  end.

(** *** Tool failures *)

(** The first tool call of a trace that raised: its exception and the events
    after it. *)
Fixpoint first_tool_failure (es : list Event)
    : option (PyExn * list Event) :=
  match es with
  | [] => None
  | EvCallTool _ _ (Raise e) :: post => Some (e, post)
  | _ :: rest => first_tool_failure rest
  end.

(** A run in which a raising tool call is the last event and its exception
    the outcome. *)
Definition ends_at_tool_failure {A : Type} (m : M A) : Prop :=
  forall w h,
    match first_tool_failure (events m w h) with
    | Some (e, post) => post = [] /\ outcome m w h = Raise e
    | None => True
    end.

(** A run that stays within the plan of its first backend exchange, and
    fills it when it returns. *)
Definition within_plan {A : Type} (m : M A) : Prop :=
  forall w h,
    exists rest,
      full_plan (events m w h) = (skeleton (events m w h) ++ rest)%list
      /\ (forall a, outcome m w h = Ok a -> rest = []).

(** An event that neither fetches the catalog nor declares tools other than
    [available_tools]. *)
Definition keeps_catalog (available_tools : list ToolDict) (e : Event)
    : Prop :=
  is_list_tools e = false /\ declared_tools available_tools e.

(** *** The answer *)

(** The lines a follow-up response adds to the answer: the text of its first
    block (Anthropic), its text (Gemini), the content of its first choice if
    it has one (OpenRouter). *)
Definition reply_lines (e : Event) : list (list string) :=
  match e with
  | EvAnthropicCreate _ (Ok response) =>
      match ar_content response with
      | TextBlock text :: _ => [[text]]
      | ToolUseBlock _ _ (Some text) :: _ => [[text]]
      | _ => [[]]
      end
  | EvGeminiSend _ (Ok response) => [[gr_text response]]
  | EvOpenRouterCreate _ (Ok response) =>
      match or_choices response with
      | choice :: _ => [[or_empty (orm_content choice)]]
      | [] => [[]]
      end
  | _ => []
  end.

Definition replies (es : list Event) : list (list string) :=
  flat_map reply_lines es.

(** The events after the first backend round-trip. *)
Fixpoint after_first_round_trip (es : list Event) : list Event :=
  match es with
  | [] => []
  | e :: rest => if is_round_trip e then rest else after_first_round_trip rest
  end.

(** The lines of the answer, from the segments of the first response and the
    replies to the tool results: a text segment gives its text, a tool call
    the line announcing it and then the reply that followed it. *)
Fixpoint answer_lines (segments : list Segment)
    (follow_ups : list (list string)) : list string :=
  match segments with
  | [] => []
  | TextSegment text :: rest => text :: answer_lines rest follow_ups
  | ToolCallSegment call :: rest =>
      let line :=
        match tcr_arguments call with
        | Ok tool_args => [calling_tool_line (tcr_tool_name call) tool_args]
        | Raise _ => []
        end in
      match follow_ups with
      | reply :: later => (line ++ reply ++ answer_lines rest later)%list
      | [] => (line ++ answer_lines rest [])%list
      end
  end.

(** The [messages] list a conversation ends with, when it returns. *)
Definition final_transcript (m : M LoopState) (w : World) (h : list Event)
    : option (list Message) :=
  match outcome m w h with
  | Ok st => Some (ls_messages st)
  | Raise _ => None
  end.

(** *** Scripted worlds *)

Definition script_exhausted : PyExn :=
  mkExn "RuntimeError" "no scripted response left".

Definition nth_response {A : Type} (script : list (Result A)) (n : nat)
    : Result A :=
  nth n script (Raise script_exhausted).

(** A world that answers the n-th backend request with the n-th entry of the
    provider's script. *)
Definition scripted_world (catalog : Result (list Tool))
    (tool_host : string -> Json -> Result CallToolResult)
    (anthropic : list (Result AnthropicResponse))
    (gemini_script : list (Result GeminiResponse))
    (openrouter_script : list (Result OpenRouterResponse)) : World :=
  {| open_session := fun _ _ _ => Ok tt;
     list_tools := fun _ => catalog;
     call_tool := fun _ name args => tool_host name args;
     anthropic_messages_create :=
       fun h _ => nth_response anthropic (round_trips h);
     gemini_start_chat := fun _ _ _ => Ok tt;
     gemini_send_message :=
       fun h _ => nth_response gemini_script (round_trips h);
     openrouter_chat_completions_create :=
       fun h _ => nth_response openrouter_script (round_trips h) |}.

(** The world of the single-call scenario: the first response asks for one
    tool call, the tool host returns [result], the second response is the
    text [answer]; scripted for the Anthropic and the OpenRouter path. *)
Definition single_call_world (catalog : list Tool) (tool : string)
    (tool_args : Json) (arguments_text call_id : string)
    (result : CallToolResult) (answer : string) : World :=
  scripted_world (Ok catalog) (fun _ _ => Ok result)
    [ Ok {| ar_content := [ToolUseBlock tool tool_args None] |};
      Ok {| ar_content := [TextBlock answer] |} ]
    []
    [ Ok {| or_choices :=
              [ {| orm_content := None;
                   orm_tool_calls :=
                     Some [ {| ortc_id := call_id;
                               ortc_function_name := tool;
                               ortc_function_arguments := arguments_text
                            |} ] |} ] |};
      Ok {| or_choices :=
              [ {| orm_content := Some answer; orm_tool_calls := None |} ]
         |} ].

(** *** Requests and what they carry *)

(** What holds of the messages handed over after the events [past]: every
    call recorded in them is answered, and the tool output they record is
    the output of the tool calls that have returned, in order. *)
Definition sent_sound (past : list Event) (msgs : list Message)
    : Prop :=
  all_calls_answered msgs /\ recorded_results msgs = returned_results past.

(** Every backend request among [es], coming after [past], hands over sound
    messages. *)
Fixpoint requests_sound (past es : list Event) : Prop :=
  match es with
  | [] => True
  | e :: rest =>
      match sent_at past e with
      | Some msgs => sent_sound past msgs
      | None => True
      end
      /\ requests_sound (past ++ [e])%list rest
  end.

(** The invariant of the loops that keep a [messages] list. *)
Definition messages_sound (st : LoopState) (past : list Event) : Prop :=
  sent_sound past (ls_messages st).

(** The invariant of the Gemini loops, whose history the chat keeps. *)
Definition chat_sound (final_text : list string) (past : list Event) : Prop :=
  sent_sound past (map (plain_message "user") (gemini_sent past)).

(** A world whose backends ask for at least one tool call in every
    response. *)
Definition always_requests_tools (w : World) : Prop :=
  forall h,
    (forall req response,
        anthropic_messages_create w h req = Ok response ->
        tool_calls_of (normalize_anthropic response) <> [])
    /\ (forall content response,
           gemini_send_message w h content = Ok response ->
           tool_calls_of (normalize_gemini response) <> [])
    /\ (forall req response,
           openrouter_chat_completions_create w h req = Ok response ->
           tool_calls_of (normalize_openrouter response) <> []).

(** The clients of the scenarios: connected, every key configured. *)
Definition anthropic_client : MCPClient :=
  {| session := true; gemini := true; openrouter := true;
     current_model := "claude-3-5-sonnet-20241022" |}.

Definition openrouter_client : MCPClient :=
  {| session := true; gemini := true; openrouter := true;
     current_model := "openai/gpt-4o" |}.

(** *** Loop bodies *)

(** A pass of [body] over [x] that returns has added the lines of the
    segments of [x], and met one reply for each tool call among them. *)
Definition adds_lines {X S : Type} (body : X -> S -> M S)
    (lines : S -> list string) (seg : X -> list Segment) (x : X) : Prop :=
  forall s w h s',
    outcome (body x s) w h = Ok s' ->
    lines s'
    = (lines s ++ answer_lines (seg x) (replies (events (body x s) w h)))%list
    /\ List.length (replies (events (body x s) w h))
       = List.length (tool_calls_of (seg x)).

(** A pass of [body] over [x] keeps the invariant [inv] and sends sound
    requests only. *)
Definition sound_pass {X S : Type} (body : X -> S -> M S)
    (inv : S -> list Event -> Prop) (x : X) : Prop :=
  forall s past w h,
    inv s past ->
    requests_sound past (events (body x s) w h)
    /\ (forall s', outcome (body x s) w h = Ok s' ->
                   inv s' (past ++ events (body x s) w h)%list).

(** *** The interactive loop, read as a fold over its input lines *)

(** The client after [set_model]. *)
Definition with_model (self : MCPClient) (model : string) : MCPClient :=
  {| session := session self; gemini := gemini self;
     openrouter := openrouter self; current_model := model |}.

(** The model in force after the passes [gots]: the one named by the last
    [model set] line before [quit]. *)
Fixpoint model_after (model : string) (gots : list (Result string))
    : string :=
  match gots with
  | [] => model
  | Raise _ :: rest => model_after model rest
  | Ok line :: rest =>
      let query := strip line in
      if String.eqb (lower query) "quit" then model
      else if String.eqb (lower query) "model list"
      then model_after model rest
      else if startswith (lower query) "model set "
      then model_after (strip (drop_chars 10 query)) rest
      else model_after model rest
  end.

(** The lines among [gots] the loop hands to [process_query] when nothing
    cuts it short: those before [quit] that are neither [model list] nor a
    [model set]. *)
Fixpoint query_lines (gots : list (Result string)) : nat :=
  match gots with
  | [] => 0
  | Raise _ :: rest => query_lines rest
  | Ok line :: rest =>
      let query := strip line in
      if String.eqb (lower query) "quit" then 0
      else if String.eqb (lower query) "model list" then query_lines rest
      else if startswith (lower query) "model set " then query_lines rest
      else S (query_lines rest)
  end.

(** The client the loop goes on with after a pass, when the pass lets no
    exception through; [None] after [quit]. *)
Definition after_pass (self : MCPClient) (got : Result string)
    : option MCPClient :=
  match got with
  | Raise _ => Some self
  | Ok line =>
      let query := strip line in
      if String.eqb (lower query) "quit" then None
      else if String.eqb (lower query) "model list" then Some self
      else if startswith (lower query) "model set "
      then Some (with_model self (strip (drop_chars 10 query)))
      else Some self
  end.

(** The events of the query a pass hands to [process_query]; none when the
    pass hands nothing over. *)
Definition handed_over (self : MCPClient) (got : Result string) (w : World)
    (h : list Event) : list Event :=
  match got with
  | Raise _ => []
  | Ok line =>
      let query := strip line in
      if String.eqb (lower query) "quit" then []
      else if String.eqb (lower query) "model list" then []
      else if startswith (lower query) "model set " then []
      else events (process_query self query) w h
  end.

(** A line that ends the loop. *)
Definition quits (got : Result string) : bool :=
  match got with
  | Ok line => String.eqb (lower (strip line)) "quit"
  | Raise _ => false
  end.

(** What the handler of the loop prints for an exception. *)
Definition error_report (e : PyExn) : Event :=
  EvPrint (nl ++ "Error: " ++ exn_text e).

(** *** Failures *)

(** [response.content[0].text]: the text, or the exception the expression
    raises. *)
Definition reply_text (response : AnthropicResponse) : Result string :=
  match ar_content response with
  | [] => Raise (mkExn "IndexError" "list index out of range")
  | TextBlock text :: _ => Ok text
  | ToolUseBlock _ _ (Some text) :: _ => Ok text
  | ToolUseBlock _ _ None :: _ => Raise (no_text_attribute "ToolUseBlock")
  | OtherBlock class_name _ :: _ => Raise (no_text_attribute class_name)
  end.

(** The exception a request to the outside raised, if it did. *)
Definition raised (e : Event) : option PyExn :=
  match e with
  | EvOpenSession _ _ (Raise x) | EvListTools (Raise x)
  | EvCallTool _ _ (Raise x) | EvAnthropicCreate _ (Raise x)
  | EvGeminiStartChat _ _ (Raise x) | EvGeminiSend _ (Raise x)
  | EvOpenRouterCreate _ (Raise x) => Some x
  | _ => None
  end.

(** An event a query cannot go on after: a request that raised, or an
    Anthropic follow-up response (one to a request without tools) whose
    first block has no text to read. *)
Definition fatal (e : Event) : option PyExn :=
  match e with
  | EvAnthropicCreate req (Ok response) =>
      match areq_tools req, reply_text response with
      | None, Raise x => Some x
      | _, _ => None
      end
  | _ => raised e
  end.

Fixpoint first_fatal (es : list Event) : option (PyExn * list Event) :=
  match es with
  | [] => None
  | e :: rest =>
      match fatal e with
      | Some x => Some (x, rest)
      | None => first_fatal rest
      end
  end.

(** A run in which a fatal event is the last event and its exception the
    outcome. *)
Definition halts_at_fatal {A : Type} (m : M A) : Prop :=
  forall w h,
    match first_fatal (events m w h) with
    | Some (x, post) => post = [] /\ outcome m w h = Raise x
    | None => True
    end.

(** *** Requests as the client is configured *)

Inductive Provider := Anthropic | Gemini | OpenRouter.

(** The provider [process_query] picks for a model identifier. *)
Definition provider_for (model : string) : option Provider :=
  if startswith model "anthropic/" || startswith model "claude"
  then Some Anthropic
  else if startswith model "gemini" then Some Gemini
  else if startswith model "openai/" || startswith model "openrouter/"
  then Some OpenRouter
  else None.

(** What an event of a query may be, for a client under its current model:
    a catalog fetch, a tool call, or an exchange with the provider of the
    model, on the model name and the token limit the path uses. *)
Definition as_configured (self : MCPClient) (e : Event) : Prop :=
  match e with
  | EvListTools _ | EvCallTool _ _ _ => True
  | EvAnthropicCreate req _ =>
      provider_for (current_model self) = Some Anthropic
      /\ areq_model req
         = replace (current_model self) "anthropic/" EmptyString
      /\ areq_max_tokens req = 1000
  | EvGeminiStartChat model _ _ =>
      provider_for (current_model self) = Some Gemini
      /\ model = replace (current_model self) "gemini/" EmptyString
  | EvGeminiSend _ _ => provider_for (current_model self) = Some Gemini
  | EvOpenRouterCreate req _ =>
      provider_for (current_model self) = Some OpenRouter
      /\ oreq_model req = current_model self
      /\ oreq_max_tokens req = 1000
  | EvOpenSession _ _ _ | EvPrint _ => False
  end.

(** *** Models on offer *)

(** The provider a request is addressed to. *)
Definition addressed_to (e : Event) : option Provider :=
  match e with
  | EvAnthropicCreate _ _ => Some Anthropic
  | EvGeminiStartChat _ _ _ | EvGeminiSend _ _ => Some Gemini
  | EvOpenRouterCreate _ _ => Some OpenRouter
  | _ => None
  end.

(** The provider a heading of [get_available_models] stands for. *)
Definition listed_under (heading : string) : option Provider :=
  if String.eqb heading "anthropic" then Some Anthropic
  else if String.eqb heading "gemini" then Some Gemini
  else if String.eqb heading "openrouter" then Some OpenRouter
  else None.

(** Whether the client holds what the path of a provider asks for before it
    sends anything: nothing for Anthropic, the configured client for the
    other two. *)
Definition key_configured (self : MCPClient) (p : Provider) : bool :=
  match p with
  | Anthropic => true
  | Gemini => gemini self
  | OpenRouter => openrouter self
  end.

(** *** Growing transcripts *)

(** The [messages] list a request carries. *)
Definition request_messages (e : Event) : option (list Message) :=
  match e with
  | EvAnthropicCreate req _ => Some (areq_messages req)
  | EvOpenRouterCreate req _ => Some (oreq_messages req)
  | _ => None
  end.

(** Each request among [es] carries the messages of the request before it,
    and more; the first one those of [current]. *)
Fixpoint grows (current : list Message) (es : list Event) : Prop :=
  match es with
  | [] => True
  | e :: rest =>
      match request_messages e with
      | Some msgs =>
          (exists more, msgs = (current ++ more)%list) /\ grows msgs rest
      | None => grows current rest
      end
  end.

(** The messages of the last request among [es], or [current]. *)
Fixpoint latest (current : list Message) (es : list Event) : list Message :=
  match es with
  | [] => current
  | e :: rest =>
      match request_messages e with
      | Some msgs => latest msgs rest
      | None => latest current rest
      end
  end.


End Observations.

(** ** Sample runtime and worlds

    A small runtime and a few scripted worlds on which the operations above
    can be run. *)

Module Sample.

(** Values: a string, or a dict of strings. *)
Inductive Value :=
| VText (s : string)
| VDict (entries : list (string * string)).

Definition quote (s : string) : string := "'" ++ s ++ "'".

Definition format_entry (entry : string * string) : string :=
  quote (fst entry) ++ ": " ++ quote (snd entry).

Definition format (v : Value) : string :=
  match v with
  | VText s => s
  | VDict entries => "{" ++ join ", " (map format_entry entries) ++ "}"
  end.

Definition format_names (names : list string) : string :=
  "[" ++ join ", " (map quote names) ++ "]".

Definition dq : string := String (ascii_of_nat 34) EmptyString.

(** The JSON text of the arguments of the lookup scenario. *)
Definition lookup_arguments : string :=
  "{" ++ dq ++ "q" ++ dq ++ ": " ++ dq ++ "x" ++ dq ++ "}".

(** Decodes the two argument texts the sample worlds use. *)
Definition loads (s : string) : Result Value :=
  if String.eqb s lookup_arguments then Ok (VDict [("q", "x")])
  else if String.eqb s "{}" then Ok (VDict [])
  else Raise (mkExn "JSONDecodeError" "Expecting value").

#[local] Instance runtime : PyRuntime :=
  {| Json := Value; json_loads := loads; py_format := format;
     py_format_names := format_names |}.

(** A world whose backends give the same response to every request. *)
Definition constant_world (catalog : Result (list Tool))
    (tool_host : string -> Value -> Result CallToolResult)
    (anthropic : AnthropicResponse) (gemini_response : GeminiResponse)
    (openrouter_response : OpenRouterResponse) : World :=
  {| open_session := fun _ _ _ => Ok tt;
     list_tools := fun _ => catalog;
     call_tool := fun _ name args => tool_host name args;
     anthropic_messages_create := fun _ _ => Ok anthropic;
     gemini_start_chat := fun _ _ _ => Ok tt;
     gemini_send_message := fun _ _ => Ok gemini_response;
     openrouter_chat_completions_create := fun _ _ => Ok openrouter_response
  |}.

Definition lookup_tool : Tool :=
  {| tool_name := "lookup"; tool_description := "Look a value up";
     tool_inputSchema := VDict [("q", "string")] |}.

(** A tool host that knows [lookup] only. *)
Definition lookup_host (name : string) (args : Value)
    : Result CallToolResult :=
  if String.eqb name "lookup"
  then Ok {| ctr_content := VText "42"; ctr_isError := false |}
  else Ok {| ctr_content := VText "Unknown tool"; ctr_isError := true |}.

(** A tool host that cannot be reached in time. *)
Definition timeout_host (name : string) (args : Value)
    : Result CallToolResult :=
  Raise (mkExn "TimeoutError" "tool call timed out").

Definition client (model : string) : MCPClient :=
  {| session := true; gemini := true; openrouter := true;
     current_model := model |}.

Definition no_gemini : GeminiResponse :=
  {| gr_text := EmptyString; gr_candidates := [] |}.

Definition no_openrouter : OpenRouterResponse := {| or_choices := [] |}.

Definition lookup_call : ContentBlock :=
  ToolUseBlock "lookup" (VDict [("q", "x")]) None.

(** Scenario: one lookup call, then the answer. *)
Definition lookup_result : CallToolResult :=
  {| ctr_content := VText "42"; ctr_isError := false |}.

Definition lookup_world : World :=
  single_call_world [lookup_tool] "lookup" (VDict [("q", "x")])
    lookup_arguments "call_1" lookup_result "The answer is 42".

(** Every response of every backend asks for tool calls; an Anthropic
    response opens with a text block and asks for eleven. *)
Definition runaway_response : AnthropicResponse :=
  {| ar_content := TextBlock "Let me look that up." :: repeat lookup_call 11
  |}.

Definition runaway_gemini : GeminiResponse :=
  {| gr_text := "Let me look that up.";
     gr_candidates :=
       [ {| cand_content :=
              Some [ {| part_function_call :=
                          Some {| fc_name := "lookup";
                                  fc_args := lookup_arguments |} |} ] |} ]
  |}.

Definition runaway_openrouter : OpenRouterResponse :=
  {| or_choices :=
       [ {| orm_content := Some "Let me look that up.";
            orm_tool_calls :=
              Some [ {| ortc_id := "call_1";
                        ortc_function_name := "lookup";
                        ortc_function_arguments := lookup_arguments |} ]
         |} ] |}.

Definition runaway_world : World :=
  constant_world (Ok [lookup_tool]) lookup_host runaway_response
    runaway_gemini runaway_openrouter.

(** A tool host that answers whatever it is asked. *)
Definition obliging_host (name : string) (args : Value)
    : Result CallToolResult :=
  Ok {| ctr_content := VText "boo"; ctr_isError := false |}.

(** The backend asks for a tool the catalog does not declare. *)
Definition ghost_world : World :=
  scripted_world (Ok []) obliging_host
    [ Ok {| ar_content := [ToolUseBlock "ghost" (VDict []) None] |};
      Ok {| ar_content := [TextBlock "done"] |} ]
    [] [].

(** The lookup scenario against a tool host that times out. *)
Definition timeout_world : World :=
  scripted_world (Ok [lookup_tool]) timeout_host
    [ Ok {| ar_content := [lookup_call] |};
      Ok {| ar_content := [TextBlock "The answer is 42"] |} ]
    [] [].

(** The backend answers in two text blocks and asks for no tool. *)
Definition two_texts_world : World :=
  scripted_world (Ok []) lookup_host
    [ Ok {| ar_content := [TextBlock "a"; TextBlock "b"] |} ] [] [].

(** The backend answers "4" and asks for no tool; no tools are declared. *)
Definition four_world : World :=
  scripted_world (Ok []) lookup_host
    [ Ok {| ar_content := [TextBlock "4"] |} ]
    [ Ok {| gr_text := "4"; gr_candidates := [] |} ]
    [ Ok {| or_choices :=
              [ {| orm_content := Some "4"; orm_tool_calls := None |} ] |} ].

(** The tool host cannot be reached. *)
Definition unreachable_world : World :=
  scripted_world (Raise (mkExn "ConnectionError" "tool host unreachable"))
    lookup_host [] [] [].

(** An environment with no variable set. *)
Definition empty_environ (name : string) : option string := None.

(** The Anthropic backend cannot be reached. *)
Definition backend_down_world : World :=
  scripted_world (Ok [lookup_tool]) lookup_host
    [ Raise (mkExn "APIConnectionError" "Connection error.") ] [] [].

(** The reply to the tool result has no content. *)
Definition empty_reply_world : World :=
  scripted_world (Ok [lookup_tool]) lookup_host
    [ Ok {| ar_content := [lookup_call; lookup_call] |};
      Ok {| ar_content := [] |};
      Ok {| ar_content := [TextBlock "never read"] |} ]
    [] [].

(** The first response asks for two tool calls, each reply is a text. *)
Definition two_calls_world : World :=
  scripted_world (Ok [lookup_tool]) lookup_host
    [ Ok {| ar_content :=
              [lookup_call; ToolUseBlock "lookup" (VDict []) None] |};
      Ok {| ar_content := [TextBlock "first"] |};
      Ok {| ar_content := [TextBlock "second"] |} ]
    [] [].

(** The tool call is cancelled under way. *)
Definition cancelled : PyExn := mkExn "CancelledError" EmptyString.

Definition cancelled_world : World :=
  scripted_world (Ok [lookup_tool]) (fun _ _ => Raise cancelled)
    [ Ok {| ar_content := [lookup_call] |};
      Ok {| ar_content := [TextBlock "The answer is 42"] |} ]
    [] [].

(** A Gemini client whose [start_chat] does not take [tools]. *)
Definition no_tools_keyword : PyExn :=
  mkExn "TypeError"
    "GenerativeModel.start_chat() got an unexpected keyword argument 'tools'".

Definition no_tools_keyword_world : World :=
  {| open_session := fun _ _ _ => Ok tt;
     list_tools := fun _ => Ok [];
     call_tool := lookup_world.(call_tool);
     anthropic_messages_create := fun _ _ => Raise script_exhausted;
     gemini_start_chat := fun _ _ _ => Raise no_tools_keyword;
     gemini_send_message := fun _ _ => Raise script_exhausted;
     openrouter_chat_completions_create := fun _ _ => Raise script_exhausted
  |}.

(** "QUIT" typed after a no-break space (U+00A0) and before an ideographic
    space (U+3000). *)
Definition spaced_quit : string :=
  String (ascii_of_nat 194) (String (ascii_of_nat 160)
    ("QUIT" ++ String (ascii_of_nat 227) (String (ascii_of_nat 128)
                 (String (ascii_of_nat 128) EmptyString)))).

(** An environment that sets the default model to a Gemini one and no
    key. *)
Definition gemini_environ (name : string) : option string :=
  if String.eqb name "DEFAULT_MODEL" then Some "gemini-1.5-pro" else None.


End Sample.

(** * Properties *)

Section Properties.

Context {RT : PyRuntime}.

(** ** Running the monad *)

Lemma run_bind {A B : Type} (m : M A) (f : A -> M B) w h :
  bind m f w h =
  match m w h with
  | (Ok a, es) => (fst (f a w (h ++ es)%list), (es ++ snd (f a w (h ++ es)))%list)
  | (Raise e, es) => (Raise e, es)
  end.
Proof.
  unfold bind. destruct (m w h) as [[a | e] es]; [|reflexivity].
  destruct (f a w (h ++ es)%list); reflexivity.
Qed.

Lemma events_bind_ok {A B : Type} (m : M A) (f : A -> M B) w h a :
  outcome m w h = Ok a ->
  events (bind m f) w h
  = (events m w h ++ events (f a) w (h ++ events m w h))%list
  /\ outcome (bind m f) w h = outcome (f a) w (h ++ events m w h)%list.
Proof.
  unfold outcome, events. rewrite run_bind.
  destruct (m w h) as [[a' | e] es]; simpl; intros H; inversion H; subst.
  split; reflexivity.
Qed.

Lemma events_bind_raise {A B : Type} (m : M A) (f : A -> M B) w h e :
  outcome m w h = Raise e ->
  events (bind m f) w h = events m w h
  /\ outcome (bind m f) w h = Raise e.
Proof.
  unfold outcome, events. rewrite run_bind.
  destruct (m w h) as [[a' | e'] es]; simpl; intros H; inversion H; subst.
  split; reflexivity.
Qed.

Lemma for_each_cons {X S : Type} (x : X) xs (body : X -> S -> M S) s :
  for_each (x :: xs) body s = bind (body x s) (for_each xs body).
Proof. reflexivity. Qed.

(** Case analysis on the first step of a bind. *)
Ltac bind_cases m w h :=
  let a := fresh "a" in
  let e := fresh "e" in
  let Ho := fresh "Ho" in
  match goal with
  | |- context [bind m ?f] =>
      destruct (outcome m w h) as [a | e] eqn:Ho;
      [ destruct (events_bind_ok m f w h Ho) as [? ?]
      | destruct (events_bind_raise m f w h Ho) as [? ?] ]
  end.

(** ** Loops: what a [for] loop adds to the trace *)

Section Loops.

Variables X S T : Type.
Variable body : X -> S -> M S.

(** If each pass of the body emits, under the projection [phi], a prefix of
    what its item announces ([req]), and all of it when the pass returns,
    then so does the loop for the items together. *)
Lemma for_each_emits (phi : Event -> list T) (req : X -> list T) :
  (forall x s w h,
      exists rest,
        req x = (flat_map phi (events (body x s) w h) ++ rest)%list
        /\ (forall s', outcome (body x s) w h = Ok s' -> rest = [])) ->
  forall xs s w h,
    exists rest,
      flat_map req xs
      = (flat_map phi (events (for_each xs body s) w h) ++ rest)%list
      /\ (forall s', outcome (for_each xs body s) w h = Ok s' -> rest = []).
Proof.
  intros Hbody xs. induction xs as [| x xs IH]; intros s w h.
  - exists []. split; [reflexivity | auto].
  - rewrite for_each_cons.
    destruct (Hbody x s w h) as [rest1 [Hreq Hok]].
    bind_cases (body x s) w h.
    + destruct (IH a w (h ++ events (body x s) w h)%list) as [rest2 [Hr2 Hok2]].
      exists rest2. rewrite H, H0. split.
      * simpl. rewrite Hreq, (Hok a eq_refl), app_nil_r, Hr2.
        rewrite flat_map_app, app_assoc. reflexivity.
      * exact Hok2.
    + exists (rest1 ++ flat_map req xs)%list. rewrite H, H0. split.
      * simpl. rewrite Hreq, app_assoc. reflexivity.
      * intros s' Hs. discriminate.
Qed.

(** A property of every event of every pass holds of every event of the
    loop. *)
Lemma for_each_Forall (P : Event -> Prop) :
  (forall x s w h, Forall P (events (body x s) w h)) ->
  forall xs s w h, Forall P (events (for_each xs body s) w h).
Proof.
  intros Hbody xs. induction xs as [| x xs IH]; intros s w h.
  - constructor.
  - rewrite for_each_cons. bind_cases (body x s) w h.
    + rewrite H. apply Forall_app. split; [apply Hbody | apply IH].
    + rewrite H. apply Hbody.
Qed.

End Loops.

(** ** The skeleton of each provider path *)

(** Unfold the monad and split on every outcome met. *)
Ltac crunch :=
  unfold events, outcome, bind, request, ret, raise, emit; simpl;
  repeat (match goal with
          | |- context [match ?x with _ => _ end] =>
              lazymatch x with
              | context [match _ with _ => _ end] => fail
              | _ => destruct x eqn:?
              end
          end; simpl).

Ltac prefix_leaf :=
  eexists; split; [simpl; reflexivity | intros; try discriminate; reflexivity].

Lemma anthropic_block_skeleton model_name content st w h :
  exists rest,
    plan (anthropic_segment content)
    = (skeleton (events (anthropic_block model_name content st) w h) ++ rest)%list
    /\ (forall st', outcome (anthropic_block model_name content st) w h = Ok st'
        -> rest = []).
Proof.
  destruct content as [text | tool_name tool_args text | type];
    unfold anthropic_block, anthropic_tool_use, session_call_tool,
      anthropic_create, first_block_text;
    crunch; prefix_leaf.
Qed.

Lemma gemini_part_skeleton part final_text w h :
  exists rest,
    plan (gemini_part_segment part)
    = (skeleton (events (gemini_part part final_text) w h) ++ rest)%list
    /\ (forall ft', outcome (gemini_part part final_text) w h = Ok ft'
        -> rest = []).
Proof.
  unfold gemini_part, gemini_part_segment, gemini_function_call,
    session_call_tool, gemini_send.
  destruct (part_function_call part) as [func_call |]; [| crunch; prefix_leaf].
  unfold call_signature; simpl.
  destruct (json_loads (fc_args func_call)) eqn:Hj; crunch; prefix_leaf.
Qed.

Lemma openrouter_tool_call_skeleton model message_content tool_call st w h :
  exists rest,
    plan [openrouter_call_segment tool_call]
    = (skeleton
         (events (openrouter_tool_call model message_content tool_call st) w h)
         ++ rest)%list
    /\ (forall st',
           outcome (openrouter_tool_call model message_content tool_call st)
             w h = Ok st'
           -> rest = []).
Proof.
  unfold openrouter_tool_call, openrouter_call_segment, session_call_tool,
    openrouter_create, call_signature; simpl.
  destruct (json_loads (ortc_function_arguments tool_call)) eqn:Hj;
    crunch; prefix_leaf.
Qed.

(** ** Steps that occur in every path *)

Lemma run_request_bind {A B : Type}
    (oracle : World -> list Event -> Result A) (log : Result A -> Event)
    (f : A -> M B) w h :
  bind (request oracle log) f w h =
  match oracle w h with
  | Ok a =>
      (outcome (f a) w (h ++ [log (Ok a)])%list,
       log (Ok a) :: events (f a) w (h ++ [log (Ok a)])%list)
  | Raise e => (Raise e, [log (Raise e)])
  end.
Proof.
  unfold bind, request, outcome, events; simpl.
  destruct (oracle w h) as [a | e]; [| reflexivity].
  destruct (f a w (h ++ [log (Ok a)])%list); reflexivity.
Qed.

Lemma run_emit_bind {B : Type} (ev : Event) (f : unit -> M B) w h :
  bind (emit ev) f w h
  = (outcome (f tt) w (h ++ [ev])%list, ev :: events (f tt) w (h ++ [ev])%list).
Proof.
  unfold bind, emit, outcome, events; simpl.
  destruct (f tt w (h ++ [ev])%list); reflexivity.
Qed.

Lemma run_bind_ret {A B : Type} (m : M A) (g : A -> B) w h :
  bind m (fun a => ret (g a)) w h =
  (match outcome m w h with
   | Ok a => Ok (g a)
   | Raise e => Raise e
   end, events m w h).
Proof.
  unfold bind, ret, outcome, events.
  destruct (m w h) as [[a | e] es]; simpl; [rewrite app_nil_r |]; reflexivity.
Qed.

Lemma run_pair {A : Type} (m : M A) w h :
  m w h = (outcome m w h, events m w h).
Proof. unfold outcome, events. destruct (m w h); reflexivity. Qed.

(** ** The skeleton of a whole query *)

Lemma plan_flat_map {X : Type} (f : X -> list Segment) xs :
  plan (flat_map f xs) = flat_map (fun x => plan (f x)) xs.
Proof.
  unfold plan. induction xs as [| x xs IH]; simpl; [reflexivity |].
  rewrite flat_map_app, IH. reflexivity.
Qed.

Lemma plan_map {X : Type} (f : X -> Segment) xs :
  plan (map f xs) = flat_map (fun x => plan [f x]) xs.
Proof.
  unfold plan. induction xs as [| x xs IH]; simpl; [reflexivity |].
  rewrite IH, app_nil_r. reflexivity.
Qed.

Lemma anthropic_loop_skeleton model_name blocks st w h :
  exists rest,
    plan (flat_map anthropic_segment blocks)
    = (skeleton (events (anthropic_loop model_name blocks st) w h) ++ rest)%list
    /\ (forall st', outcome (anthropic_loop model_name blocks st) w h = Ok st'
        -> rest = []).
Proof.
  rewrite plan_flat_map. unfold anthropic_loop, skeleton.
  apply for_each_emits. intros. apply anthropic_block_skeleton.
Qed.

Lemma gemini_candidate_skeleton candidate final_text w h :
  exists rest,
    plan (gemini_candidate_segments candidate)
    = (skeleton (events (gemini_candidate candidate final_text) w h) ++ rest)%list
    /\ (forall ft', outcome (gemini_candidate candidate final_text) w h = Ok ft'
        -> rest = []).
Proof.
  unfold gemini_candidate, gemini_candidate_segments.
  destruct (cand_content candidate) as [parts |].
  - rewrite plan_flat_map. unfold skeleton.
    apply for_each_emits. intros. apply gemini_part_skeleton.
  - exists []. split; [reflexivity | auto].
Qed.

Lemma gemini_loop_skeleton candidates final_text w h :
  exists rest,
    plan (flat_map gemini_candidate_segments candidates)
    = (skeleton (events (gemini_candidates_loop candidates final_text) w h)
         ++ rest)%list
    /\ (forall ft',
           outcome (gemini_candidates_loop candidates final_text) w h = Ok ft'
           -> rest = []).
Proof.
  rewrite plan_flat_map. unfold gemini_candidates_loop, skeleton.
  apply for_each_emits. intros. apply gemini_candidate_skeleton.
Qed.

Lemma openrouter_loop_skeleton model message_content tool_calls st w h :
  exists rest,
    plan (map openrouter_call_segment tool_calls)
    = (skeleton
         (events (openrouter_loop model message_content tool_calls st) w h)
         ++ rest)%list
    /\ (forall st',
           outcome (openrouter_loop model message_content tool_calls st) w h
           = Ok st'
           -> rest = []).
Proof.
  rewrite plan_map. unfold openrouter_loop, skeleton.
  apply for_each_emits. intros. apply openrouter_tool_call_skeleton.
Qed.

Lemma anthropic_within_plan self query available_tools :
  within_plan (_process_with_anthropic self query available_tools).
Proof.
  intros w h. unfold _process_with_anthropic, events, outcome.
  rewrite run_bind_ret. simpl.
  unfold anthropic_conversation, anthropic_create, events, outcome.
  rewrite run_request_bind.
  destruct (anthropic_messages_create w h _) as [response | e]; simpl.
  - unfold full_plan; simpl.
    match goal with
    | |- context [events (anthropic_loop ?m ?b ?s) ?w' ?h'] =>
        destruct (anthropic_loop_skeleton m b s w' h') as [rest [Hp Hok]]
    end.
    exists rest. split.
    + unfold normalize_anthropic. rewrite Hp. reflexivity.
    + intros a Ha.
      match type of Ha with
      | match ?o with _ => _ end = _ => destruct o eqn:Ho; [| discriminate]
      end.
      first [exact (Hok _ eq_refl) | exact (Hok _ Ho)].
  - exists []. split; [reflexivity | auto].
Qed.

Lemma gemini_within_plan self query available_tools :
  within_plan (_process_with_gemini self query available_tools).
Proof.
  intros w h. unfold _process_with_gemini.
  destruct (gemini self); simpl.
  2: { exists []. split; [reflexivity | auto]. }
  unfold gemini_chat, events, outcome. rewrite run_request_bind.
  destruct (gemini_start_chat _ _ _ _) as [[] | e]; simpl.
  2: { exists []. split; [reflexivity | auto]. }
  unfold gemini_send, events, outcome. rewrite run_request_bind.
  destruct (gemini_send_message _ _ _) as [response | e]; simpl.
  - unfold events, outcome. rewrite run_bind_ret. unfold full_plan; simpl.
    match goal with
    | |- context [events (gemini_candidates_loop ?c ?s) ?w' ?h'] =>
        destruct (gemini_loop_skeleton c s w' h') as [rest [Hp Hok]]
    end.
    exists rest. split.
    + change (plan (normalize_gemini response))
        with (plan (flat_map gemini_candidate_segments (gr_candidates response))).
      rewrite Hp. reflexivity.
    + intros a Ha.
      match type of Ha with
      | match ?o with _ => _ end = _ => destruct o eqn:Ho; [| discriminate]
      end.
      first [exact (Hok _ eq_refl) | exact (Hok _ Ho)].
  - exists []. split; [reflexivity | auto].
Qed.

Lemma openrouter_within_plan self query available_tools :
  within_plan (_process_with_openrouter self query available_tools).
Proof.
  intros w h. unfold _process_with_openrouter.
  destruct (openrouter self); simpl.
  2: { exists []. split; [reflexivity | auto]. }
  unfold events, outcome. rewrite run_bind_ret. simpl.
  unfold openrouter_conversation, openrouter_create, events, outcome.
  rewrite run_request_bind.
  destruct (openrouter_chat_completions_create _ _ _) as [response | e]; simpl.
  2: { exists []. split; [reflexivity | auto]. }
  unfold full_plan; simpl. unfold normalize_openrouter.
  destruct (or_choices response) as [| message choices]; simpl.
  { exists []. split; [reflexivity | auto]. }
  destruct (orm_tool_calls message) as [tool_calls |]; simpl.
  2: { exists []. split; [reflexivity | auto]. }
  match goal with
  | |- context [events (openrouter_loop ?m ?c ?t ?s) ?w' ?h'] =>
      destruct (openrouter_loop_skeleton m c t s w' h') as [rest [Hp Hok]]
  end.
  exists rest. split.
  - change (plan (TextSegment (or_empty (orm_content message))
                    :: map openrouter_call_segment tool_calls))
      with (plan (map openrouter_call_segment tool_calls)).
    rewrite Hp. reflexivity.
  - intros a Ha.
    match type of Ha with
    | match ?o with _ => _ end = _ => destruct o eqn:Ho; [| discriminate]
    end.
    first [exact (Hok _ eq_refl) | exact (Hok _ Ho)].
Qed.

(** [process_query] once the catalog is in hand. *)
Lemma run_process_query self query w h :
  process_query self query w h =
  if session self then
    match list_tools w h with
    | Ok tools =>
        let path :=
          if startswith (current_model self) "anthropic/"
             || startswith (current_model self) "claude"
          then _process_with_anthropic self query (available_tools_of tools)
          else if startswith (current_model self) "gemini"
          then _process_with_gemini self query (available_tools_of tools)
          else if startswith (current_model self) "openai/"
                  || startswith (current_model self) "openrouter/"
          then _process_with_openrouter self query (available_tools_of tools)
          else ret ("Unknown model provider for: " ++ current_model self) in
        (outcome path w (h ++ [EvListTools (Ok tools)])%list,
         EvListTools (Ok tools)
           :: events path w (h ++ [EvListTools (Ok tools)])%list)
    | Raise e => (Raise e, [EvListTools (Raise e)])
    end
  else (Raise (mkExn "AttributeError"
                 "'NoneType' object has no attribute 'list_tools'"), []).
Proof.
  unfold process_query, session_list_tools.
  destruct (session self); [| reflexivity].
  rewrite run_request_bind. reflexivity.
Qed.

Lemma process_query_within_plan self query :
  within_plan (process_query self query).
Proof.
  intros w h. unfold events, outcome. rewrite run_process_query.
  destruct (session self); simpl.
  2: { exists []. split; [reflexivity | auto]. }
  destruct (list_tools w h) as [tools | e]; simpl.
  2: { exists []. split; [reflexivity | auto]. }
  match goal with
  | |- context [events ?p ?w' ?h'] =>
      assert (Hp : within_plan p);
      [| destruct (Hp w' h') as [rest [Hr Hok]]; exists rest; split;
         [exact Hr | exact Hok] ]
  end.
  destruct (_ || _).
  { apply anthropic_within_plan. }
  destruct (startswith _ "gemini").
  { apply gemini_within_plan. }
  destruct (_ || _).
  { apply openrouter_within_plan. }
  intros w' h'. exists []. split; [reflexivity | auto].
Qed.

(** ** From skeletons to calls and round-trips *)

Lemma step_calls_app a b :
  step_calls (a ++ b) = (step_calls a ++ step_calls b)%list.
Proof. unfold step_calls. apply flat_map_app. Qed.

Lemma step_round_trips_app a b :
  step_round_trips (a ++ b) = step_round_trips a + step_round_trips b.
Proof. unfold step_round_trips. rewrite filter_app, length_app. reflexivity. Qed.

Lemma step_calls_skeleton es :
  step_calls (skeleton es) = map sent_signature (dispatched es).
Proof.
  induction es as [| e es IH]; [reflexivity |].
  unfold skeleton, dispatched in *. simpl.
  rewrite step_calls_app, map_app, IH.
  destruct e; reflexivity.
Qed.

Lemma step_round_trips_skeleton es :
  step_round_trips (skeleton es) = round_trips es.
Proof.
  induction es as [| e es IH]; [reflexivity |].
  unfold skeleton, round_trips in *. simpl.
  rewrite step_round_trips_app, IH.
  destruct e; reflexivity.
Qed.

Lemma step_calls_plan segments :
  step_calls (plan segments) = map call_signature (tool_calls_of segments).
Proof.
  induction segments as [| s segments IH]; [reflexivity |].
  unfold plan, tool_calls_of in *. simpl.
  rewrite step_calls_app, map_app, IH.
  destruct s; reflexivity.
Qed.

Lemma step_round_trips_plan segments :
  step_round_trips (plan segments) = List.length (tool_calls_of segments).
Proof.
  induction segments as [| s segments IH]; [reflexivity |].
  unfold plan, tool_calls_of in *. simpl.
  rewrite step_round_trips_app, length_app, IH.
  destruct s; reflexivity.
Qed.

Lemma step_calls_full_plan es :
  step_calls (full_plan es) = map call_signature (requested es).
Proof.
  unfold full_plan, requested, first_response.
  destruct (find is_round_trip es) as [e |]; [| reflexivity].
  destruct (response_segments e) as [segments |]; [| reflexivity].
  change (step_calls (RoundTripStep :: plan segments))
    with (step_calls (plan segments)).
  apply step_calls_plan.
Qed.

Lemma step_round_trips_full_plan es :
  step_round_trips (full_plan es) = round_trip_budget es.
Proof.
  unfold full_plan, round_trip_budget, requested, first_response.
  destruct (find is_round_trip es) as [e |]; [| reflexivity].
  destruct (response_segments e) as [segments |]; [| reflexivity].
  change (step_round_trips (RoundTripStep :: plan segments))
    with (S (step_round_trips (plan segments))).
  rewrite step_round_trips_plan. reflexivity.
Qed.

(** C2, as the code has it.  [process_query] is a total function: every run
    ends.  It sends at most one backend request for the query and one more
    for each tool call the FIRST response asks for ([round_trip_budget]),
    and exactly that many when it returns; tool calls in later responses are
    not run.  No iteration cap enters, and no LoopExceeded is reported. *)
Theorem round_trips_within_first_response (self : MCPClient)
    (query : string) (w : World) (h : list Event) :
  round_trips (events (process_query self query) w h)
  <= round_trip_budget (events (process_query self query) w h)
  /\ (forall answer,
         outcome (process_query self query) w h = Ok answer ->
         round_trips (events (process_query self query) w h)
         = round_trip_budget (events (process_query self query) w h)).
Proof.
  destruct (process_query_within_plan self query w h) as [rest [Hp Hok]].
  apply (f_equal step_round_trips) in Hp.
  rewrite step_round_trips_app, step_round_trips_full_plan,
    step_round_trips_skeleton in Hp.
  split.
  - lia.
  - intros answer Ha. rewrite (Hok answer Ha) in Hp.
    change (step_round_trips []) with 0 in Hp. lia.
Qed.

(** C3, as the code has it.  A tool name is never looked up in the catalog:
    whatever [list_tools] reported, the calls sent to the tool host are, in
    order, calls the first response asks for, under the names and arguments
    the backend gave; when [process_query] returns, every call asked for has
    been sent. *)
Theorem tool_calls_sent_unchecked (self : MCPClient) (query : string)
    (w : World) (h : list Event) :
  exists unsent,
    map call_signature (requested (events (process_query self query) w h))
    = (map sent_signature
         (dispatched (events (process_query self query) w h)) ++ unsent)%list
    /\ (forall answer,
           outcome (process_query self query) w h = Ok answer ->
           unsent = []).
Proof.
  destruct (process_query_within_plan self query w h) as [rest [Hp Hok]].
  apply (f_equal step_calls) in Hp.
  rewrite step_calls_app, step_calls_full_plan, step_calls_skeleton in Hp.
  exists (step_calls rest). split; [exact Hp |].
  intros answer Ha. rewrite (Hok answer Ha). reflexivity.
Qed.

(** ** Dispatch on the model identifier *)

(** C10, as the code has it.  For a model identifier with none of the known
    prefixes, [process_query] sends nothing to a model backend and runs no
    tool; it has fetched the tool catalog first, and when that fetch
    succeeded it returns the "Unknown model provider" message naming the
    model. *)
Theorem unknown_provider_reported (self : MCPClient) (query : string)
    (w : World) (h : list Event) :
  unknown_provider (current_model self) ->
  round_trips (events (process_query self query) w h) = 0
  /\ dispatched (events (process_query self query) w h) = []
  /\ (forall tools,
         session self = true -> list_tools w h = Ok tools ->
         outcome (process_query self query) w h
         = Ok ("Unknown model provider for: " ++ current_model self)).
Proof.
  intros (Ha & Hc & Hg & Ho & Hr).
  unfold events, outcome. rewrite run_process_query.
  rewrite Ha, Hc, Hg, Ho, Hr. simpl.
  destruct (session self); [| split; [| split]; [reflexivity .. | discriminate]].
  destruct (list_tools w h) as [tools | e]; simpl.
  - split; [| split]; [reflexivity .. |]. intros; reflexivity.
  - split; [| split]; [reflexivity .. |]. intros; discriminate.
Qed.

(** ** Credentials *)

(** Without a Gemini key the Gemini path answers with its key message and
    touches nothing. *)
Lemma gemini_key_missing self query available_tools w h :
  gemini self = false ->
  _process_with_gemini self query available_tools w h
  = (Ok gemini_key_message, []).
Proof. intros H. unfold _process_with_gemini. rewrite H. reflexivity. Qed.

(** Without an OpenRouter key the OpenRouter path answers with its key
    message and touches nothing. *)
Lemma openrouter_key_missing self query available_tools w h :
  openrouter self = false ->
  _process_with_openrouter self query available_tools w h
  = (Ok openrouter_key_message, []).
Proof. intros H. unfold _process_with_openrouter. rewrite H. reflexivity. Qed.

(** The Anthropic path has no such check: whatever the client holds, its
    first step is a request to the backend. *)
Lemma anthropic_always_calls self query available_tools w h :
  exists req out rest,
    events (_process_with_anthropic self query available_tools) w h
    = EvAnthropicCreate req out :: rest.
Proof.
  unfold _process_with_anthropic, events. rewrite run_bind_ret. simpl.
  unfold anthropic_conversation, anthropic_create, events.
  rewrite run_request_bind.
  destruct (anthropic_messages_create w h _); simpl; eauto.
Qed.

(** ** The catalog *)

Ltac keeps_leaf :=
  repeat (first [ apply Forall_nil
                | apply Forall_cons; [split; simpl; auto |] ]).

Lemma anthropic_block_keeps available_tools model_name content st w h :
  Forall (keeps_catalog available_tools)
    (events (anthropic_block model_name content st) w h).
Proof.
  destruct content as [text | tool_name tool_args text | type];
    unfold anthropic_block, anthropic_tool_use, session_call_tool,
      anthropic_create, first_block_text;
    crunch; keeps_leaf.
Qed.

Lemma gemini_part_keeps available_tools part final_text w h :
  Forall (keeps_catalog available_tools)
    (events (gemini_part part final_text) w h).
Proof.
  unfold gemini_part, gemini_function_call, session_call_tool, gemini_send.
  crunch; keeps_leaf.
Qed.

Lemma gemini_candidate_keeps available_tools candidate final_text w h :
  Forall (keeps_catalog available_tools)
    (events (gemini_candidate candidate final_text) w h).
Proof.
  unfold gemini_candidate.
  destruct (cand_content candidate) as [parts |]; [| constructor].
  apply for_each_Forall. intros. apply gemini_part_keeps.
Qed.

Lemma openrouter_tool_call_keeps available_tools model message_content
    tool_call st w h :
  Forall (keeps_catalog available_tools)
    (events (openrouter_tool_call model message_content tool_call st) w h).
Proof.
  unfold openrouter_tool_call, session_call_tool, openrouter_create.
  crunch; keeps_leaf.
Qed.

Lemma anthropic_keeps self query available_tools w h :
  Forall (keeps_catalog available_tools)
    (events (_process_with_anthropic self query available_tools) w h).
Proof.
  unfold _process_with_anthropic, events. rewrite run_bind_ret. simpl.
  unfold anthropic_conversation, anthropic_create, events.
  rewrite run_request_bind.
  destruct (anthropic_messages_create w h _); simpl.
  - apply Forall_cons; [split; simpl; auto |].
    apply for_each_Forall. intros. apply anthropic_block_keeps.
  - keeps_leaf.
Qed.

Lemma gemini_keeps self query available_tools w h :
  Forall (keeps_catalog available_tools)
    (events (_process_with_gemini self query available_tools) w h).
Proof.
  unfold _process_with_gemini.
  destruct (gemini self); simpl; [| constructor].
  unfold gemini_chat, events. rewrite run_request_bind.
  destruct (gemini_start_chat _ _ _ _) as [[] | e]; simpl; [| keeps_leaf].
  apply Forall_cons; [split; simpl; auto |].
  unfold gemini_send, events. rewrite run_request_bind.
  destruct (gemini_send_message _ _ _); simpl.
  - apply Forall_cons; [split; simpl; auto |].
    unfold events. rewrite run_bind_ret. simpl.
    apply for_each_Forall. intros. apply gemini_candidate_keeps.
  - keeps_leaf.
Qed.

Lemma openrouter_keeps self query available_tools w h :
  Forall (keeps_catalog available_tools)
    (events (_process_with_openrouter self query available_tools) w h).
Proof.
  unfold _process_with_openrouter.
  destruct (openrouter self); simpl; [| constructor].
  unfold events. rewrite run_bind_ret. simpl.
  unfold openrouter_conversation, openrouter_create, events.
  rewrite run_request_bind.
  destruct (openrouter_chat_completions_create _ _ _) as [response | e]; simpl.
  2: keeps_leaf.
  apply Forall_cons; [split; simpl; auto |].
  destruct (or_choices response) as [| message choices]; [constructor |].
  destruct (orm_tool_calls message); [| constructor].
  apply for_each_Forall. intros. apply openrouter_tool_call_keeps.
Qed.

Lemma no_fetch_count available_tools es :
  Forall (keeps_catalog available_tools) es -> catalog_fetches es = 0.
Proof.
  unfold catalog_fetches.
  induction 1 as [| e es [He _] _ IH]; [reflexivity |].
  simpl. rewrite He. exact IH.
Qed.


(** ** Tool failures *)

Lemma first_tool_failure_app a b :
  first_tool_failure (a ++ b) =
  match first_tool_failure a with
  | Some (e, post) => Some (e, (post ++ b)%list)
  | None => first_tool_failure b
  end.
Proof.
  induction a as [| x a IH]; [reflexivity |].
  destruct x; simpl; try exact IH.
  destruct out; [exact IH | reflexivity].
Qed.

Lemma ends_bind {A B : Type} (m : M A) (f : A -> M B) :
  ends_at_tool_failure m ->
  (forall a, ends_at_tool_failure (f a)) ->
  ends_at_tool_failure (bind m f).
Proof.
  intros Hm Hf w h. specialize (Hm w h).
  bind_cases m w h.
  - rewrite H, H0, first_tool_failure_app.
    destruct (first_tool_failure (events m w h)) as [[e post] |].
    + destruct Hm as [_ Hm]. discriminate.
    + apply Hf.
  - rewrite H, H0.
    destruct (first_tool_failure (events m w h)) as [[e' post] |]; [| exact I].
    destruct Hm as [Hnil He]. inversion He; subst. split; reflexivity.
Qed.

Lemma ends_for_each {X S : Type} (body : X -> S -> M S) xs :
  (forall x s, ends_at_tool_failure (body x s)) ->
  forall s, ends_at_tool_failure (for_each xs body s).
Proof.
  intros Hbody. induction xs as [| x xs IH]; intros s.
  - intros w h. exact I.
  - rewrite for_each_cons. apply ends_bind; [apply Hbody | exact IH].
Qed.

Lemma ends_ret {A : Type} (a : A) : ends_at_tool_failure (ret a).
Proof. intros w h. exact I. Qed.

Lemma ends_raise {A : Type} e : ends_at_tool_failure (@raise RT A e).
Proof. intros w h. exact I. Qed.

Lemma ends_print text : ends_at_tool_failure (emit (EvPrint text)).
Proof. intros w h. exact I. Qed.

Lemma ends_start_chat model functions :
  ends_at_tool_failure (gemini_chat model functions).
Proof.
  intros w h. unfold gemini_chat, request, events, outcome. simpl.
  destruct (gemini_start_chat w h model functions); exact I.
Qed.

Lemma ends_call_tool tool_name tool_args :
  ends_at_tool_failure (session_call_tool tool_name tool_args).
Proof.
  intros w h. unfold session_call_tool, request, events, outcome. simpl.
  destruct (call_tool w h tool_name tool_args); [exact I | split; reflexivity].
Qed.

Lemma ends_anthropic_create req : ends_at_tool_failure (anthropic_create req).
Proof. intros w h. exact I. Qed.

Lemma ends_gemini_send content : ends_at_tool_failure (gemini_send content).
Proof. intros w h. exact I. Qed.

Lemma ends_openrouter_create req :
  ends_at_tool_failure (openrouter_create req).
Proof. intros w h. exact I. Qed.

Lemma ends_list_tools self : ends_at_tool_failure (session_list_tools self).
Proof.
  intros w h. unfold session_list_tools.
  destruct (session self); exact I.
Qed.

Lemma ends_first_block_text response :
  ends_at_tool_failure (first_block_text response).
Proof.
  intros w h. unfold first_block_text.
  destruct (ar_content response) as [| [text | name input [text |] | type] rest];
    exact I.
Qed.

(** Take a run apart along its binds. *)
Ltac ends_steps :=
  repeat first
    [ apply ends_ret | apply ends_raise | apply ends_print
    | apply ends_start_chat
    | apply ends_call_tool | apply ends_anthropic_create
    | apply ends_gemini_send | apply ends_openrouter_create
    | apply ends_list_tools | apply ends_first_block_text
    | apply ends_bind; [| intros ?]
    | apply ends_for_each; intros ? ? ].

Lemma ends_anthropic self query available_tools :
  ends_at_tool_failure (_process_with_anthropic self query available_tools).
Proof.
  unfold _process_with_anthropic, anthropic_conversation, anthropic_loop.
  ends_steps.
  unfold anthropic_block.
  match goal with
  | |- ends_at_tool_failure (match ?c with _ => _ end) => destruct c
  end; unfold anthropic_tool_use; ends_steps.
Qed.

Lemma ends_gemini self query available_tools :
  ends_at_tool_failure (_process_with_gemini self query available_tools).
Proof.
  unfold _process_with_gemini, gemini_candidates_loop.
  destruct (gemini self); simpl; ends_steps.
  unfold gemini_candidate.
  match goal with
  | |- ends_at_tool_failure (match ?c with _ => _ end) => destruct c
  end; ends_steps.
  unfold gemini_part.
  match goal with
  | |- ends_at_tool_failure (match ?c with _ => _ end) => destruct c
  end; ends_steps.
  unfold gemini_function_call.
  match goal with
  | |- ends_at_tool_failure (match ?c with _ => _ end) => destruct c
  end; ends_steps.
Qed.

Lemma ends_openrouter self query available_tools :
  ends_at_tool_failure (_process_with_openrouter self query available_tools).
Proof.
  unfold _process_with_openrouter, openrouter_conversation, openrouter_loop.
  destruct (openrouter self); simpl; ends_steps.
  match goal with
  | |- ends_at_tool_failure (match ?c with _ => _ end) =>
      destruct c as [| message choices]
  end; ends_steps.
  destruct (orm_tool_calls message); ends_steps.
  unfold openrouter_tool_call.
  match goal with
  | |- ends_at_tool_failure (match ?c with _ => _ end) => destruct c
  end; ends_steps.
Qed.

Lemma ends_process_query self query :
  ends_at_tool_failure (process_query self query).
Proof.
  unfold process_query. ends_steps.
  destruct (_ || _); [apply ends_anthropic |].
  destruct (startswith _ "gemini"); [apply ends_gemini |].
  destruct (_ || _); [apply ends_openrouter | apply ends_ret].
Qed.

Lemma tool_failure_split {R : PyExn -> Prop} pre name args e post :
  match first_tool_failure (pre ++ EvCallTool name args (Raise e) :: post) with
  | Some (e', post') => post' = [] /\ R e'
  | None => True
  end ->
  post = [] /\ R e.
Proof.
  induction pre as [| x pre IH]; simpl.
  - auto.
  - destruct x; try exact IH.
    destruct out; [exact IH |].
    intros [Hnil _]. destruct pre; discriminate.
Qed.

(** C4, as the code has it.  A tool call that raises is not caught inside
    [process_query]: it is the last event of the query (no request follows,
    to the backend or to the tool host) and [process_query] raises that same
    exception. *)
Theorem tool_failure_ends_query (self : MCPClient) (query : string)
    (w : World) (h : list Event) (pre post : list Event) (name : string)
    (args : Json) (e : PyExn) :
  events (process_query self query) w h
  = (pre ++ EvCallTool name args (Raise e) :: post)%list ->
  post = [] /\ outcome (process_query self query) w h = Raise e.
Proof.
  intros Hes. pose proof (ends_process_query self query w h) as Hend.
  rewrite Hes in Hend.
  exact (tool_failure_split
           (R := fun e' => outcome (process_query self query) w h = Raise e')
           pre name args e post Hend).
Qed.

(** ** A first response that asks for no tool *)

Lemma run_bind_quiet {A B : Type} (m : M A) (f : A -> M B) w h a :
  m w h = (Ok a, []) -> bind m f w h = f a w h.
Proof.
  intros Hm. unfold bind. rewrite Hm, app_nil_r.
  destruct (f a w h); reflexivity.
Qed.

Lemma anthropic_loop_quiet model_name blocks st w h :
  tool_calls_of (flat_map anthropic_segment blocks) = [] ->
  anthropic_loop model_name blocks st w h
  = (Ok (mkLoopState (ls_messages st) (ls_tool_results st)
           (ls_final_text st
              ++ texts_of (flat_map anthropic_segment blocks))%list), []).
Proof.
  unfold anthropic_loop, tool_calls_of, texts_of.
  revert st. induction blocks as [| content blocks IH]; intros st Hq.
  - simpl. rewrite app_nil_r. destruct st; reflexivity.
  - simpl in Hq. rewrite flat_map_app in Hq.
    apply app_eq_nil in Hq. destruct Hq as [Hc Hrest].
    rewrite for_each_cons.
    destruct content as [text | tool_name tool_args text' | type];
      simpl in Hc; try discriminate.
    + erewrite run_bind_quiet by reflexivity.
      rewrite (IH _ Hrest). simpl. rewrite <- app_assoc. reflexivity.
    + erewrite run_bind_quiet by reflexivity.
      rewrite (IH _ Hrest). reflexivity.
Qed.

Lemma gemini_parts_quiet parts final_text w h :
  tool_calls_of (flat_map gemini_part_segment parts) = [] ->
  for_each parts gemini_part final_text w h = (Ok final_text, [])
  /\ flat_map gemini_part_segment parts = [].
Proof.
  unfold tool_calls_of.
  induction parts as [| part parts IH]; intros Hq; [split; reflexivity |].
  simpl in Hq. rewrite flat_map_app in Hq.
  apply app_eq_nil in Hq. destruct Hq as [Hc Hrest].
  destruct (IH Hrest) as [Hrun Hnil].
  rewrite for_each_cons. simpl. unfold gemini_part, gemini_part_segment in *.
  destruct (part_function_call part); simpl in Hc; [discriminate |].
  erewrite run_bind_quiet by reflexivity. split; assumption.
Qed.

Lemma gemini_loop_quiet candidates final_text w h :
  tool_calls_of (flat_map gemini_candidate_segments candidates) = [] ->
  gemini_candidates_loop candidates final_text w h = (Ok final_text, [])
  /\ flat_map gemini_candidate_segments candidates = [].
Proof.
  unfold gemini_candidates_loop, tool_calls_of.
  induction candidates as [| candidate candidates IH]; intros Hq;
    [split; reflexivity |].
  simpl in Hq. rewrite flat_map_app in Hq.
  apply app_eq_nil in Hq. destruct Hq as [Hc Hrest].
  destruct (IH Hrest) as [Hrun Hnil].
  rewrite for_each_cons. simpl.
  unfold gemini_candidate, gemini_candidate_segments in *.
  destruct (cand_content candidate) as [parts |].
  - destruct (gemini_parts_quiet parts final_text w h Hc) as [Hp Hpn].
    erewrite run_bind_quiet by exact Hp.
    rewrite Hpn. split; assumption.
  - erewrite run_bind_quiet by reflexivity. split; assumption.
Qed.

(** C8, as the code has it.  When the FIRST backend response of a query asks
    for no tool, [process_query] calls no tool, sends no further request and
    returns that response's text segments joined by newlines; a single text
    segment is returned as it is. *)
Theorem tool_free_response_is_the_answer (self : MCPClient) (query : string)
    (w : World) (h : list Event) (segments : list Segment) :
  first_response (events (process_query self query) w h) = Some segments ->
  tool_calls_of segments = [] ->
  outcome (process_query self query) w h = Ok (join nl (texts_of segments))
  /\ dispatched (events (process_query self query) w h) = []
  /\ round_trips (events (process_query self query) w h) = 1.
Proof.
  unfold events, outcome. rewrite run_process_query.
  destruct (session self); [| discriminate].
  destruct (list_tools w h) as [tools | e]; [| discriminate].
  cbv zeta. cbn [fst snd].
  destruct (_ || _).
  { (* Anthropic *)
    unfold _process_with_anthropic, events, outcome.
    rewrite run_bind_ret. cbn [fst snd].
    unfold anthropic_conversation, anthropic_create, events, outcome.
    rewrite run_request_bind.
    destruct (anthropic_messages_create _ _ _) as [response | e];
      [| discriminate].
    unfold first_response. cbn [fst snd find is_round_trip response_segments].
    intros Hs Hq. inversion Hs; subst segments. clear Hs.
    unfold normalize_anthropic in *.
    unfold events, outcome. rewrite anthropic_loop_quiet by exact Hq.
    repeat split. }
  destruct (startswith _ "gemini").
  { (* Gemini *)
    unfold _process_with_gemini.
    destruct (gemini self); [| discriminate]. cbn [negb].
    unfold gemini_chat, events, outcome. rewrite run_request_bind.
    destruct (gemini_start_chat _ _ _ _) as [[] | e]; [| discriminate].
    cbn [fst snd].
    unfold gemini_send, events, outcome. rewrite run_request_bind.
    destruct (gemini_send_message _ _ _) as [response | e]; [| discriminate].
    unfold first_response. cbn [fst snd find is_round_trip response_segments].
    intros Hs Hq. inversion Hs; subst segments. clear Hs.
    unfold normalize_gemini in *.
    change (tool_calls_of
              (flat_map gemini_candidate_segments (gr_candidates response))
            = []) in Hq.
    unfold events, outcome. rewrite run_bind_ret.
    destruct (gemini_loop_quiet _ [gr_text response] w
                (h ++ [EvListTools (Ok tools)]
                   ++ [EvGeminiStartChat
                         (replace (current_model self) "gemini/" EmptyString)
                         (gemini_functions (available_tools_of tools))
                         (Ok tt)]
                   ++ [EvGeminiSend (CStr query) (Ok response)])%list Hq)
      as [Hrun Hnil].
    unfold events, outcome. rewrite <- !app_assoc in *.
    rewrite Hrun, Hnil. repeat split. }
  destruct (_ || _).
  { (* OpenRouter *)
    unfold _process_with_openrouter.
    destruct (openrouter self); [| discriminate]. cbn [negb].
    unfold events, outcome. rewrite run_bind_ret. cbn [fst snd].
    unfold openrouter_conversation, openrouter_create, events, outcome.
    rewrite run_request_bind.
    destruct (openrouter_chat_completions_create _ _ _) as [response | e];
      [| discriminate].
    unfold first_response. cbn [fst snd find is_round_trip response_segments].
    intros Hs Hq. inversion Hs; subst segments. clear Hs.
    unfold normalize_openrouter in *.
    destruct (or_choices response) as [| message choices]; [repeat split |].
    destruct (orm_tool_calls message) as [[| tool_call tool_calls] |];
      [repeat split | discriminate | repeat split]. }
  discriminate.
Qed.

(** ** The answer, from the segments of the first response *)

Lemma replies_app a b : replies (a ++ b) = (replies a ++ replies b)%list.
Proof. unfold replies. apply flat_map_app. Qed.

Lemma tool_calls_of_app a b :
  tool_calls_of (a ++ b) = (tool_calls_of a ++ tool_calls_of b)%list.
Proof. unfold tool_calls_of. apply flat_map_app. Qed.

Lemma answer_lines_app a b ra rb :
  List.length ra = List.length (tool_calls_of a) ->
  answer_lines (a ++ b) (ra ++ rb)
  = (answer_lines a ra ++ answer_lines b rb)%list.
Proof.
  revert ra. induction a as [| s a IH]; intros ra Hlen.
  - destruct ra; [reflexivity | discriminate].
  - destruct s as [text | call].
    + simpl. rewrite IH by exact Hlen. reflexivity.
    + destruct ra as [| reply later]; [discriminate |].
      simpl in Hlen. injection Hlen as Hlen.
      simpl. rewrite IH by exact Hlen.
      rewrite <- !app_assoc. reflexivity.
Qed.

Section AnswerLoop.

Variables X S : Type.
Variable body : X -> S -> M S.
Variable lines : S -> list string.
Variable seg : X -> list Segment.

Lemma for_each_adds_lines :
  (forall x, adds_lines body lines seg x) ->
  forall xs s w h s',
    outcome (for_each xs body s) w h = Ok s' ->
    lines s'
    = (lines s
         ++ answer_lines (flat_map seg xs)
              (replies (events (for_each xs body s) w h)))%list
    /\ List.length (replies (events (for_each xs body s) w h))
       = List.length (tool_calls_of (flat_map seg xs)).
Proof.
  intros Hbody xs. induction xs as [| x xs IH]; intros s w h s'.
  - unfold outcome, events. simpl. intros Hs. inversion Hs; subst.
    rewrite app_nil_r. split; reflexivity.
  - rewrite for_each_cons. bind_cases (body x s) w h.
    + rewrite H, H0. intros Hs.
      destruct (Hbody x s w h a Ho) as [Hl1 Hn1].
      destruct (IH a w _ s' Hs) as [Hl2 Hn2].
      simpl. rewrite replies_app, tool_calls_of_app, !length_app.
      rewrite answer_lines_app by exact Hn1.
      split; [| lia].
      rewrite Hl2, Hl1, <- app_assoc. reflexivity.
    + rewrite H0. discriminate.
Qed.

End AnswerLoop.

Ltac lines_leaf :=
  intros ? Hs; inversion Hs; subst; simpl;
  split; rewrite <- ?app_assoc; simpl; rewrite ?app_nil_r; congruence.

Lemma anthropic_block_adds_lines model_name content :
  adds_lines (anthropic_block model_name) ls_final_text anthropic_segment
    content.
Proof.
  intros st w h.
  destruct content as [text | tool_name tool_args text | type];
    unfold anthropic_block, anthropic_tool_use, session_call_tool,
      anthropic_create, first_block_text, replies;
    crunch; try (intros; discriminate); lines_leaf.
Qed.

Lemma gemini_part_adds_lines part :
  adds_lines gemini_part (fun final_text => final_text) gemini_part_segment
    part.
Proof.
  intros final_text w h.
  unfold gemini_part, gemini_part_segment, gemini_function_call,
    session_call_tool, gemini_send, replies.
  destruct (part_function_call part) as [func_call |]; [| crunch; lines_leaf].
  simpl.
  destruct (json_loads (fc_args func_call)) eqn:Hj; crunch;
    try (intros; discriminate); lines_leaf.
Qed.

Lemma gemini_candidate_adds_lines candidate :
  adds_lines gemini_candidate (fun final_text => final_text)
    gemini_candidate_segments candidate.
Proof.
  intros final_text w h final_text'.
  unfold gemini_candidate, gemini_candidate_segments.
  destruct (cand_content candidate) as [parts |].
  - apply (for_each_adds_lines (lines := fun final_text => final_text)
             (seg := gemini_part_segment) gemini_part_adds_lines).
  - unfold outcome, events. simpl. intros Hs. inversion Hs; subst.
    rewrite app_nil_r. split; reflexivity.
Qed.

Lemma openrouter_tool_call_adds_lines model message_content tool_call :
  adds_lines (openrouter_tool_call model message_content) ls_final_text
    (fun tool_call => [openrouter_call_segment tool_call]) tool_call.
Proof.
  intros st w h.
  unfold openrouter_tool_call, openrouter_call_segment, session_call_tool,
    openrouter_create, replies. simpl.
  destruct (json_loads (ortc_function_arguments tool_call)) eqn:Hj; crunch;
    try (intros; discriminate); lines_leaf.
Qed.

Lemma flat_map_singleton {X Y : Type} (f : X -> Y) xs :
  flat_map (fun x => [f x]) xs = map f xs.
Proof. induction xs as [| x xs IH]; simpl; [| rewrite IH]; reflexivity. Qed.

(** When a query returns, its answer is the lines of the first response's
    segments and of the replies that followed them, joined by newlines. *)
Lemma answer_of_process_query self query w h native answer :
  first_native_response (events (process_query self query) w h) = Some native ->
  outcome (process_query self query) w h = Ok answer ->
  answer
  = join nl
      (answer_lines (normalize native)
         (replies
            (after_first_round_trip (events (process_query self query) w h)))).
Proof.
  unfold events, outcome. rewrite run_process_query.
  destruct (session self); [| discriminate].
  destruct (list_tools w h) as [tools | e]; [| discriminate].
  cbv zeta. cbn [fst snd].
  destruct (_ || _).
  { unfold _process_with_anthropic, events, outcome.
    rewrite run_bind_ret. cbn [fst snd].
    unfold anthropic_conversation, anthropic_create, events, outcome.
    rewrite run_request_bind.
    destruct (anthropic_messages_create _ _ _) as [response | e];
      [| discriminate].
    unfold first_native_response. simpl.
    intros Hn Ha. inversion Hn; subst native. clear Hn.
    match type of Ha with
    | match ?o with _ => _ end = _ => destruct o as [st |] eqn:Ho;
                                      [| discriminate]
    end.
    inversion Ha; subst answer. clear Ha.
    destruct (for_each_adds_lines (lines := ls_final_text)
                (seg := anthropic_segment)
                (anthropic_block_adds_lines _) _ _ _ _ Ho) as [Hl _].
    rewrite Hl. reflexivity. }
  destruct (startswith _ "gemini").
  { unfold _process_with_gemini.
    destruct (gemini self); [| discriminate]. cbn [negb].
    unfold gemini_chat, events, outcome. rewrite run_request_bind.
    destruct (gemini_start_chat _ _ _ _) as [[] | e]; [| discriminate].
    cbn [fst snd].
    unfold gemini_send, events, outcome. rewrite run_request_bind.
    destruct (gemini_send_message _ _ _) as [response | e]; [| discriminate].
    unfold first_native_response. simpl.
    intros Hn Ha. inversion Hn; subst native. clear Hn.
    unfold events, outcome in *. rewrite run_bind_ret in *.
    cbn [fst snd] in *.
    match type of Ha with
    | match ?o with _ => _ end = _ => destruct o as [ft |] eqn:Ho;
                                      [| discriminate]
    end.
    inversion Ha; subst answer. clear Ha.
    destruct (for_each_adds_lines (lines := fun final_text => final_text)
                (seg := gemini_candidate_segments)
                gemini_candidate_adds_lines _ _ _ _ Ho) as [Hl _].
    rewrite Hl. reflexivity. }
  destruct (_ || _).
  { unfold _process_with_openrouter.
    destruct (openrouter self); [| discriminate]. cbn [negb].
    unfold events, outcome. rewrite run_bind_ret. cbn [fst snd].
    unfold openrouter_conversation, openrouter_create, events, outcome.
    rewrite run_request_bind.
    destruct (openrouter_chat_completions_create _ _ _) as [response | e];
      [| discriminate].
    unfold first_native_response. simpl.
    intros Hn Ha. inversion Hn; subst native. clear Hn.
    cbn [normalize]. unfold normalize_openrouter.
    destruct (or_choices response) as [| message choices].
    { inversion Ha. reflexivity. }
    destruct (orm_tool_calls message) as [tool_calls |].
    2: { inversion Ha. reflexivity. }
    match type of Ha with
    | match ?o with _ => _ end = _ => destruct o as [st |] eqn:Ho;
                                      [| discriminate]
    end.
    inversion Ha; subst answer. clear Ha.
    destruct (for_each_adds_lines (lines := ls_final_text)
                (seg := fun tool_call => [openrouter_call_segment tool_call])
                (openrouter_tool_call_adds_lines _ _) _ _ _ _ Ho) as [Hl _].
    rewrite Hl, flat_map_singleton. reflexivity. }
  discriminate.
Qed.

Lemma sent_signature_inj a b :
  map sent_signature a = map sent_signature b -> a = b.
Proof.
  revert b. induction a as [| [n x] a IH]; intros [| [m y] b] H;
    try discriminate; [reflexivity |].
  simpl in H. inversion H; subst. f_equal. apply IH. assumption.
Qed.

Lemma requested_of_native es native :
  first_native_response es = Some native ->
  requested es = tool_calls_of (normalize native).
Proof.
  unfold requested, first_response, first_native_response, response_segments.
  destruct (find is_round_trip es) as [e |]; [| discriminate].
  intros H. rewrite H. reflexivity.
Qed.

(** C9.  The segment sequence a run acts on is a function of the native
    response alone.  Take any two runs of [process_query] (whatever the
    client, query, world and history of each) that return and whose first
    native backend response is the same [native]: both act on one segment
    sequence, [normalize native].  They send the same tool calls in the same
    order, the calls of that sequence, and the answer of each is built from
    it: its text segments as they are, each tool call announced and followed
    by the reply it got. *)
Theorem normalization_deterministic
    (self1 self2 : MCPClient) (query1 query2 : string) (w1 w2 : World)
    (h1 h2 : list Event) (native : NativeResponse) (answer1 answer2 : string) :
  first_native_response (events (process_query self1 query1) w1 h1)
  = Some native ->
  first_native_response (events (process_query self2 query2) w2 h2)
  = Some native ->
  outcome (process_query self1 query1) w1 h1 = Ok answer1 ->
  outcome (process_query self2 query2) w2 h2 = Ok answer2 ->
  dispatched (events (process_query self1 query1) w1 h1)
  = dispatched (events (process_query self2 query2) w2 h2)
  /\ map sent_signature (dispatched (events (process_query self1 query1) w1 h1))
     = map call_signature (tool_calls_of (normalize native))
  /\ answer1
     = join nl
         (answer_lines (normalize native)
            (replies
               (after_first_round_trip
                  (events (process_query self1 query1) w1 h1))))
  /\ answer2
     = join nl
         (answer_lines (normalize native)
            (replies
               (after_first_round_trip
                  (events (process_query self2 query2) w2 h2)))).
Proof.
  intros Hn1 Hn2 Ha1 Ha2.
  assert (Hsent : forall self query w h answer,
             first_native_response (events (process_query self query) w h)
             = Some native ->
             outcome (process_query self query) w h = Ok answer ->
             map sent_signature
               (dispatched (events (process_query self query) w h))
             = map call_signature (tool_calls_of (normalize native))).
  { intros self query w h answer Hn Ha.
    destruct (process_query_within_plan self query w h) as [rest [Hp Hok]].
    apply (f_equal step_calls) in Hp.
    rewrite step_calls_app, step_calls_full_plan, step_calls_skeleton,
      (Hok answer Ha), app_nil_r in Hp.
    rewrite <- Hp, (requested_of_native _ Hn). reflexivity. }
  split; [| split; [| split]].
  - apply sent_signature_inj.
    rewrite (Hsent _ _ _ _ _ Hn1 Ha1), (Hsent _ _ _ _ _ Hn2 Ha2). reflexivity.
  - exact (Hsent _ _ _ _ _ Hn1 Ha1).
  - exact (answer_of_process_query _ _ _ _ Hn1 Ha1).
  - exact (answer_of_process_query _ _ _ _ Hn2 Ha2).
Qed.

(** ** What a request hands over: recorded calls and results *)

Lemma requests_sound_app past a b :
  requests_sound past (a ++ b)
  <-> requests_sound past a /\ requests_sound (past ++ a) b.
Proof.
  revert past. induction a as [| e a IH]; intros past; simpl.
  - rewrite app_nil_r. tauto.
  - rewrite IH, <- app_assoc. simpl. tauto.
Qed.

Lemma requests_sound_at past pre e post msgs :
  requests_sound past (pre ++ e :: post) ->
  sent_at (past ++ pre) e = Some msgs ->
  sent_sound (past ++ pre) msgs.
Proof.
  intros Hs Ht. apply requests_sound_app in Hs. destruct Hs as [_ Hs].
  simpl in Hs. rewrite Ht in Hs. tauto.
Qed.

Section SoundLoop.

Variables X S : Type.
Variable body : X -> S -> M S.
Variable inv : S -> list Event -> Prop.

Lemma for_each_sound :
  (forall x, sound_pass body inv x) ->
  forall xs s past w h,
    inv s past ->
    requests_sound past (events (for_each xs body s) w h)
    /\ (forall s', outcome (for_each xs body s) w h = Ok s' ->
                   inv s' (past ++ events (for_each xs body s) w h)).
Proof.
  intros Hbody xs. induction xs as [| x xs IH]; intros s past w h Hinv.
  - unfold events, outcome; simpl. split; [exact I |].
    intros s' Hs. inversion Hs; subst. rewrite app_nil_r. exact Hinv.
  - rewrite for_each_cons.
    destruct (Hbody x s past w h Hinv) as [Hreq Hkeep].
    bind_cases (body x s) w h.
    + rewrite H, H0.
      destruct (IH a (past ++ events (body x s) w h)%list w
                  (h ++ events (body x s) w h)%list (Hkeep a eq_refl))
        as [Hreq2 Hkeep2].
      split.
      * apply requests_sound_app. split; assumption.
      * intros s' Hs. rewrite app_assoc. apply Hkeep2. exact Hs.
    + rewrite H, H0. split; [exact Hreq | discriminate].
Qed.

End SoundLoop.

Lemma pending_after_app pending a b :
  pending_after pending (a ++ b) =
  match pending_after pending a with
  | Some pending' => pending_after pending' b
  | None => None
  end.
Proof.
  revert pending. induction a as [| m a IH]; intros pending; [reflexivity |].
  simpl. destruct (msg_tool_call_id m) as [id |].
  - destruct (remove_first id pending); [apply IH | reflexivity].
  - apply IH.
Qed.

Lemma recorded_results_app a b :
  recorded_results (a ++ b) = (recorded_results a ++ recorded_results b)%list.
Proof. unfold recorded_results. apply flat_map_app. Qed.

Lemma returned_results_app a b :
  returned_results (a ++ b) = (returned_results a ++ returned_results b)%list.
Proof. unfold returned_results. apply flat_map_app. Qed.

Lemma gemini_sent_app a b :
  gemini_sent (a ++ b) = (gemini_sent a ++ gemini_sent b)%list.
Proof. unfold gemini_sent. apply flat_map_app. Qed.

(** Appending a message that neither asks for a call nor answers one. *)
Lemma answered_plain msgs role c :
  all_calls_answered msgs ->
  all_calls_answered (msgs ++ [plain_message role c]).
Proof.
  unfold all_calls_answered. intros H.
  rewrite pending_after_app, H. reflexivity.
Qed.

(** Appending a call and, right after it, its result. *)
Lemma answered_call_result msgs c1 c2 call role1 role2 :
  all_calls_answered msgs ->
  all_calls_answered
    (msgs ++ [mkMessage role1 c1 (Some [call]) None]
          ++ [mkMessage role2 c2 None (Some (tcd_id call))]).
Proof.
  unfold all_calls_answered. intros H.
  rewrite pending_after_app, H. simpl.
  rewrite String.eqb_refl. reflexivity.
Qed.

(** The messages after a tool call whose result is appended as a plain
    message, with or without a plain message before it. *)
Lemma sent_sound_result past msgs name args result later
    (before : list Message) role :
  sent_sound past msgs ->
  returned_results later = [] ->
  recorded_results before = [] ->
  (forall pending, pending_after pending before = Some pending) ->
  sent_sound (past ++ EvCallTool name args (Ok result) :: later)
    ((msgs ++ before)
       ++ [plain_message role (CResult (ctr_content result))]).
Proof.
  intros [Hans Hrec] Hlater Hbefore Hpending. split.
  - apply answered_plain. unfold all_calls_answered in *.
    rewrite pending_after_app, Hans. apply Hpending.
  - rewrite !recorded_results_app, Hrec, Hbefore, app_nil_r.
    rewrite returned_results_app. simpl. rewrite Hlater. reflexivity.
Qed.

Lemma sent_sound_later past msgs later :
  sent_sound past msgs ->
  returned_results later = [] ->
  sent_sound (past ++ later) msgs.
Proof.
  intros [Hans Hrec] Hlater. split; [exact Hans |].
  rewrite returned_results_app, Hlater, app_nil_r. exact Hrec.
Qed.

Lemma anthropic_block_sound model_name content :
  sound_pass (anthropic_block model_name) messages_sound content.
Proof.
  intros st past w h Hinv. unfold messages_sound in *.
  destruct content as [text | tool_name tool_args text | type].
  - unfold events, outcome; simpl. split; [exact I |].
    intros st' Hs. inversion Hs; subst; simpl. rewrite app_nil_r. exact Hinv.
  - assert (Hstep : forall result later,
               returned_results later = [] ->
               sent_sound
                 (past ++ EvCallTool tool_name tool_args (Ok result) :: later)
                 ((if truthy text
                   then (ls_messages st
                           ++ [plain_message "assistant"
                                 (content_of_option text)])%list
                   else ls_messages st)
                    ++ [plain_message "user" (CResult (ctr_content result))])).
    { intros result later Hlater. destruct (truthy text) eqn:Ht.
      - apply sent_sound_result; auto.
        + destruct text as [[| c s] |]; try discriminate. reflexivity.
        + intros pending. simpl. rewrite app_nil_r. reflexivity.
      - rewrite <- (app_nil_r (ls_messages st)) at 1.
        apply sent_sound_result; auto. }
    unfold anthropic_block, anthropic_tool_use, session_call_tool,
      anthropic_create, first_block_text.
    unfold events, outcome, bind, request, ret, raise; simpl.
    destruct (call_tool w h tool_name tool_args) as [result | e]; simpl.
    2: { split; [tauto | discriminate]. }
    destruct (anthropic_messages_create _ _ _) as [response | e]; simpl.
    2: { split; [| discriminate].
         split; [exact I | split; [| exact I]].
         apply Hstep. reflexivity. }
    assert (Hreq : True /\ sent_sound
                     (past ++ [EvCallTool tool_name tool_args (Ok result)])
                     ((if truthy text
                       then (ls_messages st
                               ++ [plain_message "assistant"
                                     (content_of_option text)])%list
                       else ls_messages st)
                        ++ [plain_message "user"
                              (CResult (ctr_content result))]) /\ True).
    { split; [exact I | split; [| exact I]]. apply Hstep. reflexivity. }
    destruct (ar_content response) as [| [t | n i [t |] | ty] rest]; simpl;
      (split; [exact Hreq |]); intros st' Hs; inversion Hs; subst; simpl;
      apply Hstep; reflexivity.
  - unfold events, outcome; simpl. split; [exact I |].
    intros st' Hs. inversion Hs; subst; simpl. rewrite app_nil_r. exact Hinv.
Qed.

Lemma openrouter_tool_call_sound model message_content tool_call :
  sound_pass (openrouter_tool_call model message_content) messages_sound
    tool_call.
Proof.
  intros st past w h Hinv. unfold messages_sound in *.
  unfold openrouter_tool_call.
  destruct (json_loads (ortc_function_arguments tool_call)) as [tool_args | e].
  2: { unfold events, outcome; simpl. split; [exact I | discriminate]. }
  set (call := {| tcd_id := ortc_id tool_call;
                  tcd_name := ortc_function_name tool_call;
                  tcd_arguments := ortc_function_arguments tool_call |}).
  assert (Hstep : forall result later,
             returned_results later = [] ->
             sent_sound
               (past ++ EvCallTool (ortc_function_name tool_call) tool_args
                          (Ok result) :: later)
               ((ls_messages st
                   ++ [mkMessage "assistant"
                         (content_of_option message_content)
                         (Some [call]) None])
                  ++ [mkMessage "tool" (CResult (ctr_content result)) None
                        (Some (ortc_id tool_call))])).
  { intros result later Hlater. destruct Hinv as [Hans Hrec]. split.
    - rewrite <- app_assoc.
      apply answered_call_result with (call := call). exact Hans.
    - rewrite !recorded_results_app, Hrec, returned_results_app. simpl.
      rewrite Hlater. destruct message_content; simpl;
        rewrite app_nil_r; reflexivity. }
  unfold session_call_tool, openrouter_create.
  unfold events, outcome, bind, request, ret, raise; simpl.
  destruct (call_tool w h _ tool_args) as [result | e]; simpl.
  2: { split; [tauto | discriminate]. }
  destruct (openrouter_chat_completions_create _ _ _) as [response | e]; simpl.
  2: { split; [| discriminate].
       split; [exact I | split; [| exact I]].
       apply Hstep. reflexivity. }
  split.
  - split; [exact I | split; [| exact I]]. apply Hstep. reflexivity.
  - intros st' Hs. inversion Hs; subst; simpl. apply Hstep. reflexivity.
Qed.

Lemma answered_all_plain role contents :
  all_calls_answered (map (plain_message role) contents).
Proof.
  unfold all_calls_answered.
  induction contents as [| c contents IH]; [reflexivity | exact IH].
Qed.

Lemma recorded_results_sent role contents c :
  recorded_results (map (plain_message role) (contents ++ [CResult c]))
  = (recorded_results (map (plain_message role) contents) ++ [c])%list.
Proof. rewrite map_app, recorded_results_app. reflexivity. Qed.

Lemma gemini_part_sound part : sound_pass gemini_part chat_sound part.
Proof.
  intros final_text past w h Hinv. unfold chat_sound in *.
  unfold gemini_part.
  destruct (part_function_call part) as [func_call |].
  2: { unfold events, outcome; simpl. split; [exact I |].
       intros ft' Hs. rewrite app_nil_r. exact Hinv. }
  unfold gemini_function_call.
  destruct (json_loads (fc_args func_call)) as [tool_args | e].
  2: { unfold events, outcome; simpl. split; [exact I | discriminate]. }
  assert (Hstep : forall result later,
             returned_results later = [] ->
             sent_sound
               (past ++ EvCallTool (fc_name func_call) tool_args (Ok result)
                          :: later)
               (map (plain_message "user")
                  (gemini_sent past ++ [CResult (ctr_content result)]))).
  { intros result later Hlater. destruct Hinv as [_ Hrec]. split.
    - apply answered_all_plain.
    - rewrite recorded_results_sent, Hrec, returned_results_app. simpl.
      rewrite Hlater. reflexivity. }
  unfold session_call_tool, gemini_send.
  unfold events, outcome, bind, request, ret, raise; simpl.
  destruct (call_tool w h _ tool_args) as [result | e]; simpl.
  2: { split; [tauto | discriminate]. }
  assert (Hreq : True /\ sent_sound
                   (past ++ [EvCallTool (fc_name func_call) tool_args
                               (Ok result)])
                   (map (plain_message "user")
                      (gemini_sent
                         (past ++ [EvCallTool (fc_name func_call) tool_args
                                     (Ok result)])
                         ++ [CResult (ctr_content result)])) /\ True).
  { split; [exact I | split; [| exact I]].
    rewrite gemini_sent_app. simpl. rewrite app_nil_r.
    apply Hstep. reflexivity. }
  destruct (gemini_send_message _ _ _) as [response | e]; simpl.
  2: { split; [exact Hreq | discriminate]. }
  split; [exact Hreq |].
  intros ft' Hs. rewrite gemini_sent_app. simpl. apply Hstep. reflexivity.
Qed.

Lemma gemini_candidate_sound candidate :
  sound_pass gemini_candidate chat_sound candidate.
Proof.
  intros final_text past w h Hinv. unfold gemini_candidate.
  destruct (cand_content candidate) as [parts |].
  - apply (for_each_sound (inv := chat_sound) gemini_part_sound). exact Hinv.
  - unfold events, outcome; simpl. split; [exact I |].
    intros ft' Hs. unfold chat_sound in *. rewrite app_nil_r. exact Hinv.
Qed.

Lemma anthropic_requests_sound self query available_tools past w h :
  returned_results past = [] ->
  requests_sound past
    (events (_process_with_anthropic self query available_tools) w h).
Proof.
  intros Hpast.
  assert (Hstart : forall later,
             returned_results later = [] ->
             sent_sound (past ++ later)
               [plain_message "user" (CStr query)]).
  { intros later Hlater. split; [reflexivity |].
    rewrite returned_results_app, Hpast, Hlater. reflexivity. }
  unfold _process_with_anthropic, events. rewrite run_bind_ret. simpl.
  unfold anthropic_conversation, anthropic_create, events.
  rewrite run_request_bind.
  destruct (anthropic_messages_create w h _) as [response | e]; simpl.
  - split.
    + rewrite <- (app_nil_r past). apply Hstart. reflexivity.
    + apply (for_each_sound (inv := messages_sound)
               (anthropic_block_sound _)).
      apply Hstart. reflexivity.
  - split; [| exact I].
    rewrite <- (app_nil_r past). apply Hstart. reflexivity.
Qed.

Lemma openrouter_requests_sound self query available_tools past w h :
  returned_results past = [] ->
  requests_sound past
    (events (_process_with_openrouter self query available_tools) w h).
Proof.
  intros Hpast.
  assert (Hstart : forall later,
             returned_results later = [] ->
             sent_sound (past ++ later)
               [plain_message "user" (CStr query)]).
  { intros later Hlater. split; [reflexivity |].
    rewrite returned_results_app, Hpast, Hlater. reflexivity. }
  unfold _process_with_openrouter.
  destruct (openrouter self); simpl; [| exact I].
  unfold events. rewrite run_bind_ret. simpl.
  unfold openrouter_conversation, openrouter_create, events.
  rewrite run_request_bind.
  destruct (openrouter_chat_completions_create _ _ _) as [response | e]; simpl.
  2: { split; [| exact I].
       rewrite <- (app_nil_r past). apply Hstart. reflexivity. }
  split.
  { rewrite <- (app_nil_r past). apply Hstart. reflexivity. }
  destruct (or_choices response) as [| message choices]; [exact I |].
  destruct (orm_tool_calls message) as [tool_calls |]; [| exact I].
  apply (for_each_sound (inv := messages_sound)
           (openrouter_tool_call_sound _ _)).
  apply Hstart. reflexivity.
Qed.

Lemma gemini_requests_sound self query available_tools past w h :
  returned_results past = [] ->
  gemini_sent past = [] ->
  requests_sound past
    (events (_process_with_gemini self query available_tools) w h).
Proof.
  intros Hpast Hsent.
  unfold _process_with_gemini.
  destruct (gemini self); simpl; [| exact I].
  unfold gemini_chat, events. rewrite run_request_bind.
  destruct (gemini_start_chat _ _ _ _) as [[] | e0]; simpl; [| tauto].
  split; [exact I |].
  unfold gemini_send, events. rewrite run_request_bind.
  destruct (gemini_send_message _ _ _) as [response | e]; simpl.
  - split.
    + rewrite gemini_sent_app, Hsent. simpl. split; [reflexivity |].
      rewrite returned_results_app, Hpast. reflexivity.
    + unfold events. rewrite run_bind_ret. simpl.
      apply (for_each_sound (inv := chat_sound) gemini_candidate_sound).
      unfold chat_sound. rewrite !gemini_sent_app, Hsent. simpl.
      split; [reflexivity |].
      rewrite !returned_results_app, Hpast. reflexivity.
  - split; [| exact I].
    rewrite gemini_sent_app, Hsent. simpl. split; [reflexivity |].
    rewrite returned_results_app, Hpast. reflexivity.
Qed.

Lemma process_query_requests_sound self query w h :
  requests_sound [] (events (process_query self query) w h).
Proof.
  unfold events. rewrite run_process_query.
  destruct (session self); simpl; [| exact I].
  destruct (list_tools w h) as [tools | e]; simpl; [| tauto].
  split; [exact I |].
  destruct (_ || _); [apply anthropic_requests_sound; reflexivity |].
  destruct (startswith _ "gemini");
    [apply gemini_requests_sound; reflexivity |].
  destruct (_ || _); [apply openrouter_requests_sound; reflexivity |].
  exact I.
Qed.

(** ** The single-call scenario *)

(** C7, as the code has it.  The first response asks for one tool call, the
    tool returns, the second response is the text [answer].  The answer
    [process_query] returns is not [answer] alone: the line announcing the
    call comes before it (and, on the OpenRouter path, the text of the first
    response, here empty, before that).  The transcript ends with two
    messages on the Anthropic path (the query, the tool output as a user
    message) and three on the OpenRouter path (the query, the assistant
    message with the call, the tool message); the final reply is never
    appended. *)
Theorem single_call_scenario (catalog : list Tool) (tool : string)
    (tool_args : Json) (arguments_text call_id : string)
    (result : CallToolResult) (answer query : string) :
  json_loads arguments_text = Ok tool_args ->
  let w := single_call_world catalog tool tool_args arguments_text call_id
             result answer in
  outcome (process_query anthropic_client query) w []
  = Ok (calling_tool_line tool tool_args ++ nl ++ answer)
  /\ final_transcript
       (anthropic_conversation anthropic_client query
          (available_tools_of catalog)) w [EvListTools (Ok catalog)]
     = Some [ plain_message "user" (CStr query);
              plain_message "user" (CResult (ctr_content result)) ]
  /\ outcome (process_query openrouter_client query) w []
     = Ok (nl ++ calling_tool_line tool tool_args ++ nl ++ answer)
  /\ final_transcript
       (openrouter_conversation openrouter_client query
          (available_tools_of catalog)) w [EvListTools (Ok catalog)]
     = Some [ plain_message "user" (CStr query);
              mkMessage "assistant" CNone
                (Some [mkToolCallDict call_id tool arguments_text]) None;
              mkMessage "tool" (CResult (ctr_content result)) None
                (Some call_id) ].
Proof.
  intros Hloads w. subst w.
  split; [| split; [| split]].
  - reflexivity.
  - reflexivity.
  - unfold outcome, process_query, _process_with_openrouter,
      openrouter_conversation, openrouter_loop, openrouter_tool_call,
      session_list_tools, session_call_tool, openrouter_create.
    unfold bind, request, ret; simpl. rewrite Hloads. reflexivity.
  - unfold final_transcript, outcome, openrouter_conversation,
      openrouter_loop, openrouter_tool_call, session_call_tool,
      openrouter_create.
    unfold bind, request, ret; simpl. rewrite Hloads. reflexivity.
Qed.

(** ** The interactive loop and exceptions *)

Lemma try_except_raise {A : Type} (m : M A) (handler : PyExn -> M A) w h e :
  outcome m w h = Raise e ->
  is_Exception e = true ->
  events (try_except m handler) w h
  = (events m w h ++ events (handler e) w (h ++ events m w h))%list
  /\ outcome (try_except m handler) w h
     = outcome (handler e) w (h ++ events m w h)%list.
Proof.
  unfold outcome, events, try_except.
  destruct (m w h) as [[a | e'] es]; simpl; intros H He; inversion H; subst.
  rewrite He. destruct (handler e w (h ++ es)%list). split; reflexivity.
Qed.

Lemma try_except_escapes {A : Type} (m : M A) (handler : PyExn -> M A)
    w h e :
  outcome m w h = Raise e ->
  is_Exception e = false ->
  try_except m handler w h = (Raise e, events m w h).
Proof.
  unfold outcome, events, try_except.
  destruct (m w h) as [[a | e'] es]; simpl; intros H He; inversion H; subst.
  rewrite He. reflexivity.
Qed.

Lemma try_except_ok {A : Type} (m : M A) (handler : PyExn -> M A) w h a :
  outcome m w h = Ok a ->
  try_except m handler w h = (Ok a, events m w h).
Proof.
  unfold outcome, events, try_except.
  destruct (m w h) as [[a' | e] es]; simpl; intros H; inversion H; subst.
  reflexivity.
Qed.

Lemma chat_turns_cons self got rest :
  chat_turns self (got :: rest)
  = bind (chat_pass self got)
      (fun next => match next with
                   | None => ret (Quit self)
                   | Some self' => chat_turns self' rest
                   end).
Proof. reflexivity. Qed.

(** The pass for a line that is a query, as the [try] block runs it. *)
Lemma chat_pass_query self line :
  String.eqb (lower (strip line)) "quit" = false ->
  String.eqb (lower (strip line)) "model list" = false ->
  startswith (lower (strip line)) "model set " = false ->
  chat_pass self (Ok line)
  = try_except
      (bind (bind (process_query self (strip line))
               (fun response => emit (EvPrint (nl ++ response)) ;;; ret self))
         (fun self' => ret (Some self')))
      (fun e => emit (error_report e) ;;; ret (Some self)).
Proof.
  intros Hquit Hlist Hset. unfold chat_pass, chat_command.
  rewrite Hquit, Hlist, Hset. reflexivity.
Qed.

(** X11.  An exception [process_query] raises on a query line is caught by
    the chat loop when it is an [Exception], a tool failure included: the
    loop prints the error text and goes on to the next line with the client
    unchanged.  Any other exception leaves the loop: [chat_loop] raises it,
    prints nothing and reads no further line. *)
Lemma chat_loop_reports_exception self line rest w h e :
  String.eqb (lower (strip line)) "quit" = false ->
  String.eqb (lower (strip line)) "model list" = false ->
  startswith (lower (strip line)) "model set " = false ->
  outcome (process_query self (strip line)) w h = Raise e ->
  let printed :=
    (events (process_query self (strip line)) w h
       ++ [EvPrint (nl ++ "Error: " ++ exn_text e)])%list in
  (is_Exception e = true ->
   events (chat_turns self (Ok line :: rest)) w h
   = (printed ++ events (chat_turns self rest) w (h ++ printed))%list
   /\ outcome (chat_turns self (Ok line :: rest)) w h
      = outcome (chat_turns self rest) w (h ++ printed)%list)
  /\ (is_Exception e = false ->
      chat_turns self (Ok line :: rest) w h
      = (Raise e, events (process_query self (strip line)) w h)).
Proof.
  intros Hquit Hlist Hset Hraise printed. subst printed.
  set (query := strip line) in *.
  set (handler := fun e' : PyExn =>
                    emit (error_report e') ;;; ret (Some self)).
  set (body := bind (bind (process_query self query)
                       (fun response =>
                          emit (EvPrint (nl ++ response)) ;;; ret self))
                 (fun self' => ret (Some self'))).
  assert (Hpass : chat_pass self (Ok line) = try_except body handler).
  { apply chat_pass_query; assumption. }
  destruct (events_bind_raise (process_query self query)
              (fun response => emit (EvPrint (nl ++ response)) ;;; ret self)
              w h Hraise) as [Hes1 Hout1].
  destruct (events_bind_raise _ (fun self' : MCPClient => ret (Some self'))
              w h Hout1) as [Hes2 Hout2].
  fold body in Hes2, Hout2. rewrite Hes1 in Hes2.
  rewrite chat_turns_cons, Hpass.
  split; intros He.
  - destruct (try_except_raise body handler w h Hout2 He) as [Hes' Hout'].
    rewrite Hes2 in Hes', Hout'.
    assert (Hok : outcome (try_except body handler) w h = Ok (Some self)).
    { rewrite Hout'. reflexivity. }
    destruct (events_bind_ok (try_except body handler)
                (fun next => match next with
                             | None => ret (Quit self)
                             | Some self' => chat_turns self' rest
                             end) w h Hok) as [Hall Hres].
    rewrite Hall, Hres, Hes'. split; reflexivity.
  - rewrite run_bind, (try_except_escapes body handler w h Hout2 He), Hes2.
    reflexivity.
Qed.

(** ** The interactive loop as a whole *)

Lemma catalog_fetches_app a b :
  catalog_fetches (a ++ b) = catalog_fetches a + catalog_fetches b.
Proof. unfold catalog_fetches. rewrite filter_app, length_app. reflexivity. Qed.

Lemma catalog_fetches_prints lines :
  catalog_fetches (map EvPrint lines) = 0.
Proof. induction lines as [| l ls IH]; [reflexivity | exact IH]. Qed.

Lemma print_lines_run lines w h :
  print_lines lines w h = (Ok tt, map EvPrint lines).
Proof.
  unfold print_lines. revert h.
  induction lines as [| line lines IH]; intros h; [reflexivity |].
  rewrite for_each_cons, run_emit_bind. unfold outcome, events.
  rewrite IH. reflexivity.
Qed.

(** What one pass through the loop body does.  Either it lets nothing
    through: its outcome is [after_pass], its events those of the query it
    handed over, if any, followed by what it printed.  Or an exception that
    is not an [Exception] leaves the loop, right after the events of the
    query that raised it. *)
Lemma chat_pass_run self got w h :
  (exists printed,
      chat_pass self got w h
      = (Ok (after_pass self got), (handed_over self got w h ++ printed)%list)
      /\ catalog_fetches printed = 0)
  \/ (exists e,
         is_Exception e = false
         /\ chat_pass self got w h = (Raise e, handed_over self got w h)).
Proof.
  destruct got as [line | e].
  2: { unfold chat_pass, after_pass, handed_over.
       destruct (is_Exception e) eqn:He.
       - left. exists [error_report e].
         unfold try_except, raise. rewrite He. split; reflexivity.
       - right. exists e. unfold try_except, raise. rewrite He.
         split; reflexivity. }
  unfold after_pass, handed_over.
  destruct (String.eqb (lower (strip line)) "quit") eqn:Hquit.
  { left. exists []. unfold chat_pass. rewrite Hquit.
    split; reflexivity. }
  destruct (String.eqb (lower (strip line)) "model list") eqn:Hlist.
  { left.
    exists (EvPrint (nl ++ "Available models:")
              :: map EvPrint
                   (flat_map provider_lines (get_available_models self))
              ++ [EvPrint (nl ++ "Current model: " ++ current_model self)])%list.
    unfold chat_pass, chat_command. rewrite Hquit, Hlist.
    unfold try_except. rewrite run_bind, run_emit_bind.
    unfold outcome, events.
    rewrite run_bind. rewrite print_lines_run. cbn [fst snd].
    rewrite run_emit_bind. unfold outcome, events, ret. cbn [fst snd].
    split; [rewrite app_nil_r; reflexivity |].
    change (catalog_fetches
              (map EvPrint
                 (flat_map provider_lines (get_available_models self))
               ++ [EvPrint (nl ++ "Current model: " ++ current_model self)])
            = 0).
    rewrite catalog_fetches_app, catalog_fetches_prints. reflexivity. }
  destruct (startswith (lower (strip line)) "model set ") eqn:Hset.
  { left. eexists. unfold chat_pass, chat_command.
    rewrite Hquit, Hlist, Hset.
    unfold try_except, set_model. rewrite run_bind, run_emit_bind.
    unfold outcome, events, ret, with_model. cbn [fst snd].
    split; reflexivity. }
  rewrite (chat_pass_query self line Hquit Hlist Hset).
  set (query := strip line).
  set (handler := fun e' : PyExn =>
                    emit (error_report e') ;;; ret (Some self)).
  set (body := bind (bind (process_query self query)
                       (fun response =>
                          emit (EvPrint (nl ++ response)) ;;; ret self))
                 (fun self' => ret (Some self'))).
  destruct (outcome (process_query self query) w h) as [answer | e] eqn:Ho.
  - left. exists [EvPrint (nl ++ answer)].
    destruct (events_bind_ok (process_query self query)
                (fun response =>
                   emit (EvPrint (nl ++ response)) ;;; ret self) w h Ho)
      as [Hes1 Hout1].
    assert (Hok1 : outcome
                     (bind (process_query self query)
                        (fun response =>
                           emit (EvPrint (nl ++ response)) ;;; ret self)) w h
                   = Ok self).
    { rewrite Hout1. reflexivity. }
    destruct (events_bind_ok _ (fun self' : MCPClient => ret (Some self'))
                w h Hok1) as [Hes2 Hout2].
    fold body in Hes2, Hout2.
    assert (Hok : outcome body w h = Ok (Some self)).
    { rewrite Hout2. reflexivity. }
    rewrite (try_except_ok body handler w h Hok), Hes2, Hes1.
    split; [| reflexivity].
    unfold events at 3 4. simpl. rewrite app_nil_r. reflexivity.
  - destruct (events_bind_raise (process_query self query)
                (fun response =>
                   emit (EvPrint (nl ++ response)) ;;; ret self) w h Ho)
      as [Hes1 Hout1].
    destruct (events_bind_raise _ (fun self' : MCPClient => ret (Some self'))
                w h Hout1) as [Hes2 Hout2].
    fold body in Hes2, Hout2. rewrite Hes1 in Hes2.
    destruct (is_Exception e) eqn:He.
    + left. exists [error_report e].
      destruct (try_except_raise body handler w h Hout2 He) as [Hes' Hout'].
      rewrite Hes2 in Hes', Hout'.
      rewrite (run_pair (try_except body handler) w h), Hes', Hout'.
      split; reflexivity.
    + right. exists e. split; [exact He |].
      rewrite (try_except_escapes body handler w h Hout2 He), Hes2.
      reflexivity.
Qed.

Lemma with_model_same self : with_model self (current_model self) = self.
Proof. destruct self; reflexivity. Qed.

(** The client a pass leaves, against the fold [model_after]. *)
Lemma after_pass_model self got self' rest :
  after_pass self got = Some self' ->
  quits got = false
  /\ with_model self' (model_after (current_model self') rest)
     = with_model self (model_after (current_model self) (got :: rest)).
Proof.
  destruct got as [line | e]; simpl.
  2: { intros H; inversion H; subst. split; reflexivity. }
  destruct (String.eqb (lower (strip line)) "quit"); [discriminate |].
  destruct (String.eqb (lower (strip line)) "model list").
  { intros H; inversion H; subst. split; reflexivity. }
  destruct (startswith (lower (strip line)) "model set ");
    intros H; inversion H; subst; split; reflexivity.
Qed.

Lemma after_pass_quit self got :
  after_pass self got = None ->
  quits got = true
  /\ forall rest, model_after (current_model self) (got :: rest)
                  = current_model self.
Proof.
  destruct got as [line | e]; simpl; [| discriminate].
  destruct (String.eqb (lower (strip line)) "quit").
  { intros _. split; reflexivity. }
  destruct (String.eqb (lower (strip line)) "model list"); [discriminate |].
  destruct (startswith (lower (strip line)) "model set "); discriminate.
Qed.

Lemma chat_turns_ends self gots w h :
  match outcome (chat_turns self gots) w h with
  | Ok (Quit client) =>
      existsb quits gots = true
      /\ client = with_model self (model_after (current_model self) gots)
  | Ok (Looping client) =>
      existsb quits gots = false
      /\ client = with_model self (model_after (current_model self) gots)
  | Raise e => is_Exception e = false
  end.
Proof.
  revert self w h. induction gots as [| got rest IH]; intros self w h.
  - unfold outcome; simpl. rewrite with_model_same. split; reflexivity.
  - rewrite chat_turns_cons. unfold outcome. rewrite run_bind.
    destruct (chat_pass_run self got w h)
      as [[printed [Hrun _]] | [e [He Hrun]]]; rewrite Hrun.
    2: { exact He. }
    destruct (after_pass self got) as [self' |] eqn:Hnext.
    + destruct (after_pass_model self got rest Hnext) as [Hq Hm].
      cbn [fst]. specialize (IH self' w (h ++ handed_over self got w h
                                           ++ printed)%list).
      unfold outcome in IH.
      change (existsb quits (got :: rest))
        with (quits got || existsb quits rest).
      rewrite Hq, <- Hm. cbn [orb]. exact IH.
    + destruct (after_pass_quit self got Hnext) as [Hq Hm].
      cbn [fst]. unfold ret. cbn [fst].
      change (existsb quits (got :: rest))
        with (quits got || existsb quits rest).
      rewrite Hq, Hm, with_model_same. split; reflexivity.
Qed.

(** X1.  The chat loop is left in two ways only: by a [quit] line, or by an
    exception that is not an [Exception] (every [Exception], whether [input]
    or a query raised it, is caught and reported).  Whatever [input] gives,
    call after call: when the loop has been left with [break], one of the
    lines was a [quit]; when it is still going round after the last of them,
    none was; and an exception [chat_loop] raises is not an [Exception].
    The client it ends with is the one it was given, connected or not and
    with the same keys, under the model the last [model set] line before
    [quit] names. *)
Theorem chat_loop_left_only_at_quit (self : MCPClient)
    (gots : list (Result string)) (w : World) (h : list Event) :
  match outcome (chat_loop_on self gots) w h with
  | Ok (Quit client) =>
      existsb quits gots = true
      /\ client = with_model self (model_after (current_model self) gots)
  | Ok (Looping client) =>
      existsb quits gots = false
      /\ client = with_model self (model_after (current_model self) gots)
  | Raise e => is_Exception e = false
  end.
Proof.
  unfold chat_loop_on, outcome.
  rewrite !run_emit_bind. cbn [fst].
  unfold outcome. rewrite !run_emit_bind. cbn [fst].
  unfold outcome. rewrite !run_emit_bind. cbn [fst].
  unfold outcome. rewrite !run_emit_bind. cbn [fst].
  apply chat_turns_ends.
Qed.

(** X12.  At the end of input the loop does not end: at every further pass
    [input] raises [EOFError], the handler reports it, and the loop goes
    round again with the client unchanged.  However many passes are
    watched, the loop is still running after them, and all it has done is
    print the same report once for each. *)
Theorem end_of_input_reported_for_ever (self : MCPClient) (n : nat)
    (w : World) (h : list Event) :
  chat_turns self (repeat (Raise end_of_input) n) w h
  = (Ok (Looping self), repeat (error_report end_of_input) n).
Proof.
  revert h. induction n as [| n IH]; intros h; [reflexivity |].
  cbn [repeat]. rewrite chat_turns_cons, run_bind.
  assert (Hpass : chat_pass self (Raise end_of_input) w h
                  = (Ok (Some self), [error_report end_of_input])).
  { reflexivity. }
  rewrite Hpass, IH. reflexivity.
Qed.

(** ** Sessions: connecting, then chatting *)

Lemma process_query_fetches_once self query w h :
  session self = true ->
  catalog_fetches (events (process_query self query) w h) = 1.
Proof.
  intros Hs. unfold events. rewrite run_process_query, Hs.
  destruct (list_tools w h) as [tools | e]; [| reflexivity].
  cbv zeta. cbn [snd].
  change (S (catalog_fetches
               (events
                  (if startswith (current_model self) "anthropic/"
                      || startswith (current_model self) "claude"
                   then _process_with_anthropic self query
                          (available_tools_of tools)
                   else if startswith (current_model self) "gemini"
                   then _process_with_gemini self query
                          (available_tools_of tools)
                   else if startswith (current_model self) "openai/"
                           || startswith (current_model self) "openrouter/"
                   then _process_with_openrouter self query
                          (available_tools_of tools)
                   else ret ("Unknown model provider for: "
                               ++ current_model self))
                  w (h ++ [EvListTools (Ok tools)]))) = 1).
  f_equal. apply (no_fetch_count (available_tools := available_tools_of tools)).
  destruct (_ || _); [apply anthropic_keeps |].
  destruct (startswith _ "gemini"); [apply gemini_keeps |].
  destruct (_ || _); [apply openrouter_keeps | constructor].
Qed.

(** A pass fetches the catalog once when it hands a query over, and not
    otherwise. *)
Lemma handed_over_fetches self got rest w h :
  session self = true ->
  (quits got = true /\ handed_over self got w h = []
   /\ query_lines (got :: rest) = 0)
  \/ (quits got = false
      /\ query_lines (got :: rest)
         = catalog_fetches (handed_over self got w h) + query_lines rest).
Proof.
  intros Hs. destruct got as [line | e]; simpl.
  2: { right. split; reflexivity. }
  destruct (String.eqb (lower (strip line)) "quit").
  { left. repeat split. }
  right. split; [reflexivity |].
  destruct (String.eqb (lower (strip line)) "model list"); [reflexivity |].
  destruct (startswith (lower (strip line)) "model set "); [reflexivity |].
  rewrite (process_query_fetches_once _ _ _ _ Hs). reflexivity.
Qed.

Lemma after_pass_session self got self' :
  after_pass self got = Some self' -> session self' = session self.
Proof.
  destruct got as [line | e]; simpl.
  2: { intros H; inversion H; reflexivity. }
  destruct (String.eqb (lower (strip line)) "quit"); [discriminate |].
  destruct (String.eqb (lower (strip line)) "model list").
  { intros H; inversion H; reflexivity. }
  destruct (startswith (lower (strip line)) "model set ");
    intros H; inversion H; reflexivity.
Qed.

Lemma chat_turns_fetches self gots w h :
  session self = true ->
  catalog_fetches (events (chat_turns self gots) w h) <= query_lines gots
  /\ (forall ended,
         outcome (chat_turns self gots) w h = Ok ended ->
         catalog_fetches (events (chat_turns self gots) w h)
         = query_lines gots).
Proof.
  revert self w h. induction gots as [| got rest IH]; intros self w h Hs.
  - split; [apply Nat.le_refl | reflexivity].
  - rewrite chat_turns_cons. unfold events, outcome. rewrite run_bind.
    destruct (chat_pass_run self got w h)
      as [[printed [Hrun Hp]] | [e [He Hrun]]]; rewrite Hrun.
    2: { cbn [fst snd].
         destruct (handed_over_fetches self got rest w h Hs)
           as [(_ & -> & _) | (_ & ->)].
         - split; [apply Nat.le_0_l | discriminate].
         - split; [lia | discriminate]. }
    destruct (after_pass self got) as [self' |] eqn:Hnext; cbn [fst snd].
    + destruct (handed_over_fetches self got rest w h Hs)
        as [(Hq & _) | (_ & ->)].
      { destruct (after_pass_model self got rest Hnext) as [Hq' _].
        rewrite Hq in Hq'. discriminate. }
      assert (Hs' : session self' = true).
      { rewrite (after_pass_session self got Hnext). exact Hs. }
      destruct (IH self' w (h ++ handed_over self got w h ++ printed)%list Hs')
        as [Hle Heq].
      unfold events, outcome in Hle, Heq.
      rewrite !catalog_fetches_app, Hp. split; [lia |].
      intros ended Hend. rewrite (Heq ended Hend). lia.
    + destruct (after_pass_quit self got Hnext) as [Hq _].
      destruct (handed_over_fetches self got rest w h Hs)
        as [(_ & Hh & ->) | (Hq' & _)].
      2: { rewrite Hq in Hq'. discriminate. }
      unfold ret. cbn [snd]. rewrite Hh.
      rewrite !catalog_fetches_app, Hp. simpl.
      split; [apply Nat.le_refl | reflexivity].
Qed.

(** What [connect_to_server] has done when it returns. *)
Lemma connect_to_server_returns self server_script_path w h client :
  outcome (connect_to_server self server_script_path) w h = Ok client ->
  exists tools,
    events (connect_to_server self server_script_path) w h
    = [ EvOpenSession
          (if endswith server_script_path ".py" then "python" else "node")
          [server_script_path] (Ok tt);
        EvListTools (Ok tools);
        EvPrint (nl ++ "Connected to server with tools: "
                    ++ py_format_names (map tool_name tools)) ]
    /\ client = {| session := true; gemini := gemini self;
                   openrouter := openrouter self;
                   current_model := current_model self |}
    /\ (endswith server_script_path ".py" = true
        \/ endswith server_script_path ".js" = true).
Proof.
  unfold connect_to_server, outcome, events.
  destruct (endswith server_script_path ".py") eqn:Hpy;
    [| destruct (endswith server_script_path ".js") eqn:Hjs];
    cbn [negb orb]; try (intros H; discriminate H);
    rewrite run_request_bind;
    (destruct (open_session _ _ _ _) as [[] | e];
     [| intros H; discriminate H]);
    unfold outcome, events; rewrite run_request_bind;
    (destruct (list_tools _ _) as [tools | e];
     [| intros H; discriminate H]);
    unfold outcome, events; rewrite run_emit_bind;
    unfold outcome, events, ret; cbn [fst snd];
    intros H; inversion H; subst; exists tools; auto.
Qed.

(** X3.  A session that connects fetches the tool catalog once on connecting
    and once more for every line it hands to [process_query], whether that
    query returns or raises an [Exception]; [model list], [model set] and the
    lines after [quit] fetch nothing.  So it never fetches more often than
    once plus the query lines typed, and exactly that often unless an
    exception that is not an [Exception] has cut the loop short. *)
Theorem session_fetches_catalog_per_query
    (getenv : string -> option string) (server_script_path : string)
    (inputs : list string) (w : World) (h : list Event)
    (client : MCPClient) :
  outcome (connect_to_server (__init__ getenv) server_script_path) w h
  = Ok client ->
  catalog_fetches (events (main getenv server_script_path inputs) w h)
  <= 1 + query_lines (map Ok inputs)
  /\ (forall ended,
         outcome (main getenv server_script_path inputs) w h = Ok ended ->
         catalog_fetches (events (main getenv server_script_path inputs) w h)
         = 1 + query_lines (map Ok inputs)).
Proof.
  intros Hc.
  destruct (connect_to_server_returns _ _ _ _ Hc) as [tools [Hes [Hcl _]]].
  unfold main.
  destruct (events_bind_ok
              (connect_to_server (__init__ getenv) server_script_path)
              (fun client' => chat_loop client' inputs) w h Hc)
    as [Hall Hout].
  rewrite Hall, Hout, catalog_fetches_app, Hes.
  change (catalog_fetches [_; _; _]) with 1.
  set (h' := (h ++ _)%list).
  assert (Hs : session client = true) by (rewrite Hcl; reflexivity).
  assert (Hbanner :
            forall gots,
              catalog_fetches (events (chat_loop_on client gots) w h')
              = catalog_fetches
                  (events (chat_turns client gots) w
                     ((((h' ++ [EvPrint (nl ++ "MCP Client Started!")])
                          ++ [EvPrint "Type your queries or 'quit' to exit."])
                         ++ [EvPrint
                               "Type 'model list' to see available models."])
                        ++ [EvPrint
                              "Type 'model set <model_name>' to change models."]))
              /\ outcome (chat_loop_on client gots) w h'
                 = outcome (chat_turns client gots) w
                     ((((h' ++ [EvPrint (nl ++ "MCP Client Started!")])
                          ++ [EvPrint "Type your queries or 'quit' to exit."])
                         ++ [EvPrint
                               "Type 'model list' to see available models."])
                        ++ [EvPrint
                              "Type 'model set <model_name>' to change models."])).
  { intros gots. unfold chat_loop_on, events, outcome.
    rewrite !run_emit_bind. cbn [fst snd].
    unfold events, outcome. rewrite !run_emit_bind. cbn [fst snd].
    unfold events, outcome. rewrite !run_emit_bind. cbn [fst snd].
    unfold events, outcome. rewrite !run_emit_bind. cbn [fst snd].
    split; reflexivity. }
  unfold chat_loop.
  destruct (Hbanner (map Ok inputs)) as [-> ->].
  destruct (chat_turns_fetches client (map Ok inputs) w
              ((((h' ++ [EvPrint (nl ++ "MCP Client Started!")])
                   ++ [EvPrint "Type your queries or 'quit' to exit."])
                  ++ [EvPrint "Type 'model list' to see available models."])
                 ++ [EvPrint
                       "Type 'model set <model_name>' to change models."])
              Hs) as [Hle Heq].
  split; [lia |].
  intros ended Hend. rewrite (Heq ended Hend). reflexivity.
Qed.

(** ** Models, keys and the dispatch *)

Lemma startswith_head m c p :
  startswith m (String c p) = true -> exists m', m = String c m'.
Proof.
  unfold startswith. destruct m as [| b m']; simpl; [discriminate |].
  destruct (ascii_dec c b) as [-> |]; [eauto | discriminate].
Qed.

(** With its key configured the Gemini path opens by starting a chat. *)
Lemma gemini_sends self query available_tools w h :
  gemini self = true ->
  exists out rest,
    events (_process_with_gemini self query available_tools) w h
    = EvGeminiStartChat
        (replace (current_model self) "gemini/" EmptyString)
        (gemini_functions available_tools) out
        :: rest.
Proof.
  intros Hg. unfold _process_with_gemini. rewrite Hg. cbn [negb].
  unfold gemini_chat, events. rewrite run_request_bind.
  destruct (gemini_start_chat _ _ _ _) as [[] | e]; cbn [snd]; eauto.
Qed.

Lemma openrouter_sends self query available_tools w h :
  openrouter self = true ->
  exists req out rest,
    events (_process_with_openrouter self query available_tools) w h
    = EvOpenRouterCreate req out :: rest.
Proof.
  intros Ho. unfold _process_with_openrouter. rewrite Ho. cbn [negb].
  unfold events. rewrite run_bind_ret. cbn [snd].
  unfold openrouter_conversation, openrouter_create, events.
  rewrite run_request_bind.
  destruct (openrouter_chat_completions_create _ _ _); cbn [snd]; eauto.
Qed.

(** A query under a model whose provider has what its path asks for goes to
    that provider right after the catalog fetch. *)
Lemma configured_model_reaches_provider self query w h tools p :
  session self = true ->
  list_tools w h = Ok tools ->
  provider_for (current_model self) = Some p ->
  key_configured self p = true ->
  exists first rest,
    events (process_query self query) w h
    = EvListTools (Ok tools) :: first :: rest
    /\ addressed_to first = Some p.
Proof.
  intros Hs Ht Hp Hk. unfold events. rewrite run_process_query, Hs, Ht.
  cbv zeta. cbn [snd]. unfold provider_for in Hp.
  destruct (startswith (current_model self) "anthropic/"
            || startswith (current_model self) "claude").
  { inversion Hp; subst p.
    destruct (anthropic_always_calls self query (available_tools_of tools) w
                (h ++ [EvListTools (Ok tools)]))
      as (req & out & rest & Hes).
    rewrite Hes. exists (EvAnthropicCreate req out), rest.
    split; reflexivity. }
  destruct (startswith (current_model self) "gemini").
  { inversion Hp; subst p.
    destruct (gemini_sends self query (available_tools_of tools) w
                (h ++ [EvListTools (Ok tools)]) Hk)
      as (out & rest & Hes).
    rewrite Hes. eexists; eexists. split; reflexivity. }
  destruct (startswith (current_model self) "openai/"
            || startswith (current_model self) "openrouter/");
    [| discriminate Hp].
  inversion Hp; subst p.
  destruct (openrouter_sends self query (available_tools_of tools) w
              (h ++ [EvListTools (Ok tools)]) Hk)
    as (req & out & rest & Hes).
  rewrite Hes. exists (EvOpenRouterCreate req out), rest.
  split; reflexivity.
Qed.

(** X4.  Every model [get_available_models] offers can be used.  Once it is
    the current model, a query on a connected client whose catalog fetch
    succeeds is not answered on the spot (with the "Unknown model provider"
    or a "key not configured" message, which come with no request at all):
    a request to a provider follows the fetch, whatever comes of it.  That
    provider is the one of the heading the model is listed under, with one
    exception: "anthropic/claude-3-opus", listed under "openrouter", goes to
    Anthropic.  Gemini and OpenRouter models are on offer only when their
    key is configured. *)
Theorem listed_models_reach_a_backend (self : MCPClient)
    (heading model query : string) (models : list string) (w : World)
    (h : list Event) (tools : list Tool) :
  In (heading, models) (get_available_models self) ->
  In model models ->
  session self = true ->
  list_tools w h = Ok tools ->
  exists p first rest,
    events (process_query (with_model self model) query) w h
    = EvListTools (Ok tools) :: first :: rest
    /\ addressed_to first = Some p
    /\ provider_for model = Some p
    /\ Some p = (if String.eqb model "anthropic/claude-3-opus"
                 then Some Anthropic
                 else listed_under heading)
    /\ key_configured self p = true.
Proof.
  intros Hh Hm Hs Ht.
  assert (Hreach :
            forall p,
              provider_for model = Some p ->
              key_configured self p = true ->
              Some p = (if String.eqb model "anthropic/claude-3-opus"
                        then Some Anthropic
                        else listed_under heading) ->
              exists p first rest,
                events (process_query (with_model self model) query) w h
                = EvListTools (Ok tools) :: first :: rest
                /\ addressed_to first = Some p
                /\ provider_for model = Some p
                /\ Some p = (if String.eqb model "anthropic/claude-3-opus"
                             then Some Anthropic
                             else listed_under heading)
                /\ key_configured self p = true).
  { intros p Hp Hk Hl.
    assert (Hk' : key_configured (with_model self model) p = true).
    { destruct p; exact Hk. }
    destruct (@configured_model_reaches_provider (with_model self model)
                query w h tools p Hs Ht Hp Hk')
      as (first & rest & Hes & Ha).
    exists p, first, rest. auto. }
  unfold get_available_models in Hh.
  destruct Hh as [Hh | [Hh | [Hh | []]]]; inversion Hh; subst; clear Hh.
  - destruct Hm as [<- | [<- | []]];
      apply (Hreach Anthropic); reflexivity.
  - destruct (gemini self) eqn:Hg; [| destruct Hm].
    destruct Hm as [<- | [<- | [<- | []]]];
      apply (Hreach Gemini); try reflexivity; exact Hg.
  - destruct (openrouter self) eqn:Ho; [| destruct Hm].
    destruct Hm as [<- | [<- | []]].
    + apply (Hreach OpenRouter); try reflexivity; exact Ho.
    + apply (Hreach Anthropic); reflexivity.
Qed.

(** X5.  A key that is unset, or set to the empty string, counts as missing:
    a client built from such an environment and connected answers every
    query on a Gemini model (on an OpenAI or OpenRouter model) with the
    Gemini (OpenRouter) key message, after fetching the catalog and without
    anything else: no backend request, no tool call. *)
Theorem missing_key_reported (getenv : string -> option string)
    (server_script_path query : string) (w w' : World) (h h' : list Event)
    (client : MCPClient) (tools : list Tool) :
  outcome (connect_to_server (__init__ getenv) server_script_path) w h
  = Ok client ->
  list_tools w' h' = Ok tools ->
  ((getenv "GEMINI_API_KEY" = None
    \/ getenv "GEMINI_API_KEY" = Some EmptyString) ->
   startswith (current_model client) "gemini" = true ->
   process_query client query w' h'
   = (Ok gemini_key_message, [EvListTools (Ok tools)]))
  /\ ((getenv "OPENROUTER_API_KEY" = None
       \/ getenv "OPENROUTER_API_KEY" = Some EmptyString) ->
      startswith (current_model client) "openai/"
      || startswith (current_model client) "openrouter/" = true ->
      process_query client query w' h'
      = (Ok openrouter_key_message, [EvListTools (Ok tools)])).
Proof.
  intros Hc Ht.
  destruct (connect_to_server_returns _ _ _ _ Hc) as [tools0 [_ [Hcl _]]].
  split.
  - intros Hkey Hgem.
    assert (Hg : gemini client = false).
    { rewrite Hcl. cbn [gemini __init__].
      destruct Hkey as [-> | ->]; reflexivity. }
    rewrite run_process_query.
    assert (Hsess : session client = true) by (rewrite Hcl; reflexivity).
    rewrite Hsess, Ht.
    destruct (@startswith_head _ _ _ Hgem) as [m' Hm]. rewrite Hm in *.
    change (startswith (String "g" m') "anthropic/") with false.
    change (startswith (String "g" m') "claude") with false.
    rewrite Hgem. cbv zeta. cbn [orb].
    unfold outcome, events. rewrite gemini_key_missing by exact Hg.
    reflexivity.
  - intros Hkey Hor.
    assert (Ho : openrouter client = false).
    { rewrite Hcl. cbn [openrouter __init__].
      destruct Hkey as [-> | ->]; reflexivity. }
    rewrite run_process_query.
    assert (Hsess : session client = true) by (rewrite Hcl; reflexivity).
    rewrite Hsess, Ht.
    assert (Hhead : exists m', current_model client = String "o" m').
    { apply Bool.orb_true_iff in Hor. destruct Hor as [Hor | Hor];
        exact (@startswith_head _ _ _ Hor). }
    destruct Hhead as [m' Hm]. rewrite Hm in *.
    change (startswith (String "o" m') "anthropic/") with false.
    change (startswith (String "o" m') "claude") with false.
    change (startswith (String "o" m') "gemini") with false.
    rewrite Hor. cbv zeta. cbn [orb].
    unfold outcome, events. rewrite openrouter_key_missing by exact Ho.
    reflexivity.
Qed.

(** X6.  [main] with a server script that ends in neither ".py" nor ".js"
    raises [ValueError] before anything is started: no server process, no
    catalog fetch, no banner, and no input line is read. *)
Theorem main_rejects_other_scripts (getenv : string -> option string)
    (server_script_path : string) (inputs : list string) (w : World)
    (h : list Event) :
  endswith server_script_path ".py" = false ->
  endswith server_script_path ".js" = false ->
  main getenv server_script_path inputs w h
  = (Raise (mkExn "ValueError" "Server script must be a .py or .js file"),
     []).
Proof.
  intros Hpy Hjs. unfold main, connect_to_server.
  rewrite run_bind, Hpy, Hjs. reflexivity.
Qed.
(** ** Failures end the query *)

Lemma first_fatal_app a b :
  first_fatal (a ++ b) =
  match first_fatal a with
  | Some (x, post) => Some (x, (post ++ b)%list)
  | None => first_fatal b
  end.
Proof.
  induction a as [| e a IH]; [reflexivity |].
  simpl. destruct (fatal e); [reflexivity | exact IH].
Qed.

Lemma halts_bind {A B : Type} (m : M A) (f : A -> M B) :
  halts_at_fatal m ->
  (forall a, halts_at_fatal (f a)) ->
  halts_at_fatal (bind m f).
Proof.
  intros Hm Hf w h. specialize (Hm w h).
  bind_cases m w h.
  - rewrite H, H0, first_fatal_app.
    destruct (first_fatal (events m w h)) as [[x post] |].
    + destruct Hm as [_ Hm]. discriminate.
    + apply Hf.
  - rewrite H, H0.
    destruct (first_fatal (events m w h)) as [[x post] |]; [| exact I].
    destruct Hm as [Hnil He]. inversion He; subst. split; reflexivity.
Qed.

Lemma halts_for_each {X S : Type} (body : X -> S -> M S) xs :
  (forall x s, halts_at_fatal (body x s)) ->
  forall s, halts_at_fatal (for_each xs body s).
Proof.
  intros Hbody. induction xs as [| x xs IH]; intros s.
  - intros w h. exact I.
  - rewrite for_each_cons. apply halts_bind; [apply Hbody | exact IH].
Qed.

Lemma halts_ret {A : Type} (a : A) : halts_at_fatal (ret a).
Proof. intros w h. exact I. Qed.

Lemma halts_request {A : Type} (oracle : World -> list Event -> Result A)
    (log : Result A -> Event) :
  (forall a, fatal (log (Ok a)) = None) ->
  (forall x, fatal (log (Raise x)) = Some x) ->
  halts_at_fatal (request oracle log).
Proof.
  intros Hok Hraise w h. unfold request, events, outcome. simpl.
  destruct (oracle w h) as [a | x].
  - rewrite Hok. exact I.
  - rewrite Hraise. split; reflexivity.
Qed.

Lemma halts_anthropic_tool_use model_name tool_name tool_args text st :
  halts_at_fatal (anthropic_tool_use model_name tool_name tool_args text st).
Proof.
  intros w h.
  unfold anthropic_tool_use, session_call_tool, anthropic_create.
  unfold events, outcome, bind, request; simpl.
  destruct (call_tool w h tool_name tool_args) as [result | x]; simpl.
  2: { split; reflexivity. }
  destruct (anthropic_messages_create _ _ _) as [response | x]; simpl.
  2: { split; reflexivity. }
  unfold first_block_text, ret, raise.
  destruct (ar_content response) as [| [t | n i [t |] | ty] rest] eqn:Hc;
    simpl; unfold reply_text; rewrite Hc; simpl;
    try exact I; split; reflexivity.
Qed.

Lemma halts_anthropic self query available_tools :
  halts_at_fatal (_process_with_anthropic self query available_tools).
Proof.
  unfold _process_with_anthropic, anthropic_conversation, anthropic_loop.
  apply halts_bind; [| intros st; apply halts_ret].
  apply halts_bind.
  - apply halts_request; reflexivity.
  - intros response. apply halts_for_each. intros content st.
    destruct content; [apply halts_ret | | apply halts_ret].
    apply halts_anthropic_tool_use.
Qed.

Lemma halts_gemini_part part final_text :
  halts_at_fatal (gemini_part part final_text).
Proof.
  unfold gemini_part.
  destruct (part_function_call part) as [func_call |]; [| apply halts_ret].
  unfold gemini_function_call.
  destruct (json_loads (fc_args func_call)) as [tool_args | x].
  2: { intros w h. exact I. }
  apply halts_bind; [apply halts_request; reflexivity |].
  intros result.
  apply halts_bind; [apply halts_request; reflexivity |].
  intros response. apply halts_ret.
Qed.

Lemma halts_gemini self query available_tools :
  halts_at_fatal (_process_with_gemini self query available_tools).
Proof.
  unfold _process_with_gemini, gemini_candidates_loop.
  destruct (gemini self); cbn [negb]; [| apply halts_ret].
  apply halts_bind; [apply halts_request; reflexivity |]. intros _.
  apply halts_bind; [apply halts_request; reflexivity |].
  intros response.
  apply halts_bind; [| intros ft; apply halts_ret].
  apply halts_for_each. intros candidate ft. unfold gemini_candidate.
  destruct (cand_content candidate) as [parts |]; [| apply halts_ret].
  apply halts_for_each. intros part ft'. apply halts_gemini_part.
Qed.

Lemma halts_openrouter_tool_call model message_content tool_call st :
  halts_at_fatal (openrouter_tool_call model message_content tool_call st).
Proof.
  unfold openrouter_tool_call.
  destruct (json_loads (ortc_function_arguments tool_call))
    as [tool_args | x].
  2: { intros w h. exact I. }
  apply halts_bind; [apply halts_request; reflexivity |].
  intros result.
  apply halts_bind; [apply halts_request; reflexivity |].
  intros response. apply halts_ret.
Qed.

Lemma halts_openrouter self query available_tools :
  halts_at_fatal (_process_with_openrouter self query available_tools).
Proof.
  unfold _process_with_openrouter, openrouter_conversation, openrouter_loop.
  destruct (openrouter self); cbn [negb]; [| apply halts_ret].
  apply halts_bind; [| intros st; apply halts_ret].
  apply halts_bind; [apply halts_request; reflexivity |].
  intros response.
  destruct (or_choices response) as [| message choices]; [apply halts_ret |].
  destruct (orm_tool_calls message); [| apply halts_ret].
  apply halts_for_each. intros tool_call st.
  apply halts_openrouter_tool_call.
Qed.

Lemma halts_process_query self query :
  halts_at_fatal (process_query self query).
Proof.
  unfold process_query. apply halts_bind.
  - unfold session_list_tools. destruct (session self).
    + apply halts_request; reflexivity.
    + intros w h. exact I.
  - intros tools.
    destruct (_ || _); [apply halts_anthropic |].
    destruct (startswith _ "gemini"); [apply halts_gemini |].
    destruct (_ || _); [apply halts_openrouter | apply halts_ret].
Qed.

Lemma fatal_split {R : PyExn -> Prop} pre e post x :
  fatal e = Some x ->
  match first_fatal (pre ++ e :: post) with
  | Some (x', post') => post' = [] /\ R x'
  | None => True
  end ->
  post = [] /\ R x.
Proof.
  intros He. induction pre as [| e' pre IH]; simpl.
  - rewrite He. auto.
  - destruct (fatal e'); [| exact IH].
    intros [Hnil _]. destruct pre; discriminate.
Qed.

Lemma raised_fatal e x : raised e = Some x -> fatal e = Some x.
Proof.
  destruct e; simpl; try discriminate; auto.
  destruct out; [discriminate | auto].
Qed.

(** X7.  [process_query] never retries and never swallows a failure: when
    any request it makes raises (the catalog fetch, a backend request, a
    tool call), that request is the last event of the query and its
    exception is what [process_query] raises. *)
Theorem failed_request_ends_query (self : MCPClient) (query : string)
    (w : World) (h : list Event) (pre post : list Event) (e : Event)
    (x : PyExn) :
  events (process_query self query) w h = (pre ++ e :: post)%list ->
  raised e = Some x ->
  post = [] /\ outcome (process_query self query) w h = Raise x.
Proof.
  intros Hes Hx. pose proof (halts_process_query self query w h) as Hh.
  rewrite Hes in Hh.
  exact (fatal_split
           (R := fun x' => outcome (process_query self query) w h = Raise x')
           pre e post (raised_fatal e Hx) Hh).
Qed.

(** X8.  On the Anthropic path the reply to a tool result must open with a
    block that has text: when a follow-up response has no content, or opens
    with a block without text, [process_query] raises the [IndexError] or
    [AttributeError] of [response.content[0].text] and sends nothing more;
    the tool calls still pending are not run. *)
Theorem unreadable_reply_ends_query (self : MCPClient) (query : string)
    (w : World) (h : list Event) (pre post : list Event)
    (req : AnthropicRequest) (response : AnthropicResponse) (x : PyExn) :
  events (process_query self query) w h
  = (pre ++ EvAnthropicCreate req (Ok response) :: post)%list ->
  areq_tools req = None ->
  reply_text response = Raise x ->
  post = [] /\ outcome (process_query self query) w h = Raise x.
Proof.
  intros Hes Hreq Hx. pose proof (halts_process_query self query w h) as Hh.
  rewrite Hes in Hh.
  assert (Hf : fatal (EvAnthropicCreate req (Ok response)) = Some x).
  { simpl. rewrite Hreq, Hx. reflexivity. }
  exact (fatal_split
           (R := fun x' => outcome (process_query self query) w h = Raise x')
           pre _ post Hf Hh).
Qed.
(** ** One provider, one model *)

Ltac configured_leaf :=
  repeat (first [ apply Forall_nil
                | apply Forall_cons; [simpl; auto |] ]).

Lemma anthropic_as_configured self query available_tools w h :
  provider_for (current_model self) = Some Anthropic ->
  Forall (as_configured self)
    (events (_process_with_anthropic self query available_tools) w h).
Proof.
  intros Hp.
  unfold _process_with_anthropic, events. rewrite run_bind_ret. simpl.
  unfold anthropic_conversation, anthropic_create, events.
  rewrite run_request_bind.
  destruct (anthropic_messages_create w h _); simpl; [| configured_leaf].
  apply Forall_cons; [simpl; auto |].
  apply for_each_Forall. intros content st w' h'.
  destruct content as [text | tool_name tool_args text | type];
    unfold anthropic_block, anthropic_tool_use, session_call_tool,
      anthropic_create, first_block_text;
    crunch; configured_leaf.
Qed.

Lemma gemini_as_configured self query available_tools w h :
  provider_for (current_model self) = Some Gemini ->
  Forall (as_configured self)
    (events (_process_with_gemini self query available_tools) w h).
Proof.
  intros Hp. unfold _process_with_gemini.
  destruct (gemini self); simpl; [| constructor].
  unfold gemini_chat, events. rewrite run_request_bind.
  destruct (gemini_start_chat _ _ _ _) as [[] | e]; simpl;
    [| configured_leaf].
  apply Forall_cons; [simpl; auto |].
  unfold gemini_send, events. rewrite run_request_bind.
  destruct (gemini_send_message _ _ _); simpl; [| configured_leaf].
  apply Forall_cons; [simpl; auto |].
  unfold events. rewrite run_bind_ret. simpl.
  apply for_each_Forall. intros candidate ft w' h'.
  unfold gemini_candidate.
  destruct (cand_content candidate) as [parts |]; [| constructor].
  apply for_each_Forall. intros part ft' w'' h''.
  unfold gemini_part, gemini_function_call, session_call_tool, gemini_send.
  crunch; configured_leaf.
Qed.

Lemma openrouter_as_configured self query available_tools w h :
  provider_for (current_model self) = Some OpenRouter ->
  Forall (as_configured self)
    (events (_process_with_openrouter self query available_tools) w h).
Proof.
  intros Hp. unfold _process_with_openrouter.
  destruct (openrouter self); simpl; [| constructor].
  unfold events. rewrite run_bind_ret. simpl.
  unfold openrouter_conversation, openrouter_create, events.
  rewrite run_request_bind.
  destruct (openrouter_chat_completions_create _ _ _) as [response | e];
    simpl; [| configured_leaf].
  apply Forall_cons; [simpl; auto |].
  destruct (or_choices response) as [| message choices]; [constructor |].
  destruct (orm_tool_calls message); [| constructor].
  apply for_each_Forall. intros tool_call st w' h'.
  unfold openrouter_tool_call, session_call_tool, openrouter_create.
  crunch; configured_leaf.
Qed.

(** X9.  All of a query goes to one provider, the one the prefix of the
    current model selects, on one model and one token limit: every Anthropic
    request names the current model with "anthropic/" removed, the Gemini
    chat the current model with "gemini/" removed, every OpenRouter request
    the current model as it stands, and every request to Anthropic or
    OpenRouter sets [max_tokens] to 1000.  A query prints nothing and starts
    no server. *)
Theorem query_requests_as_configured (self : MCPClient) (query : string)
    (w : World) (h : list Event) :
  Forall (as_configured self) (events (process_query self query) w h).
Proof.
  unfold events. rewrite run_process_query.
  destruct (session self); [| constructor].
  destruct (list_tools w h) as [tools | e]; [| configured_leaf].
  cbv zeta. cbn [snd]. apply Forall_cons; [exact I |].
  destruct (startswith (current_model self) "anthropic/"
            || startswith (current_model self) "claude") eqn:Ha.
  { apply anthropic_as_configured. unfold provider_for. rewrite Ha.
    reflexivity. }
  destruct (startswith (current_model self) "gemini") eqn:Hg.
  { apply gemini_as_configured. unfold provider_for. rewrite Ha, Hg.
    reflexivity. }
  destruct (startswith (current_model self) "openai/"
            || startswith (current_model self) "openrouter/") eqn:Ho.
  { apply openrouter_as_configured. unfold provider_for.
    rewrite Ha, Hg, Ho. reflexivity. }
  constructor.
Qed.
(** ** Transcripts only grow *)

Lemma latest_app current a b :
  latest current (a ++ b) = latest (latest current a) b.
Proof.
  revert current. induction a as [| e a IH]; intros current; [reflexivity |].
  simpl. destruct (request_messages e); apply IH.
Qed.

Lemma grows_app current a b :
  grows current (a ++ b) <-> grows current a /\ grows (latest current a) b.
Proof.
  revert current. induction a as [| e a IH]; intros current; simpl.
  - tauto.
  - destruct (request_messages e) as [msgs |]; rewrite IH; tauto.
Qed.

(** Under [grows], every request carries the starting messages, and more. *)
Lemma grows_extends current es e msgs :
  grows current es ->
  In e es ->
  request_messages e = Some msgs ->
  exists more, msgs = (current ++ more)%list.
Proof.
  revert current. induction es as [| e' es IH]; intros current Hg Hin Hm;
    [destruct Hin |].
  simpl in Hg. destruct Hin as [-> | Hin].
  - rewrite Hm in Hg. tauto.
  - destruct (request_messages e') as [msgs' |].
    + destruct Hg as [[more1 ->] Hg].
      destruct (IH _ Hg Hin Hm) as [more2 ->].
      exists (more1 ++ more2)%list. rewrite app_assoc. reflexivity.
    + exact (IH _ Hg Hin Hm).
Qed.

Section GrowingLoop.

Variables X : Type.
Variable body : X -> LoopState -> M LoopState.

(** A pass sends requests that extend the messages it started with, and
    leaves the messages of its last request. *)
Hypothesis body_grows :
  forall x st w h,
    grows (ls_messages st) (events (body x st) w h)
    /\ (forall st', outcome (body x st) w h = Ok st' ->
                    ls_messages st'
                    = latest (ls_messages st) (events (body x st) w h)).

Lemma for_each_grows xs st w h :
  grows (ls_messages st) (events (for_each xs body st) w h)
  /\ (forall st', outcome (for_each xs body st) w h = Ok st' ->
                  ls_messages st'
                  = latest (ls_messages st)
                      (events (for_each xs body st) w h)).
Proof.
  revert st w h. induction xs as [| x xs IH]; intros st w h.
  - unfold events, outcome; simpl. split; [exact I |].
    intros st' Hs. inversion Hs; subst. reflexivity.
  - rewrite for_each_cons.
    destruct (body_grows x st w h) as [Hg Hl].
    bind_cases (body x st) w h.
    + rewrite H, H0.
      destruct (IH a w (h ++ events (body x st) w h)%list) as [Hg2 Hl2].
      rewrite (Hl a eq_refl) in Hg2, Hl2.
      split.
      * apply grows_app. split; assumption.
      * intros st' Hs. rewrite latest_app. apply Hl2. exact Hs.
    + rewrite H, H0. split; [exact Hg | discriminate].
Qed.

End GrowingLoop.

Lemma anthropic_block_grows model_name content st w h :
  grows (ls_messages st) (events (anthropic_block model_name content st) w h)
  /\ (forall st',
         outcome (anthropic_block model_name content st) w h = Ok st' ->
         ls_messages st'
         = latest (ls_messages st)
             (events (anthropic_block model_name content st) w h)).
Proof.
  assert (Hmore : forall (msgs : list Message) (b : bool) m1 m2,
             exists more,
               ((if b then (msgs ++ [m1])%list else msgs) ++ [m2])%list
               = (msgs ++ more)%list).
  { intros msgs [|] m1 m2; eexists; [rewrite <- app_assoc |]; reflexivity. }
  destruct content as [text | tool_name tool_args text | type];
    unfold anthropic_block, anthropic_tool_use, session_call_tool,
      anthropic_create, first_block_text;
    unfold events, outcome, bind, request, ret, raise; simpl;
    try (split; [exact I | intros st' Hs; inversion Hs; reflexivity]).
  destruct (call_tool w h tool_name tool_args) as [result | x]; simpl.
  2: { split; [exact I | discriminate]. }
  destruct (anthropic_messages_create _ _ _) as [response | x]; simpl.
  2: { split; [split; [apply Hmore | exact I] | discriminate]. }
  destruct (ar_content response) as [| [t | n i [t |] | ty] rest]; simpl;
    (split; [split; [apply Hmore | exact I] |]);
    intros st' Hs; inversion Hs; reflexivity.
Qed.

Lemma openrouter_tool_call_grows model message_content tool_call st w h :
  grows (ls_messages st)
    (events (openrouter_tool_call model message_content tool_call st) w h)
  /\ (forall st',
         outcome (openrouter_tool_call model message_content tool_call st)
           w h = Ok st' ->
         ls_messages st'
         = latest (ls_messages st)
             (events (openrouter_tool_call model message_content tool_call st)
                w h)).
Proof.
  unfold openrouter_tool_call.
  destruct (json_loads (ortc_function_arguments tool_call))
    as [tool_args | x].
  2: { unfold events, outcome; simpl. split; [exact I | discriminate]. }
  unfold session_call_tool, openrouter_create.
  unfold events, outcome, bind, request, ret, raise; simpl.
  destruct (call_tool w h _ tool_args) as [result | x]; simpl.
  2: { split; [exact I | discriminate]. }
  destruct (openrouter_chat_completions_create _ _ _) as [response | x];
    simpl.
  2: { split; [| discriminate].
       split; [| exact I]. eexists. rewrite <- app_assoc. reflexivity. }
  split.
  - split; [| exact I]. eexists. rewrite <- app_assoc. reflexivity.
  - intros st' Hs. inversion Hs; reflexivity.
Qed.

Lemma process_query_grows self query w h :
  grows [plain_message "user" (CStr query)]
    (events (process_query self query) w h).
Proof.
  assert (Hself : exists more : list Message,
             [plain_message "user" (CStr query)]
             = ([plain_message "user" (CStr query)] ++ more)%list).
  { exists []. reflexivity. }
  unfold events. rewrite run_process_query.
  destruct (session self); [| exact I].
  destruct (list_tools w h) as [tools | e]; [| exact I].
  cbv zeta. cbn [snd]. simpl grows.
  destruct (_ || _).
  { unfold _process_with_anthropic, events. rewrite run_bind_ret. simpl.
    unfold anthropic_conversation, anthropic_create, events.
    rewrite run_request_bind.
    destruct (anthropic_messages_create _ _ _); simpl;
      (split; [exact Hself |]); [| exact I].
    exact (proj1 (@for_each_grows _ _ (anthropic_block_grows _) _
                    (mkLoopState [plain_message "user" (CStr query)] [] [])
                    _ _)). }
  destruct (startswith _ "gemini").
  { unfold _process_with_gemini.
    destruct (gemini self); simpl; [| exact I].
    unfold gemini_chat, events. rewrite run_request_bind.
    destruct (gemini_start_chat _ _ _ _) as [[] | e]; simpl; [| exact I].
    unfold gemini_send, events. rewrite run_request_bind.
    destruct (gemini_send_message _ _ _); simpl; [| exact I].
    unfold events. rewrite run_bind_ret. simpl.
    assert (Hnone : forall es current,
               Forall (fun e => request_messages e = None) es ->
               grows current es).
    { intros es current Hf. induction Hf as [| e es He _ IH]; [exact I |].
      simpl. rewrite He. exact IH. }
    apply Hnone.
    apply for_each_Forall. intros candidate ft w' h'.
    unfold gemini_candidate.
    destruct (cand_content candidate) as [parts |]; [| constructor].
    apply for_each_Forall. intros part ft' w'' h''.
    unfold gemini_part, gemini_function_call, session_call_tool, gemini_send.
    crunch; repeat (first [apply Forall_nil | apply Forall_cons;
                                               [reflexivity |]]). }
  destruct (_ || _); [| exact I].
  unfold _process_with_openrouter.
  destruct (openrouter self); simpl; [| exact I].
  unfold events. rewrite run_bind_ret. simpl.
  unfold openrouter_conversation, openrouter_create, events.
  rewrite run_request_bind.
  destruct (openrouter_chat_completions_create _ _ _) as [response | e];
    simpl; (split; [exact Hself |]); [| exact I].
  destruct (or_choices response) as [| message choices]; [exact I |].
  destruct (orm_tool_calls message); [| exact I].
  exact (proj1 (@for_each_grows _ _ (openrouter_tool_call_grows _ _) _
                  (mkLoopState [plain_message "user" (CStr query)] []
                     [or_empty (orm_content message)])
                  _ _)).
Qed.

(** X10.  The transcript a query sends only grows.  Every request that
    carries a [messages] list opens it with the user's query, and each later
    request of the query carries the whole list of every earlier one,
    unchanged, followed by what was appended since. *)
Theorem transcript_only_grows (self : MCPClient) (query : string)
    (w : World) (h : list Event) :
  (forall a e c msgs,
      events (process_query self query) w h = (a ++ e :: c)%list ->
      request_messages e = Some msgs ->
      exists more, msgs = plain_message "user" (CStr query) :: more)
  /\ (forall a e1 b e2 c msgs1 msgs2,
         events (process_query self query) w h
         = (a ++ e1 :: b ++ e2 :: c)%list ->
         request_messages e1 = Some msgs1 ->
         request_messages e2 = Some msgs2 ->
         exists more, msgs2 = (msgs1 ++ more)%list).
Proof.
  pose proof (process_query_grows self query w h) as Hg.
  split.
  - intros a e c msgs Hes Hm. rewrite Hes in Hg.
    destruct (@grows_extends _ _ e _ Hg (in_elt e a c) Hm) as [more ->].
    exists more. reflexivity.
  - intros a e1 b e2 c msgs1 msgs2 Hes Hm1 Hm2. rewrite Hes in Hg.
    apply grows_app in Hg. destruct Hg as [_ Hg].
    simpl in Hg. rewrite Hm1 in Hg. destruct Hg as [_ Hg].
    exact (@grows_extends _ _ e2 _ Hg (in_elt e2 b c) Hm2).
Qed.

(** ** Which calls are answered when a request is sent *)

(** The skeleton a list of calls announces: each call, then a round-trip. *)
Lemma plan_calls segments :
  plan segments
  = flat_map (fun signature => [CallStep signature; RoundTripStep])
      (map call_signature (tool_calls_of segments)).
Proof.
  unfold plan, tool_calls_of.
  induction segments as [| s segments IH]; [reflexivity |].
  destruct s as [text | call]; simpl; rewrite IH; reflexivity.
Qed.

(** A prefix of such a skeleton that stops right before a round-trip holds
    one call more than it holds round-trips: the first calls announced. *)
Lemma calls_before_round_trip signatures p q :
  (p ++ RoundTripStep :: q)%list
  = flat_map (fun signature => [CallStep signature; RoundTripStep]) signatures ->
  step_calls p = firstn (S (step_round_trips p)) signatures
  /\ List.length (step_calls p) = S (step_round_trips p).
Proof.
  revert p q. induction signatures as [| s signatures IH]; intros p q H.
  - destruct p; discriminate H.
  - destruct p as [| x p]; [discriminate H |].
    simpl in H. injection H as -> H.
    destruct p as [| y p].
    + split; reflexivity.
    + simpl in H. injection H as -> H.
      destruct (IH p q H) as [Hc Hl].
      change (step_calls (CallStep s :: RoundTripStep :: p))
        with (s :: step_calls p).
      change (step_round_trips (CallStep s :: RoundTripStep :: p))
        with (S (step_round_trips p)).
      split; [rewrite Hc; reflexivity |].
      change (List.length (s :: step_calls p))
        with (S (List.length (step_calls p))).
      rewrite Hl. reflexivity.
Qed.

Lemma calls_before_request signatures p q :
  (p ++ RoundTripStep :: q)%list
  = RoundTripStep
      :: flat_map (fun signature => [CallStep signature; RoundTripStep])
           signatures ->
  step_calls p = firstn (step_round_trips p) signatures
  /\ List.length (step_calls p) = step_round_trips p.
Proof.
  destruct p as [| x p]; [split; reflexivity |].
  simpl. intros H. injection H as -> H.
  exact (calls_before_round_trip signatures p q H).
Qed.

Lemma skeleton_app a b : skeleton (a ++ b) = (skeleton a ++ skeleton b)%list.
Proof. unfold skeleton. apply flat_map_app. Qed.

Lemma find_round_trip pre e post :
  is_round_trip e = true ->
  exists first, find is_round_trip (pre ++ e :: post) = Some first.
Proof.
  intros He. induction pre as [| x pre IH]; simpl.
  - rewrite He. eauto.
  - destruct (is_round_trip x); eauto.
Qed.

Lemma full_plan_calls es first :
  find is_round_trip es = Some first ->
  full_plan es
  = RoundTripStep
      :: flat_map (fun signature => [CallStep signature; RoundTripStep])
           (map call_signature (requested es)).
Proof.
  intros Hf. unfold full_plan, requested, first_response. rewrite Hf.
  destruct (response_segments first) as [segments |]; [| reflexivity].
  rewrite plan_calls. reflexivity.
Qed.

(** No tool call raised before an event that is not the last. *)
Lemma calls_returned_before self query w h pre e post :
  events (process_query self query) w h = (pre ++ e :: post)%list ->
  first_tool_failure pre = None.
Proof.
  intros Hes. pose proof (ends_process_query self query w h) as Hend.
  rewrite Hes, first_tool_failure_app in Hend.
  destruct (first_tool_failure pre) as [[x rest] |]; [| reflexivity].
  destruct Hend as [Hnil _]. destruct rest; discriminate Hnil.
Qed.

Lemma returned_all es :
  first_tool_failure es = None ->
  List.length (returned_results es) = List.length (dispatched es).
Proof.
  unfold returned_results, dispatched.
  induction es as [| x es IH]; [reflexivity |].
  destruct x; simpl; try exact IH.
  destruct out; [| discriminate]. intros H. simpl. rewrite (IH H). reflexivity.
Qed.

Lemma sent_at_messages past e msgs :
  request_messages e = Some msgs -> sent_at past e = Some msgs.
Proof. destruct e; simpl; intros H; try discriminate; exact H. Qed.

Lemma sent_at_round_trip past e :
  is_round_trip e = true -> exists msgs, sent_at past e = Some msgs.
Proof. destruct e; simpl; intros H; try discriminate; eauto. Qed.

(** *** The Anthropic path records no call request *)

Section InvariantLoop.

Variables X S : Type.
Variable body : X -> S -> M S.
Variable inv : S -> Prop.
Variable P : Event -> Prop.

Hypothesis body_keeps :
  forall x s w h,
    inv s ->
    Forall P (events (body x s) w h)
    /\ (forall s', outcome (body x s) w h = Ok s' -> inv s').

Lemma for_each_invariant xs s w h :
  inv s ->
  Forall P (events (for_each xs body s) w h)
  /\ (forall s', outcome (for_each xs body s) w h = Ok s' -> inv s').
Proof.
  revert s w h. induction xs as [| x xs IH]; intros s w h Hinv.
  - unfold events, outcome; simpl. split; [constructor |].
    intros s' Hs. inversion Hs; subst. exact Hinv.
  - rewrite for_each_cons.
    destruct (body_keeps x w h Hinv) as [Hp Hk].
    bind_cases (body x s) w h.
    + rewrite H, H0.
      destruct (IH a w (h ++ events (body x s) w h)%list (Hk a eq_refl))
        as [Hp2 Hk2].
      split; [apply Forall_app; split; assumption | exact Hk2].
    + rewrite H, H0. split; [exact Hp | discriminate].
Qed.

End InvariantLoop.

Lemma recorded_calls_app a b :
  recorded_calls (a ++ b) = (recorded_calls a ++ recorded_calls b)%list.
Proof. unfold recorded_calls. apply flat_map_app. Qed.

Lemma anthropic_block_records_no_call model_name content st w h :
  recorded_calls (ls_messages st) = [] ->
  Forall records_no_call (events (anthropic_block model_name content st) w h)
  /\ (forall st',
         outcome (anthropic_block model_name content st) w h = Ok st' ->
         recorded_calls (ls_messages st') = []).
Proof.
  intros Hinv.
  assert (Hnext : forall (b : bool) c1 c2,
             recorded_calls
               ((if b then (ls_messages st ++ [plain_message "assistant" c1])%list
                 else ls_messages st)
                  ++ [plain_message "user" c2]) = []).
  { intros [|] c1 c2; rewrite !recorded_calls_app, Hinv; reflexivity. }
  destruct content as [text | tool_name tool_args text | class_name type];
    unfold anthropic_block, anthropic_tool_use, session_call_tool,
      anthropic_create, first_block_text;
    unfold events, outcome, bind, request, ret, raise; simpl;
    try (split; [constructor | intros st' Hs; inversion Hs; subst; exact Hinv]).
  destruct (call_tool w h tool_name tool_args) as [result | x]; simpl.
  2: { split; [repeat constructor | discriminate]. }
  destruct (anthropic_messages_create _ _ _) as [response | x]; simpl.
  2: { split; [| discriminate].
       repeat constructor. apply Hnext. }
  destruct (ar_content response) as [| [t | n i [t |] | cn ty] rest]; simpl;
    (split; [repeat constructor; apply Hnext |]);
    intros st' Hs; inversion Hs; apply Hnext.
Qed.

Lemma not_anthropic_records_no_call self es :
  provider_for (current_model self) <> Some Anthropic ->
  Forall (as_configured self) es ->
  Forall records_no_call es.
Proof.
  intros Hp Hes. eapply Forall_impl; [| exact Hes].
  intros e He. destruct e; try exact I.
  destruct He as [He _]. contradiction.
Qed.

Lemma process_query_records_no_call self query w h :
  Forall records_no_call (events (process_query self query) w h).
Proof.
  unfold events. rewrite run_process_query.
  destruct (session self); [| constructor].
  destruct (list_tools w h) as [tools | e]; [| repeat constructor].
  cbv zeta. cbn [snd]. apply Forall_cons; [exact I |].
  destruct (startswith (current_model self) "anthropic/"
            || startswith (current_model self) "claude") eqn:Ha.
  { unfold _process_with_anthropic, events. rewrite run_bind_ret. simpl.
    unfold anthropic_conversation, anthropic_create, events.
    rewrite run_request_bind.
    destruct (anthropic_messages_create _ _ _); simpl;
      [| repeat constructor].
    apply Forall_cons; [reflexivity |].
    exact (proj1 (@for_each_invariant _ _ _
                    (fun st => recorded_calls (ls_messages st) = [])
                    records_no_call
                    (anthropic_block_records_no_call _) _
                    (mkLoopState [plain_message "user" (CStr query)] [] [])
                    _ _ eq_refl)). }
  destruct (startswith (current_model self) "gemini") eqn:Hg.
  { apply (@not_anthropic_records_no_call self).
    - unfold provider_for. rewrite Ha, Hg. discriminate.
    - apply gemini_as_configured. unfold provider_for. rewrite Ha, Hg.
      reflexivity. }
  destruct (startswith (current_model self) "openai/"
            || startswith (current_model self) "openrouter/") eqn:Ho.
  { apply (@not_anthropic_records_no_call self).
    - unfold provider_for. rewrite Ha, Hg, Ho. discriminate.
    - apply openrouter_as_configured. unfold provider_for.
      rewrite Ha, Hg, Ho. reflexivity. }
  constructor.
Qed.

(** C1, as the code has it.  When a request goes to the backend, the tool
    calls answered are those run so far, no more: one for each earlier
    request of the query, and they are the first calls the first response
    asks for, in its order.  What the request hands over records the output
    of exactly those calls, in order.  The other calls of the first response
    are still unanswered when the request is sent, and calls asked for in a
    later response are never run.  As for call requests in [messages]: an
    Anthropic request records none, and each one the OpenRouter path writes
    is followed by exactly one result. *)
Theorem requests_carry_results_so_far (self : MCPClient) (query : string)
    (w : World) (h : list Event) (pre post : list Event) (e : Event) :
  events (process_query self query) w h = (pre ++ e :: post)%list ->
  is_round_trip e = true ->
  map sent_signature (dispatched pre)
  = map call_signature
      (firstn (round_trips pre)
         (requested (events (process_query self query) w h)))
  /\ List.length (dispatched pre) = round_trips pre
  /\ (exists msgs,
         sent_at pre e = Some msgs
         /\ recorded_results msgs = returned_results pre
         /\ List.length (recorded_results msgs) = round_trips pre)
  /\ (forall msgs, request_messages e = Some msgs -> all_calls_answered msgs)
  /\ (forall req out,
         e = EvAnthropicCreate req out ->
         recorded_calls (areq_messages req) = []).
Proof.
  intros Hes He.
  destruct (process_query_within_plan self query w h) as [rest [Hp _]].
  destruct (find_round_trip pre e post He) as [first Hfirst].
  rewrite <- Hes in Hfirst.
  rewrite (full_plan_calls _ Hfirst) in Hp.
  rewrite Hes in Hp at 2. rewrite skeleton_app in Hp.
  assert (Hstep : skeleton (e :: post) = RoundTripStep :: skeleton post).
  { destruct e; try discriminate He; reflexivity. }
  rewrite Hstep, <- app_assoc in Hp. simpl in Hp.
  destruct (calls_before_request _ _ _ (eq_sym Hp)) as [Hcalls Hlen].
  rewrite step_calls_skeleton, step_round_trips_skeleton in Hcalls.
  rewrite step_calls_skeleton, step_round_trips_skeleton, length_map in Hlen.
  pose proof (process_query_requests_sound self query w h) as Hs.
  rewrite Hes in Hs.
  split; [| split; [exact Hlen | split; [| split]]].
  - rewrite Hcalls. apply firstn_map.
  - destruct (sent_at_round_trip pre e He) as [msgs Hm].
    destruct (requests_sound_at [] pre e post Hs Hm) as [_ Hrec].
    exists msgs. split; [exact Hm | split; [exact Hrec |]].
    simpl in Hrec. rewrite Hrec, <- Hlen.
    apply returned_all. exact (calls_returned_before _ _ _ _ _ _ _ Hes).
  - intros msgs Hm.
    destruct (requests_sound_at [] pre e post Hs (sent_at_messages pre e Hm))
      as [Hans _].
    exact Hans.
  - intros req out ->.
    pose proof (process_query_records_no_call self query w h) as Hn.
    rewrite Hes in Hn. apply Forall_app in Hn. destruct Hn as [_ Hn].
    inversion Hn; subst. assumption.
Qed.

End Properties.

(** * The properties on the sample worlds *)

Import Sample.
#[local] Existing Instance Sample.runtime.

(** ** C1 *)

(** Two tool calls asked for in the first response: when the second
    request is sent, one result is in its messages and the other call is
    still unanswered; the messages record neither call. *)
Lemma pending_call_counterexample :
  let es := events (process_query anthropic_client "q") two_calls_world [] in
  let pre := firstn 3 es in
  let e := nth 3 es (EvPrint EmptyString) in
  es = (pre ++ e :: skipn 4 es)%list
  /\ is_round_trip e = true
  /\ map call_signature (requested pre)
     = [ ("lookup", Ok (VDict [("q", "x")])); ("lookup", Ok (VDict [])) ]
  /\ sent_at pre e
     = Some [ plain_message "user" (CStr "q");
              plain_message "user" (CResult (VText "42")) ]
  /\ List.length
       (recorded_results [ plain_message "user" (CStr "q");
                           plain_message "user" (CResult (VText "42")) ])
     < List.length (requested pre)
  /\ outcome (process_query anthropic_client "q") two_calls_world []
     = Ok ("[Calling tool lookup with args {'q': 'x'}]" ++ nl ++ "first"
             ++ nl ++ "[Calling tool lookup with args {}]" ++ nl
             ++ "second").
Proof.
  intros es pre e.
  split; [vm_compute; reflexivity |].
  split; [vm_compute; reflexivity |].
  split; [vm_compute; reflexivity |].
  split; [vm_compute; reflexivity |].
  split; [vm_compute; lia | vm_compute; reflexivity].
Qed.

(** The second request of that run. *)
Lemma requests_carry_results_so_far_witness :
  let es := events (process_query anthropic_client "q") two_calls_world [] in
  let pre := firstn 3 es in
  let e := nth 3 es (EvPrint EmptyString) in
  es = (pre ++ e :: skipn 4 es)%list
  /\ is_round_trip e = true
  /\ map sent_signature (dispatched pre)
     = map call_signature (firstn (round_trips pre) (requested es))
  /\ List.length (dispatched pre) = round_trips pre
  /\ (exists msgs,
         sent_at pre e = Some msgs
         /\ recorded_results msgs = returned_results pre
         /\ List.length (recorded_results msgs) = round_trips pre)
  /\ (forall msgs, request_messages e = Some msgs -> all_calls_answered msgs)
  /\ (forall req out,
         e = EvAnthropicCreate req out ->
         recorded_calls (areq_messages req) = []).
Proof.
  intros es pre e.
  assert (Hes : es = (pre ++ e :: skipn 4 es)%list)
    by (vm_compute; reflexivity).
  assert (He : is_round_trip e = true) by (vm_compute; reflexivity).
  split; [exact Hes | split; [exact He |]].
  exact (requests_carry_results_so_far anthropic_client "q" two_calls_world
           [] pre (skipn 4 es) e Hes He).
Defined.

(** ** C2 *)

(** Every response asks for tools, yet the run ends by itself after twelve
    round-trips, more than a cap of ten, and returns an answer. *)
Lemma runaway_backend_counterexample :
  always_requests_tools runaway_world
  /\ round_trips
       (events (process_query (client "claude-3-opus-20240229") "q")
          runaway_world [])
     = 12
  /\ ~ (round_trips
          (events (process_query (client "claude-3-opus-20240229") "q")
             runaway_world [])
        <= 10)
  /\ exists answer,
       outcome (process_query (client "claude-3-opus-20240229") "q")
         runaway_world []
       = Ok answer.
Proof.
  split; [| split; [| split]].
  - intros h. split; [| split]; intros req response H;
      inversion H; subst; discriminate.
  - vm_compute. reflexivity.
  - assert (H : round_trips
                  (events (process_query (client "claude-3-opus-20240229") "q")
                     runaway_world [])
                = 12) by (vm_compute; reflexivity).
    rewrite H. lia.
  - eexists. vm_compute. reflexivity.
Qed.

Lemma round_trips_within_first_response_witness :
  round_trips
    (events (process_query (client "claude-3-opus-20240229") "q")
       runaway_world [])
  = round_trip_budget
      (events (process_query (client "claude-3-opus-20240229") "q")
         runaway_world []).
Proof.
  destruct (round_trips_within_first_response
              (client "claude-3-opus-20240229") "q" runaway_world [])
    as [_ Hexact].
  eapply Hexact. vm_compute. reflexivity.
Defined.

(** ** C3 *)

(** The catalog is empty, the backend asks for "ghost": the call goes to the
    tool host all the same, and what the host returned is what the
    transcript records, not an "unknown tool" failure. *)
Lemma undeclared_tool_counterexample :
  list_tools ghost_world [] = Ok []
  /\ dispatched (events (process_query (client "claude-3-opus-20240229") "q")
                   ghost_world [])
     = [("ghost", VDict [])]
  /\ returned_results
       (events (process_query (client "claude-3-opus-20240229") "q")
          ghost_world [])
     = [VText "boo"].
Proof. repeat split; vm_compute; reflexivity. Qed.

Lemma tool_calls_sent_unchecked_witness :
  map call_signature
    (requested (events (process_query (client "claude-3-opus-20240229") "q")
                  ghost_world []))
  = map sent_signature
      (dispatched (events (process_query (client "claude-3-opus-20240229") "q")
                     ghost_world [])).
Proof.
  destruct (tool_calls_sent_unchecked (client "claude-3-opus-20240229") "q"
              ghost_world [])
    as [unsent [Hsent Hall]].
  assert (Hok : outcome (process_query (client "claude-3-opus-20240229") "q")
                   ghost_world []
                 = Ok ("[Calling tool ghost with args {}]" ++ nl ++ "done"))
    by (vm_compute; reflexivity).
  rewrite Hsent, (Hall _ Hok), app_nil_r. reflexivity.
Defined.

(** ** C4 *)

(** The tool host times out: [process_query] raises the timeout, after one
    round-trip, and nothing of it reaches a transcript. *)
Lemma tool_timeout_counterexample :
  outcome (process_query (client "claude-3-opus-20240229") "q")
    timeout_world []
  = Raise (mkExn "TimeoutError" "tool call timed out")
  /\ round_trips
       (events (process_query (client "claude-3-opus-20240229") "q")
          timeout_world [])
     = 1.
Proof. split; vm_compute; reflexivity. Qed.

Lemma tool_failure_ends_query_witness :
  let es := events (process_query (client "claude-3-opus-20240229") "q")
              timeout_world [] in
  es = (firstn 2 es
          ++ EvCallTool "lookup" (VDict [("q", "x")])
               (Raise (mkExn "TimeoutError" "tool call timed out")) :: [])%list
  /\ ([] : list Event) = []
  /\ outcome (process_query (client "claude-3-opus-20240229") "q")
       timeout_world []
     = Raise (mkExn "TimeoutError" "tool call timed out").
Proof.
  intros es.
  assert (Hes : es = (firstn 2 es
                        ++ EvCallTool "lookup" (VDict [("q", "x")])
                             (Raise (mkExn "TimeoutError"
                                       "tool call timed out")) :: [])%list)
    by (vm_compute; reflexivity).
  split; [exact Hes |].
  exact (tool_failure_ends_query (client "claude-3-opus-20240229") "q"
           timeout_world [] (firstn 2 es) [] _ _ _ Hes).
Defined.

(** ** C5 *)

(** C5, on the code.  No variable is set in the environment, so no Anthropic
    key either, and the model is the default Anthropic one: the query goes to the Anthropic
    backend all the same, where the Gemini and OpenRouter paths answer with
    their key message and send nothing. *)
Lemma anthropic_request_without_credential :
  current_model (__init__ empty_environ) = "anthropic/claude-3-5-sonnet"
  /\ round_trips
       (events (main empty_environ "server.py" ["What is 2+2?"; "quit"])
          four_world [])
     = 1
  /\ process_query
       {| session := true; gemini := false; openrouter := false;
          current_model := "gemini-1.5-pro" |} "What is 2+2?" four_world []
     = (Ok gemini_key_message, [EvListTools (Ok [])])
  /\ process_query
       {| session := true; gemini := false; openrouter := false;
          current_model := "openai/gpt-4o" |} "What is 2+2?" four_world []
     = (Ok openrouter_key_message, [EvListTools (Ok [])]).
Proof. repeat split; vm_compute; reflexivity. Qed.

(** ** C6 *)



(** ** C7 *)

(** The lookup scenario on the Anthropic path: the answer carries the line
    announcing the call, and the transcript ends with two messages. *)
Lemma lookup_scenario_counterexample :
  outcome (process_query anthropic_client "What is x?") lookup_world []
  = Ok ("[Calling tool lookup with args {'q': 'x'}]" ++ nl
          ++ "The answer is 42")
  /\ outcome (process_query anthropic_client "What is x?") lookup_world []
     <> Ok "The answer is 42"
  /\ option_map (@List.length Message)
       (final_transcript
          (anthropic_conversation anthropic_client "What is x?"
             (available_tools_of [lookup_tool]))
          lookup_world [EvListTools (Ok [lookup_tool])])
     = Some 2.
Proof.
  split; [vm_compute; reflexivity | split; [| vm_compute; reflexivity]].
  intros H. vm_compute in H. discriminate H.
Qed.

Lemma single_call_scenario_witness :
  loads lookup_arguments = Ok (VDict [("q", "x")])
  /\ outcome (process_query openrouter_client "What is x?") lookup_world []
     = Ok (nl ++ calling_tool_line "lookup" (VDict [("q", "x")]) ++ nl
             ++ "The answer is 42").
Proof.
  split; [vm_compute; reflexivity |].
  assert (Hloads : json_loads lookup_arguments = Ok (VDict [("q", "x")]))
    by (vm_compute; reflexivity).
  destruct (single_call_scenario [lookup_tool] "lookup" lookup_arguments
              "call_1" lookup_result "The answer is 42" "What is x?" Hloads)
    as (_ & _ & Hanswer & _).
  exact Hanswer.
Defined.

(** ** C8 *)

(** Two text segments and no tool call: the answer is the two texts on two
    lines, not their concatenation. *)
Lemma two_texts_counterexample :
  first_response
    (events (process_query anthropic_client "hi") two_texts_world [])
  = Some [TextSegment "a"; TextSegment "b"]
  /\ outcome (process_query anthropic_client "hi") two_texts_world []
     = Ok ("a" ++ nl ++ "b")
  /\ outcome (process_query anthropic_client "hi") two_texts_world []
     <> Ok ("a" ++ "b").
Proof.
  split; [vm_compute; reflexivity | split; [vm_compute; reflexivity |]].
  intros H. vm_compute in H. discriminate H.
Qed.

(** "What is 2+2?" with no tools declared and the answer "4". *)
Lemma tool_free_response_is_the_answer_witness :
  first_response
    (events (process_query anthropic_client "What is 2+2?") four_world [])
  = Some [TextSegment "4"]
  /\ tool_calls_of [TextSegment "4"] = []
  /\ outcome (process_query anthropic_client "What is 2+2?") four_world []
     = Ok "4"
  /\ dispatched
       (events (process_query anthropic_client "What is 2+2?") four_world [])
     = []
  /\ round_trips
       (events (process_query anthropic_client "What is 2+2?") four_world [])
     = 1.
Proof.
  assert (Hfirst : first_response
                     (events (process_query anthropic_client "What is 2+2?")
                        four_world [])
                   = Some [TextSegment "4"]) by (vm_compute; reflexivity).
  assert (Hnone : tool_calls_of [TextSegment "4"] = []) by (vm_compute; reflexivity).
  split; [exact Hfirst | split; [exact Hnone |]].
  exact (tool_free_response_is_the_answer anthropic_client "What is 2+2?"
           four_world [] Hfirst Hnone).
Defined.

(** ** C9 *)

(** The lookup scenario run twice, with different queries, the second time
    against a tool host that answers otherwise. *)
Lemma normalization_deterministic_witness :
  let other_world :=
    single_call_world [] "lookup" (VDict [("q", "x")]) lookup_arguments
      "call_1" {| ctr_content := VText "boo"; ctr_isError := false |}
      "It is boo" in
  dispatched (events (process_query anthropic_client "one") lookup_world [])
  = dispatched (events (process_query anthropic_client "two") other_world []).
Proof.
  intros other_world.
  assert (Hn1 : first_native_response
                  (events (process_query anthropic_client "one")
                     lookup_world [])
                = Some (NativeAnthropic {| ar_content := [lookup_call] |}))
    by (vm_compute; reflexivity).
  assert (Hn2 : first_native_response
                  (events (process_query anthropic_client "two")
                     other_world [])
                = Some (NativeAnthropic {| ar_content := [lookup_call] |}))
    by (vm_compute; reflexivity).
  assert (Ha1 : outcome (process_query anthropic_client "one") lookup_world []
                = Ok ("[Calling tool lookup with args {'q': 'x'}]" ++ nl
                        ++ "The answer is 42"))
    by (vm_compute; reflexivity).
  assert (Ha2 : outcome (process_query anthropic_client "two") other_world []
                = Ok ("[Calling tool lookup with args {'q': 'x'}]" ++ nl
                        ++ "It is boo"))
    by (vm_compute; reflexivity).
  destruct (normalization_deterministic anthropic_client anthropic_client
              "one" "two" lookup_world other_world [] []
              Hn1 Hn2 Ha1 Ha2)
    as [Hsame _].
  exact Hsame.
Defined.

(** ** C10 *)

(** An unknown model while the tool host cannot be reached: the query
    raises, and no "Unknown model provider" message is returned. *)
Lemma unknown_provider_counterexample :
  unknown_provider "mistral-7b"
  /\ process_query (client "mistral-7b") "hi" unreachable_world []
     = (Raise (mkExn "ConnectionError" "tool host unreachable"),
        [EvListTools (Raise (mkExn "ConnectionError" "tool host unreachable"))])
  /\ outcome (process_query (client "mistral-7b") "hi") unreachable_world []
     <> Ok ("Unknown model provider for: " ++ "mistral-7b").
Proof.
  split; [repeat split | split; [vm_compute; reflexivity |]].
  intros H. vm_compute in H. discriminate H.
Qed.

Lemma unknown_provider_reported_witness :
  unknown_provider "mistral-7b"
  /\ outcome (process_query (client "mistral-7b") "hi") four_world []
     = Ok ("Unknown model provider for: " ++ "mistral-7b").
Proof.
  assert (Hunknown : unknown_provider (current_model (client "mistral-7b")))
    by (repeat split).
  split; [exact Hunknown |].
  destruct (unknown_provider_reported (client "mistral-7b") "hi" four_world []
              Hunknown)
    as (_ & _ & Hanswer).
  exact (Hanswer [] eq_refl eq_refl).
Defined.
(** ** The further properties on the sample worlds *)

(** A session of two queries, a model change and a listing, ended by a
    "QUIT" between two spaces that are not ASCII: three catalog fetches. *)
Lemma session_fetches_catalog_per_query_witness :
  outcome (connect_to_server (__init__ empty_environ) "server.py")
    four_world []
  = Ok {| session := true; gemini := false; openrouter := false;
          current_model := "anthropic/claude-3-5-sonnet" |}
  /\ query_lines
       (map Ok ["What is 2+2?"; "model list"; "model set claude-3";
                "And 3+3?"; spaced_quit; "never"])
     = 2
  /\ catalog_fetches
       (events (main empty_environ "server.py"
                  ["What is 2+2?"; "model list"; "model set claude-3";
                   "And 3+3?"; spaced_quit; "never"])
          four_world [])
     = 1 + query_lines
             (map Ok ["What is 2+2?"; "model list"; "model set claude-3";
                      "And 3+3?"; spaced_quit; "never"]).
Proof.
  assert (Hc : outcome (connect_to_server (__init__ empty_environ) "server.py")
                 four_world []
               = Ok {| session := true; gemini := false; openrouter := false;
                       current_model := "anthropic/claude-3-5-sonnet" |})
    by (vm_compute; reflexivity).
  assert (Hend : outcome
                   (main empty_environ "server.py"
                      ["What is 2+2?"; "model list"; "model set claude-3";
                       "And 3+3?"; spaced_quit; "never"]) four_world []
                 = Ok (Quit {| session := true; gemini := false;
                               openrouter := false;
                               current_model := "claude-3" |}))
    by (vm_compute; reflexivity).
  split; [exact Hc | split; [vm_compute; reflexivity |]].
  exact (proj2 (session_fetches_catalog_per_query empty_environ "server.py"
                  ["What is 2+2?"; "model list"; "model set claude-3";
                   "And 3+3?"; spaced_quit; "never"] four_world [] Hc)
           _ Hend).
Defined.

(** A Gemini model of the listing, on a client with every key, against an
    SDK whose [start_chat] refuses the [tools] keyword: the query still goes
    to Gemini, where it fails. *)
Lemma listed_models_reach_a_backend_witness :
  In ("gemini", ["gemini-2.0-flash"; "gemini-1.5-flash"; "gemini-1.5-pro"])
    (get_available_models anthropic_client)
  /\ exists p first rest,
       events (process_query (with_model anthropic_client "gemini-1.5-pro")
                 "What is 2+2?") no_tools_keyword_world []
       = EvListTools (Ok []) :: first :: rest
       /\ addressed_to first = Some p
       /\ provider_for "gemini-1.5-pro" = Some p
       /\ Some p = (if String.eqb "gemini-1.5-pro" "anthropic/claude-3-opus"
                    then Some Anthropic
                    else listed_under "gemini")
       /\ key_configured anthropic_client p = true.
Proof.
  assert (Hp : In ("gemini",
                   ["gemini-2.0-flash"; "gemini-1.5-flash"; "gemini-1.5-pro"])
                 (get_available_models anthropic_client))
    by (right; left; reflexivity).
  assert (Hm : In "gemini-1.5-pro"
                 ["gemini-2.0-flash"; "gemini-1.5-flash"; "gemini-1.5-pro"])
    by (right; right; left; reflexivity).
  assert (Ht : list_tools no_tools_keyword_world [] = Ok []) by reflexivity.
  split; [exact Hp |].
  exact (@listed_models_reach_a_backend _ anthropic_client "gemini"
           "gemini-1.5-pro" "What is 2+2?" _ no_tools_keyword_world [] []
           Hp Hm eq_refl Ht).
Defined.

(** Default model a Gemini one, no Gemini key in the environment. *)
Lemma missing_key_reported_witness :
  outcome (connect_to_server (__init__ gemini_environ) "server.js")
    four_world []
  = Ok {| session := true; gemini := false; openrouter := false;
          current_model := "gemini-1.5-pro" |}
  /\ process_query
       {| session := true; gemini := false; openrouter := false;
          current_model := "gemini-1.5-pro" |} "What is 2+2?" four_world []
     = (Ok gemini_key_message, [EvListTools (Ok [])]).
Proof.
  assert (Hc : outcome (connect_to_server (__init__ gemini_environ)
                          "server.js") four_world []
               = Ok {| session := true; gemini := false; openrouter := false;
                       current_model := "gemini-1.5-pro" |})
    by (vm_compute; reflexivity).
  assert (Ht : list_tools four_world [] = Ok []) by reflexivity.
  split; [exact Hc |].
  destruct (missing_key_reported gemini_environ "server.js" "What is 2+2?"
              four_world four_world [] [] Hc Ht) as [Hgemini _].
  apply Hgemini; [left |]; vm_compute; reflexivity.
Defined.

(** A Ruby script is not accepted. *)
Lemma main_rejects_other_scripts_witness :
  endswith "server.rb" ".py" = false
  /\ endswith "server.rb" ".js" = false
  /\ main empty_environ "server.rb" ["What is 2+2?"] four_world []
     = (Raise (mkExn "ValueError" "Server script must be a .py or .js file"),
        []).
Proof.
  assert (Hpy : endswith "server.rb" ".py" = false)
    by (vm_compute; reflexivity).
  assert (Hjs : endswith "server.rb" ".js" = false)
    by (vm_compute; reflexivity).
  split; [exact Hpy | split; [exact Hjs |]].
  exact (main_rejects_other_scripts empty_environ "server.rb"
           ["What is 2+2?"] four_world [] Hpy Hjs).
Defined.

(** The backend is down: the query raises its connection error after the
    catalog fetch and the one request. *)
Lemma failed_request_ends_query_witness :
  let down := mkExn "APIConnectionError" "Connection error." in
  let es := events (process_query anthropic_client "What is 2+2?")
              backend_down_world [] in
  es = (firstn 1 es ++ nth 1 es (EvPrint EmptyString) :: [])%list
  /\ raised (nth 1 es (EvPrint EmptyString)) = Some down
  /\ outcome (process_query anthropic_client "What is 2+2?")
       backend_down_world []
     = Raise down.
Proof.
  intros down es.
  assert (Hes : es = (firstn 1 es ++ nth 1 es (EvPrint EmptyString) :: [])%list)
    by (vm_compute; reflexivity).
  assert (Hx : raised (nth 1 es (EvPrint EmptyString)) = Some down)
    by (vm_compute; reflexivity).
  split; [exact Hes | split; [exact Hx |]].
  exact (proj2 (failed_request_ends_query anthropic_client "What is 2+2?"
                  backend_down_world [] (firstn 1 es) []
                  (nth 1 es (EvPrint EmptyString)) Hes Hx)).
Defined.

(** Two tool calls asked for, the reply to the first has no content: the
    query raises [IndexError] and the second call is never made. *)
Lemma unreadable_reply_ends_query_witness :
  let es := events (process_query anthropic_client "What is x?")
              empty_reply_world [] in
  List.length (dispatched es) = 1
  /\ outcome (process_query anthropic_client "What is x?")
       empty_reply_world []
     = Raise (mkExn "IndexError" "list index out of range").
Proof.
  intros es.
  assert (Hes : es
                = (firstn 3 es
                     ++ EvAnthropicCreate
                          {| areq_model := "claude-3-5-sonnet-20241022";
                             areq_max_tokens := 1000;
                             areq_messages :=
                               [ plain_message "user" (CStr "What is x?");
                                 plain_message "user" (CResult (VText "42")) ];
                             areq_tools := None |}
                          (Ok {| ar_content := [] |}) :: [])%list)
    by (vm_compute; reflexivity).
  split; [vm_compute; reflexivity |].
  exact (proj2 (unreadable_reply_ends_query anthropic_client "What is x?"
                  empty_reply_world [] (firstn 3 es) [] _ _ Hes eq_refl
                  eq_refl)).
Defined.

(** The two requests of the lookup scenario on the OpenRouter path: the
    second carries the first's messages and the call with its result. *)
Lemma transcript_only_grows_witness :
  let es := events (process_query openrouter_client "What is x?")
              lookup_world [] in
  exists more,
    request_messages (nth 3 es (EvPrint EmptyString))
    = option_map (fun msgs => (msgs ++ more)%list)
        (request_messages (nth 1 es (EvPrint EmptyString)))
    /\ List.length more = 2.
Proof.
  intros es.
  assert (Hes : es = ([nth 0 es (EvPrint EmptyString)]
                        ++ nth 1 es (EvPrint EmptyString)
                        :: [nth 2 es (EvPrint EmptyString)]
                        ++ nth 3 es (EvPrint EmptyString) :: [])%list)
    by (vm_compute; reflexivity).
  assert (Hm1 : request_messages (nth 1 es (EvPrint EmptyString))
                = Some [plain_message "user" (CStr "What is x?")])
    by (vm_compute; reflexivity).
  assert (Hm2 : request_messages (nth 3 es (EvPrint EmptyString))
                = Some [ plain_message "user" (CStr "What is x?");
                         mkMessage "assistant" CNone
                           (Some [mkToolCallDict "call_1" "lookup"
                                    lookup_arguments]) None;
                         mkMessage "tool" (CResult (VText "42")) None
                           (Some "call_1") ])
    by (vm_compute; reflexivity).
  destruct (proj2 (transcript_only_grows openrouter_client "What is x?"
                     lookup_world [])
              _ _ _ _ _ _ _ Hes Hm1 Hm2) as [more Hmore].
  exists more. rewrite Hm1, Hm2. simpl. split; [rewrite Hmore; reflexivity |].
  inversion Hmore. reflexivity.
Defined.

(** The tool host times out on the first line: the loop prints the error and
    goes on to the second.  The tool call is cancelled instead: the loop is
    left with the cancellation. *)
Lemma chat_loop_reports_exception_witness :
  outcome (process_query anthropic_client (strip "What is x?"))
    timeout_world []
  = Raise (mkExn "TimeoutError" "tool call timed out")
  /\ outcome (chat_turns anthropic_client [Ok "What is x?"; Ok "quit"])
       timeout_world []
     = Ok (Quit anthropic_client)
  /\ outcome (process_query anthropic_client (strip "What is x?"))
       cancelled_world []
     = Raise cancelled
  /\ outcome (chat_turns anthropic_client [Ok "What is x?"; Ok "quit"])
       cancelled_world []
     = Raise cancelled.
Proof.
  assert (Hraise : outcome (process_query anthropic_client
                              (strip "What is x?")) timeout_world []
                   = Raise (mkExn "TimeoutError" "tool call timed out"))
    by (vm_compute; reflexivity).
  assert (Hcancel : outcome (process_query anthropic_client
                               (strip "What is x?")) cancelled_world []
                    = Raise cancelled)
    by (vm_compute; reflexivity).
  assert (Hquit : String.eqb (lower (strip "What is x?")) "quit" = false)
    by (vm_compute; reflexivity).
  assert (Hlist : String.eqb (lower (strip "What is x?")) "model list" = false)
    by (vm_compute; reflexivity).
  assert (Hset : startswith (lower (strip "What is x?")) "model set " = false)
    by (vm_compute; reflexivity).
  split; [exact Hraise | split; [| split; [exact Hcancel |]]].
  - pose proof (@chat_loop_reports_exception _ anthropic_client "What is x?"
                  [Ok "quit"] timeout_world [] _ Hquit Hlist Hset Hraise)
      as Hloop.
    cbv zeta in Hloop. destruct Hloop as [Hcaught _].
    destruct (Hcaught eq_refl) as [_ Hout].
    rewrite Hout. vm_compute. reflexivity.
  - pose proof (@chat_loop_reports_exception _ anthropic_client "What is x?"
                  [Ok "quit"] cancelled_world [] _ Hquit Hlist Hset Hcancel)
      as Hloop.
    cbv zeta in Hloop. destruct Hloop as [_ Hescapes].
    unfold outcome. rewrite (Hescapes eq_refl). reflexivity.
Defined.
